(** * india_news_forward: the crawler's extraction pipeline and the forwarder's
      message formatter, embedded from

      - [india_news_telegram_crawler/news_crawler_updated.py]
      - [india_news_telegram_crawler/news_forwarder.py]

    Python values are modelled as follows.

    - [str] is [string]: the sequence of bytes of its UTF-8 encoding.  Where
      the program works on characters ([str.strip], [\d], [int], [str.isdigit],
      [str.lower], [s[-n:]]) the bytes are grouped into characters first
      ([Py.chars]).  What these operations do on ASCII is fixed here; what
      they do on other characters is read from the interpreter's Unicode
      tables, which are part of the [Runtime] that a [World] carries.  The
      characters that [str.strip] removes are the same in every version of
      the tables that Python 3 ships and are listed in [Py.is_space].
    - [int] is [Z] (unbounded); [int(s)] raises [ValueError] on a text that
      is not a numeral and on one that is longer than the interpreter's limit
      for conversions ([int_max_str_digits]).
    - a [dict] with string keys is a [gmap string Value].
    - a parsed page (a [BeautifulSoup] object) is a tree of [Node]s.
    - the random generator, the clock, the network, the log and the file
      system are fields of an explicit [World], threaded through a small
      state-and-exception monad [M].  The network and the file system answer
      as the world says ([http], [fs]); the files that the program writes are
      recorded in order ([writes]), and the file system may answer
      differently after each of them. *)

From Stdlib Require Import ZArith NArith Ascii String List Lia Bool Sorted Permutation.
From stdpp Require Import base option gmap strings list.

Set Warnings "-register-all".

Open Scope string_scope.
Open Scope Z_scope.

(** ** Values, exceptions and the interpreter *)

(** The values stored in an article [dict] (and in its JSON file). *)
Inductive Value :=
| VStr (s : string)
| VInt (n : Z).

Abbreviation Article := (gmap string Value).

Inductive PyExc :=
| AttributeError (msg : string)
| ValueError (msg : string)
| KeyError (key : string)
| TypeError (msg : string)
| OverflowError (msg : string)
| OSError (msg : string).

Definition exc_str (e : PyExc) : string :=
  match e with
  | AttributeError m | ValueError m | TypeError m | OverflowError m | OSError m => m
  | KeyError k => "'" ++ k ++ "'"
  end.

Inductive Result (A : Type) :=
| Ok (a : A)
| Raise (e : PyExc).
Arguments Ok {A} a.
Arguments Raise {A} e.

(** A decimal digit. *)
Inductive Digit := D0 | D1 | D2 | D3 | D4 | D5 | D6 | D7 | D8 | D9.

Definition digit_Z (d : Digit) : Z :=
  match d with
  | D0 => 0 | D1 => 1 | D2 => 2 | D3 => 3 | D4 => 4
  | D5 => 5 | D6 => 6 | D7 => 7 | D8 => 8 | D9 => 9
  end.

(** What the interpreter brings along: its Unicode tables, consulted for
    characters outside ASCII only (a character is given by the bytes of its
    UTF-8 encoding), and the limit on the length of a numeral that [int]
    converts ([sys.get_int_max_str_digits()]: 4300 by default from Python
    3.11 on, 0 where there is no limit). *)
Record Runtime := {
  (** the decimal digits (category Nd) and their values: what [\d] matches
      and what [int] reads *)
  decimal_digit : string -> option Digit;
  (** the characters that [str.isdigit] accepts although they are no decimal
      digits (superscripts and the like) *)
  other_digit : string -> bool;
  (** [str.lower] on a text that is not all ASCII *)
  lower_text : string -> string;
  int_max_str_digits : nat
}.

(** ** Python strings *)

Module Py.

Definition byte (c : ascii) : N := N_of_ascii c.

Definition in_range (lo hi n : N) : bool := (lo <=? n)%N && (n <=? hi)%N.

(** Truthiness of a [str]: non-empty. *)
Definition truthy (s : string) : bool :=
  match s with EmptyString => false | _ => true end.

(** *** Characters *)

Definition is_continuation (c : ascii) : bool := in_range 128 191 (byte c).

(** The number of bytes of the character whose encoding starts with [c]. *)
Definition char_len (c : ascii) : nat :=
  if (byte c <? 192)%N then 1%nat
  else if (byte c <? 224)%N then 2%nat
  else if (byte c <? 240)%N then 3%nat
  else if (byte c <? 248)%N then 4%nat
  else 1%nat.

(** The scan behind [chars]: [more] counts the bytes of the current
    character that are still to come; the result is the rest of the current
    character and the characters after it. *)
Fixpoint chars_go (s : string) (more : nat) : string * list string :=
  match s with
  | EmptyString => (EmptyString, [])
  | String b s' =>
      match more with
      | S k =>
          if is_continuation b
          then let '(c, r) := chars_go s' k in (String b c, r)
          else let '(c, r) := chars_go s' (char_len b - 1) in
               (EmptyString, String b c :: r)
      | O =>
          let '(c, r) := chars_go s' (char_len b - 1) in
          (EmptyString, String b c :: r)
      end
  end.

(** The characters of a text, each as the bytes of its encoding. *)
Definition chars (s : string) : list string := snd (chars_go s 0).

(** [''.join(l)] *)
Definition join (l : list string) : string := String.concat "" l.

Fixpoint take_while {A} (p : A -> bool) (l : list A) : list A :=
  match l with
  | [] => []
  | x :: r => if p x then x :: take_while p r else []
  end.

Fixpoint drop_while {A} (p : A -> bool) (l : list A) : list A :=
  match l with
  | [] => []
  | x :: r => if p x then drop_while p r else l
  end.

(** [l[-n:]] for a positive literal [n]: the last [n] elements, or all of
    [l] when it is shorter. *)
Definition lastn {A} (n : nat) (l : list A) : list A :=
  List.skipn (length l - n) l.

Definition bytes (c : string) : list N := List.map byte (list_ascii_of_string c).

(** [c.isspace()]: the characters that [strip] removes.  In ASCII these are
    the codes 9 to 13 and 28 to 32; beyond, U+0085, U+00A0, U+1680, U+2000 to
    U+200A, U+2028, U+2029, U+202F, U+205F and U+3000. *)
Definition is_space (c : string) : bool :=
  match bytes c with
  | [a] => in_range 9 13 a || in_range 28 32 a
  | [a; b] => (a =? 194)%N && ((b =? 133)%N || (b =? 160)%N)
  | [a; b; d] =>
      (a =? 225)%N && (b =? 154)%N && (d =? 128)%N
      || (a =? 226)%N && (b =? 128)%N
         && (in_range 128 138 d || (d =? 168)%N || (d =? 169)%N || (d =? 175)%N)
      || (a =? 226)%N && (b =? 129)%N && (d =? 159)%N
      || (a =? 227)%N && (b =? 128)%N && (d =? 128)%N
  | _ => false
  end.

(** [s.strip()] *)
Definition strip (s : string) : string :=
  join (List.rev (drop_while is_space (List.rev (drop_while is_space (chars s))))).

Fixpoint is_ascii (s : string) : bool :=
  match s with
  | EmptyString => true
  | String c s' => (byte c <? 128)%N && is_ascii s'
  end.

Definition is_upper (c : ascii) : bool := in_range 65 90 (byte c).

Definition lower_char (c : ascii) : ascii :=
  if is_upper c then ascii_of_N (byte c + 32) else c.

Fixpoint lower_ascii (s : string) : string :=
  match s with
  | EmptyString => EmptyString
  | String c s' => String (lower_char c) (lower_ascii s')
  end.

(** [s.lower()] *)
Definition lower (rt : Runtime) (s : string) : string :=
  if is_ascii s then lower_ascii s else lower_text rt s.

(** *** Substrings *)

(** The scan behind [replace] and [split]: [skip] counts the bytes of the
    occurrence of the pattern that is being stepped over. *)
Fixpoint replace_go (old new s : string) (skip : nat) : string :=
  match s with
  | EmptyString => EmptyString
  | String c s' =>
      match skip with
      | S k => replace_go old new s' k
      | O =>
          if String.prefix old s
          then new ++ replace_go old new s' (String.length old - 1)
          else String c (replace_go old new s' 0)
      end
  end.

Fixpoint intersperse (new s : string) : string :=
  match s with
  | EmptyString => new
  | String c s' => new ++ String c (intersperse new s')
  end.

(** [s.replace(old, new)]: every non-overlapping occurrence, left to right
    (every call of the program passes a pattern of one ASCII letter). *)
Definition replace (old new s : string) : string :=
  match old with
  | EmptyString => intersperse new s
  | _ => replace_go old new s 0
  end.

(** Returns the field that starts at the current position and the fields
    after it. *)
Fixpoint split_go (sep s : string) (skip : nat) : string * list string :=
  match s with
  | EmptyString => (EmptyString, [])
  | String c s' =>
      match skip with
      | S k => split_go sep s' k
      | O =>
          if String.prefix sep s
          then let '(f, r) := split_go sep s' (String.length sep - 1) in
               (EmptyString, f :: r)
          else let '(f, r) := split_go sep s' 0 in (String c f, r)
      end
  end.

(** [s.split(sep)] for a non-empty separator (an empty one raises
    [ValueError]; every call of the program passes a one-character
    literal).  The result is never the empty list. *)
Definition split (sep s : string) : list string :=
  let '(f, r) := split_go sep s 0 in f :: r.

(** [l[-1]] on the result of [split]. *)
Definition last_field (l : list string) : string := List.last l EmptyString.

(** [l[0]] on the result of [split]. *)
Definition first_field (l : list string) : string := List.hd EmptyString l.

Fixpoint drop (n : nat) (s : string) : string :=
  match n, s with
  | O, _ => s
  | S k, EmptyString => EmptyString
  | S k, String _ s' => drop k s'
  end.

(** The last [n] bytes of [s], or all of [s] when it is shorter. *)
Definition suffix (n : nat) (s : string) : string :=
  drop (String.length s - n) s.

(** *** Integers and their numerals *)

(** [str(n)] for an [int]. *)
Definition digit_char (d : Z) : ascii := ascii_of_nat (Z.to_nat (48 + d)).

Fixpoint str_nat_go (fuel : nat) (n : Z) (acc : string) : string :=
  match fuel with
  | O => acc
  | S k =>
      let acc' := String (digit_char (n mod 10)) acc in
      if n <? 10 then acc' else str_nat_go k (n / 10) acc'
  end.

Definition str_int (n : Z) : string :=
  if n <? 0
  then String "-"%char (str_nat_go (S (Z.to_nat (Z.log2 (- n)))) (- n) EmptyString)
  else str_nat_go (S (Z.to_nat (Z.log2 n))) n EmptyString.

Definition ascii_digit (c : ascii) : option Digit :=
  if in_range 48 57 (byte c)
  then List.nth_error [D0; D1; D2; D3; D4; D5; D6; D7; D8; D9] (N.to_nat (byte c - 48))
  else None.

(** The value of a character as a decimal digit, if it is one. *)
Definition decimal (rt : Runtime) (c : string) : option Digit :=
  match c with
  | String b EmptyString => if (byte b <? 128)%N then ascii_digit b else decimal_digit rt c
  | _ => decimal_digit rt c
  end.

(** [\d] on one character. *)
Definition is_decimal (rt : Runtime) (c : string) : bool :=
  match decimal rt c with Some _ => true | None => false end.

(** [c.isdigit()] on one character. *)
Definition isdigit_char (rt : Runtime) (c : string) : bool :=
  is_decimal rt c
  || match c with
     | String b EmptyString => if (byte b <? 128)%N then false else other_digit rt c
     | _ => other_digit rt c
     end.

(** [s.isdigit()], on the characters of [s]. *)
Definition isdigit (rt : Runtime) (cs : list string) : bool :=
  match cs with
  | [] => false
  | _ => forallb (isdigit_char rt) cs
  end.

Fixpoint digits_of (rt : Runtime) (cs : list string) : option (list Digit) :=
  match cs with
  | [] => Some []
  | c :: r =>
      match decimal rt c, digits_of rt r with
      | Some d, Some ds => Some (d :: ds)
      | _, _ => None
      end
  end.

(** The value of a numeral, most significant digit first. *)
Fixpoint horner (acc : Z) (ds : list Digit) : Z :=
  match ds with
  | [] => acc
  | d :: r => horner (10 * acc + digit_Z d) r
  end.

(** The interpreter refuses a numeral of more than [int_max_str_digits]
    digits; the limit cannot be set below 640 digits, and 0 turns it off. *)
Definition too_long (rt : Runtime) (n : nat) : bool :=
  (640 <? n)%nat && (0 <? int_max_str_digits rt)%nat && (int_max_str_digits rt <? n)%nat.

(** [int(s)], on the characters of [s], for a text in which [s.isdigit()]
    holds or that [\d+] has matched (the program passes no other): the value
    of the numeral when every character is a decimal digit and the numeral
    is within the limit, [ValueError] otherwise. *)
Definition int (rt : Runtime) (cs : list string) : Result Z :=
  match digits_of rt cs with
  | Some (d :: ds) =>
      if too_long rt (length cs)
      then Raise (ValueError
                    ("Exceeds the limit (" ++ str_int (Z.of_nat (int_max_str_digits rt))
                     ++ " digits) for integer string conversion: value has "
                     ++ str_int (Z.of_nat (length cs))
                     ++ " digits; use sys.set_int_max_str_digits() to increase the limit"))
      else Ok (horner 0 (d :: ds))
  | _ =>
      Raise (ValueError ("invalid literal for int() with base 10: '" ++ join cs ++ "'"))
  end.

(** [re.search(r'(\d+)', s)], on the characters of [s]: group 1 of the
    leftmost match, which is the first maximal run of decimal digits. *)
Fixpoint search_digits (rt : Runtime) (cs : list string) : option (list string) :=
  match cs with
  | [] => None
  | c :: r =>
      if is_decimal rt c then Some (c :: take_while (is_decimal rt) r)
      else search_digits rt r
  end.

(** [$] without [re.MULTILINE]: at the end, or before a final newline. *)
Definition at_end (cs : list string) : bool :=
  match cs with
  | [] => true
  | [c] => String.eqb c (String "010"%char EmptyString)
  | _ => false
  end.

Fixpoint starts_with (p l : list string) : bool :=
  match p, l with
  | [], _ => true
  | x :: p', y :: l' => String.eqb x y && starts_with p' l'
  | _ :: _, [] => false
  end.

(** [re.search(r'(\d+)(?:' + ext + ')?$', s)], on the characters of [s], for
    a literal extension [ext] (written [\.html] or [\.cms] in the patterns):
    group 1 of the leftmost match.  A match can only start at a digit; the
    greedy run then extends to its end, and giving digits back never helps
    because a digit is neither the extension nor the end of the text. *)
Fixpoint search_trailing_id (rt : Runtime) (ext cs : list string) : option (list string) :=
  match cs with
  | [] => None
  | c :: r =>
      if is_decimal rt c
      then let rest := drop_while (is_decimal rt) r in
           if at_end rest || starts_with ext rest && at_end (List.skipn (length ext) rest)
           then Some (c :: take_while (is_decimal rt) r)
           else search_trailing_id rt ext r
      else search_trailing_id rt ext r
  end.

(** [l[:n]] on a list: a negative bound counts from the end. *)
Definition slice_to {A} (l : list A) (n : Z) : list A :=
  if n <? 0
  then List.firstn (length l - Z.to_nat (- n)) l
  else List.firstn (Z.to_nat n) l.

End Py.

(** ** Pages and the world *)

(** A node of a parsed page: a text node or a tag.  [classes] is the
    [class] attribute as BeautifulSoup keeps it (a list of tokens, empty
    when the attribute is absent); [attrs] holds the other attributes. *)
Inductive Node :=
| NavigableString (s : string)
| Tag (name : string) (classes : list string) (attrs : gmap string string)
      (contents : list Node).

(** The contents of the [BeautifulSoup] object at the root. *)
Abbreviation Soup := (list Node).

(** What [session.get(url, timeout=10)] followed by [raise_for_status()]
    gives: a [requests.RequestException], or the body of the page together
    with the tree that [BeautifulSoup(html, 'html.parser')] builds from it. *)
Inductive Response :=
| RequestException (msg : string)
| Body (html : string) (parsed : Soup).

Inductive Level := INFO | WARNING | ERROR.

(** What [random.uniform(a, b)] returns: a float between the two bounds,
    kept as the bounds and the raw draw it was made from. *)
Record Delay := { delay_lo : Z; delay_hi : Z; delay_draw : Z }.

(** The answers of the file system. *)
Record FileSystem := {
  (** [os.makedirs(path, exist_ok=True)]: the error it raises, if any *)
  makedirs_error : string -> option PyExc;
  (** [open(path, 'w')] followed by [json.dump]: the error raised, if any *)
  write_error : string -> option PyExc;
  (** [os.listdir(path)] *)
  listdir : string -> Result (list string);
  (** [os.path.isdir(path)] *)
  isdir : string -> bool;
  (** [json.load(open(path))], for a file that holds a record *)
  load_json : string -> Result Article
}.

Record World := {
  (** the raw draws that the random generator will hand out, and how many
      were taken *)
  rng_tape : nat -> Z;
  rng_pos : nat;
  (** the records written through [logger], oldest first *)
  log : list (Level * string);
  (** the network *)
  http : string -> Response;
  (** the readings that the clock will give, each as the seconds since the
      epoch and as the text of [isoformat()], and how many were taken *)
  clock : nat -> Z * string;
  clock_pos : nat;
  runtime : Runtime;
  (** whether drawing a delay from the given bounds and sleeping for it
      raises, for bounds where this depends on the draw or the platform *)
  sleep_error : Delay -> option PyExc;
  (** the file system, as it answers once the given files were written *)
  fs : list (string * Article) -> FileSystem;
  (** the files written by the program, oldest first *)
  writes : list (string * Article)
}.

(** Computations that read and change the world and may raise. *)
Definition M (A : Type) : Type := World -> Result A * World.

Definition ret {A} (a : A) : M A := fun w => (Ok a, w).

Definition bind {A B} (c : M A) (k : A -> M B) : M B :=
  fun w =>
    match c w with
    | (Ok a, w') => k a w'
    | (Raise e, w') => (Raise e, w')
    end.

Definition raise {A} (e : PyExc) : M A := fun w => (Raise e, w).

(** [try: body  except Exception as e: handler(e)] *)
Definition try_except {A} (body : M A) (handler : PyExc -> M A) : M A :=
  fun w =>
    match body w with
    | (Ok a, w') => (Ok a, w')
    | (Raise e, w') => handler e w'
    end.

Definition lift {A} (r : Result A) : M A := fun w => (r, w).

Declare Scope py_scope.
Delimit Scope py_scope with py.
Notation "'let*' x ':=' c 'in' k" := (bind c (fun x => k))
  (at level 10, x name, c at level 100, k at level 200) : py_scope.
Notation "c1 ';;' c2" := (bind c1 (fun _ => c2))
  (at level 100, c2 at level 200, right associativity) : py_scope.
Open Scope py_scope.

Definition set_log (l : list (Level * string)) (w : World) : World :=
  {| rng_tape := rng_tape w; rng_pos := rng_pos w; log := l; http := http w;
     clock := clock w; clock_pos := clock_pos w; runtime := runtime w;
     sleep_error := sleep_error w; fs := fs w; writes := writes w |}.

Definition set_rng_pos (p : nat) (w : World) : World :=
  {| rng_tape := rng_tape w; rng_pos := p; log := log w; http := http w;
     clock := clock w; clock_pos := clock_pos w; runtime := runtime w;
     sleep_error := sleep_error w; fs := fs w; writes := writes w |}.

Definition set_clock_pos (p : nat) (w : World) : World :=
  {| rng_tape := rng_tape w; rng_pos := rng_pos w; log := log w; http := http w;
     clock := clock w; clock_pos := p; runtime := runtime w;
     sleep_error := sleep_error w; fs := fs w; writes := writes w |}.

Definition set_writes (l : list (string * Article)) (w : World) : World :=
  {| rng_tape := rng_tape w; rng_pos := rng_pos w; log := log w; http := http w;
     clock := clock w; clock_pos := clock_pos w; runtime := runtime w;
     sleep_error := sleep_error w; fs := fs w; writes := l |}.

Definition logger (lvl : Level) (msg : string) : M unit :=
  fun w => (Ok tt, set_log (log w ++ [(lvl, msg)]) w).

Definition get_runtime : M Runtime := fun w => (Ok (runtime w), w).

(** [random.randint(a, b)] for [a <= b] (every call of the program passes
    two literals in this order): the next raw draw, brought into [a..b]. *)
Definition randint (a b : Z) : M Z :=
  fun w => (Ok (a + rng_tape w (rng_pos w) mod (b - a + 1)),
            set_rng_pos (S (rng_pos w)) w).

(** [random.uniform(a, b)] takes one draw. *)
Definition random_uniform (a b : Z) : M Delay :=
  fun w => (Ok {| delay_lo := a; delay_hi := b; delay_draw := rng_tape w (rng_pos w) |},
            set_rng_pos (S (rng_pos w)) w).

(** A number of seconds that [time.sleep] accepts on every platform. *)
Definition SLEEP_MAX : Z := 1000000000.

(** [time.sleep(delay)] for a delay drawn by [random.uniform].  With both
    bounds from 0 to [SLEEP_MAX] the delay is in that range and the call
    returns; with both bounds from [-SLEEP_MAX] to -1 the delay is negative
    and the call raises [ValueError].  For other bounds the sign of the
    delay depends on the draw and on the rounding of the float arithmetic,
    and the conversions of the bounds or of the delay can overflow: there the
    world says what happens. *)
Definition time_sleep (delay : Delay) : M unit :=
  fun w =>
    if (0 <=? delay_lo delay) && (delay_lo delay <=? SLEEP_MAX)
       && (0 <=? delay_hi delay) && (delay_hi delay <=? SLEEP_MAX)
    then (Ok tt, w)
    else if (- SLEEP_MAX <=? delay_lo delay) && (delay_lo delay <? 0)
            && (- SLEEP_MAX <=? delay_hi delay) && (delay_hi delay <? 0)
    then (Raise (ValueError "sleep length must be non-negative"), w)
    else match sleep_error w delay with
         | Some e => (Raise e, w)
         | None => (Ok tt, w)
         end.

(** The reading that the clock gives next. *)
Definition epoch (w : World) : Z := fst (clock w (clock_pos w)).
Definition now (w : World) : string := snd (clock w (clock_pos w)).

(** [datetime.now().isoformat()] *)
Definition datetime_now_isoformat : M string :=
  fun w => (Ok (now w), set_clock_pos (S (clock_pos w)) w).

(** [int(time.time())] *)
Definition time_time : M Z :=
  fun w => (Ok (epoch w), set_clock_pos (S (clock_pos w)) w).

(** [os.makedirs(path, exist_ok=True)] *)
Definition os_makedirs (path : string) : M unit :=
  fun w =>
    match makedirs_error (fs w (writes w)) path with
    | Some e => (Raise e, w)
    | None => (Ok tt, w)
    end.

(** [with open(filename, 'w', encoding='utf-8') as f: json.dump(article, f, ...)] *)
Definition write_json (filename : string) (article : Article) : M unit :=
  fun w =>
    match write_error (fs w (writes w)) filename with
    | Some e => (Raise e, w)
    | None => (Ok tt, set_writes (writes w ++ [(filename, article)]) w)
    end.

Definition os_listdir (path : string) : M (list string) :=
  fun w => (listdir (fs w (writes w)) path, w).

Definition os_path_isdir (path : string) : M bool :=
  fun w => (Ok (isdir (fs w (writes w)) path), w).

(** [with open(filepath, 'r', encoding='utf-8') as f: json.load(f)] *)
Definition read_json (filepath : string) : M Article :=
  fun w => (load_json (fs w (writes w)) filepath, w).

(** ** BeautifulSoup *)

Module BS.

(** The tags below a node, in document order. *)
Fixpoint descendants (n : Node) : list Node :=
  match n with
  | NavigableString _ => []
  | Tag _ _ _ cs => n :: List.flat_map descendants cs
  end.

(** [tag.text]: the text nodes below the tag, concatenated. *)
Fixpoint text (n : Node) : string :=
  match n with
  | NavigableString s => s
  | Tag _ _ _ cs => String.concat "" (List.map text cs)
  end.

(** [tag.name] *)
Definition name (n : Node) : string :=
  match n with
  | NavigableString _ => ""
  | Tag nm _ _ _ => nm
  end.

(** [tag.get(key, default)] *)
Definition get (n : Node) (key dflt : string) : string :=
  match n with
  | NavigableString _ => dflt
  | Tag _ _ at_ _ => match at_ !! key with Some v => v | None => dflt end
  end.

Definition has_class (c : string) (n : Node) : bool :=
  match n with
  | NavigableString _ => false
  | Tag _ cls _ _ =>
      existsb (String.eqb c) cls || String.eqb c (String.concat " " cls)
  end.

Definition has_attr (kv : string * string) (n : Node) : bool :=
  match n with
  | NavigableString _ => false
  | Tag _ _ at_ _ =>
      match at_ !! fst kv with
      | Some v => String.eqb v (snd kv)
      | None => false
      end
  end.

Definition matches (nm : string) (class_ : option string)
    (attrs : list (string * string)) (n : Node) : bool :=
  String.eqb (name n) nm
  && match class_ with Some c => has_class c n | None => true end
  && forallb (fun kv => has_attr kv n) attrs.

(** [soup.find(nm, class_=..., attrs=...)]: the first tag of the page, in
    document order, that passes the filter; [None] when there is none. *)
Definition find (nm : string) (class_ : option string)
    (attrs : list (string * string)) (soup : Soup) : option Node :=
  List.find (matches nm class_ attrs) (List.flat_map descendants soup).

End BS.

(** [soup.find_all(nm)] *)
Definition find_all (nm : string) (soup : Soup) : list Node :=
  List.filter (BS.matches nm None []) (List.flat_map BS.descendants soup).

(** [article_soup.find(...)] where [article_soup] may be [None]. *)
Definition soup_find (soup : option Soup) (nm : string) (class_ : option string)
    (attrs : list (string * string)) : M (option Node) :=
  match soup with
  | Some s => ret (BS.find nm class_ attrs s)
  | None => raise (AttributeError "'NoneType' object has no attribute 'find'")
  end.

(** [sub in s] *)
Fixpoint contains (sub s : string) : bool :=
  String.prefix sub s
  || match s with
     | EmptyString => false
     | String _ s' => contains sub s'
     end.

(** [x in l] on a list of strings *)
Definition str_in (x : string) (l : list string) : bool := existsb (String.eqb x) l.

(** ** BaseScraper *)

(** The sentinel title of the adapters (Korean for "no title"). *)
Definition NO_TITLE : string := "제목 없음".

(** A scraper object: the attributes set by [BaseScraper.__init__] and the
    three methods that each subclass overrides. *)
Record Scraper := {
  base_url : string;
  scraper_name : string;
  get_article_urls : option string -> nat -> M (list string);
  parse_article : string -> M (option Article);
  extract_views : option Soup -> string -> M Z
}.

(** [BaseScraper.get_page] *)
Definition get_page (url : string) : M (option (string * Soup)) :=
  fun w =>
    match http w url with
    | Body html parsed => (Ok (Some (html, parsed)), w)
    | RequestException msg =>
        (logger ERROR ("Error fetching " ++ url ++ ": " ++ msg) ;; ret None) w
    end.

(** [BaseScraper.get_soup] *)
Definition get_soup (url : string) : M (option Soup) :=
  let* html := get_page url in
  match html with
  | Some (h, parsed) => if Py.truthy h then ret (Some parsed) else ret None
  | None => ret None
  end.

(** Truthiness of what [parse_article] returns: [None] and the empty
    [dict] are false. *)
Definition article_truthy (a : option Article) : bool :=
  match a with
  | Some d => negb (bool_decide (d = ∅))
  | None => false
  end.

(** The [for url in article_urls] loop of [crawl_articles]. *)
Fixpoint crawl_loop (self : Scraper) (delay_range : Z * Z)
    (article_urls : list string) (articles : list Article) : M (list Article) :=
  match article_urls with
  | [] => ret articles
  | url :: rest =>
      logger INFO ("Crawling article: " ++ url) ;;
      let* delay := random_uniform (fst delay_range) (snd delay_range) in
      time_sleep delay ;;
      let* article_data := parse_article self url in
      crawl_loop self delay_range rest
        (match article_data with
         | Some d => if article_truthy article_data then (articles ++ [d])%list else articles
         | None => articles
         end)
  end.

(** [BaseScraper.crawl_articles] *)
Definition crawl_articles (self : Scraper) (category : option string)
    (max_articles : Z) (delay_range : Z * Z) : M (list Article) :=
  let* article_urls := get_article_urls self category 2%nat in
  match article_urls with
  | [] => logger WARNING ("No article URLs found for " ++ scraper_name self) ;; ret []
  | _ =>
      let article_urls := Py.slice_to article_urls max_articles in
      crawl_loop self delay_range article_urls []
  end.

(** The [for candidate in ..._candidates] loops of [parse_article].  The
    loops that look at [candidate.name] (title and date) are [meta_aware];
    [value] is the variable that the loop assigns ([title], [content] or
    [published_date]), with its value before the loop. *)
Fixpoint candidates_loop (meta_aware : bool) (candidates : list (option Node))
    (value : string) : string :=
  match candidates with
  | [] => value
  | None :: rest => candidates_loop meta_aware rest value
  | Some candidate :: rest =>
      let value :=
        if meta_aware && String.eqb (BS.name candidate) "meta"
        then Py.strip (BS.get candidate "content" "")
        else Py.strip (BS.text candidate) in
      if Py.truthy value then value else candidates_loop meta_aware rest value
  end.

(** [url.split('/')[3] if len(url.split('/')) > 3 else ""] *)
Definition url_category (url : string) : string :=
  if (3 <? length (Py.split "/" url))%nat
  then List.nth 3 (Py.split "/" url) ""
  else "".

(** The [dict] literal returned by [parse_article]. *)
Definition article_dict (article_id url title content published_date category
    source : string) (views : Z) (crawled_at : string) : Article :=
  <["crawled_at" := VStr crawled_at]>
  (<["views" := VInt views]>
  (<["source" := VStr source]>
  (<["category" := VStr category]>
  (<["published_date" := VStr published_date]>
  (<["content" := VStr content]>
  (<["title" := VStr title]>
  (<["url" := VStr url]>
  (<["id" := VStr article_id]> ∅)))))))).

(** The body shared by the three [get_article_urls]: the hrefs that pass
    [is_article], made absolute, without repetition.  [urljoin] is
    [urllib.parse.urljoin]. *)
Definition collect_article_urls (urljoin : string -> string -> string)
    (base : string) (is_article : string -> bool) (category : option string)
    : M (list string) :=
  let url :=
    match category with
    | Some c => if Py.truthy c then base ++ "/" ++ c else base
    | None => base
    end in
  let* soup := get_soup url in
  match soup with
  | None => ret []
  | Some soup =>
      ret (fold_left
             (fun article_urls a_tag =>
                let href := BS.get a_tag "href" "" in
                if is_article href
                then let full_url := urljoin base href in
                     if str_in full_url article_urls then article_urls
                     else (article_urls ++ [full_url])%list
                else article_urls)
             (find_all "a" soup) [])
  end.

(** ** TimesOfIndiaScraper *)

Module TimesOfIndiaScraper.

Definition base : string := "https://timesofindia.indiatimes.com".
Definition name : string := "Times of India".

Definition title_candidates (soup : Soup) : list (option Node) :=
  [ BS.find "h1" (Some "_23498") [] soup;
    BS.find "h1" (Some "_1Y-96") [] soup;
    BS.find "h1" (Some "title") [] soup;
    BS.find "h1" None [] soup;
    BS.find "meta" None [("property", "og:title")] soup ].

Definition content_candidates (soup : Soup) : list (option Node) :=
  [ BS.find "div" (Some "_3YYSt") [] soup;
    BS.find "div" (Some "ga-article") [] soup;
    BS.find "div" (Some "article_content") [] soup;
    BS.find "div" None [("id", "articleText")] soup;
    BS.find "div" (Some "Normal") [] soup ].

Definition date_candidates (soup : Soup) : list (option Node) :=
  [ BS.find "div" (Some "_3Mkg-") [] soup;
    BS.find "div" (Some "byline") [] soup;
    BS.find "meta" None [("property", "article:published_time")] soup ].

(** [url.split('/')[-1].split('.')[0]] *)
Definition article_id_of (url : string) : string :=
  Py.first_field (Py.split "." (Py.last_field (Py.split "/" url))).

(** [views_text.lower().replace('k', '000').replace('m', '000000')]: the K
    and M suffixes, handled on the text. *)
Definition normalize_units (rt : Runtime) (views_text : string) : string :=
  Py.replace "m" "000000" (Py.replace "k" "000" (Py.lower rt views_text)).

(** Methods 2 and 3 of [extract_views]: the estimate from the article id,
    or the default draw. *)
Definition estimate_views (article_url : string) : M Z :=
  let* rt := get_runtime in
  let article_id := Py.chars (article_id_of article_url) in
  if Py.isdigit rt article_id
  then
    let* last_digits := lift (Py.int rt (Py.lastn 4 article_id)) in
    let base_views := last_digits * 100 in
    let* r := randint 50000 200000 in
    ret (base_views + r)
  else randint 100000 500000.

(** The [try] block of [extract_views]. *)
Definition extract_views_try (article_soup : option Soup) (article_url : string) : M Z :=
    (let* rt := get_runtime in
     let* first := soup_find article_soup "div" (Some "_1_Akb") [] in
     let* views_elem :=
       match first with
       | Some e => ret (Some e)
       | None => soup_find article_soup "div" (Some "view-count") []
       end in
     match views_elem with
     | Some e =>
         let views_text := Py.strip (BS.text e) in
         let views_text := normalize_units rt views_text in
         match Py.search_digits rt (Py.chars views_text) with
         | Some g => lift (Py.int rt g)
         | None => estimate_views article_url
         end
     | None => estimate_views article_url
     end).

Definition extract_views (article_soup : option Soup) (article_url : string) : M Z :=
  try_except
    (extract_views_try article_soup article_url)
    (fun e =>
       logger ERROR ("Error extracting views from " ++ article_url ++ ": " ++ exc_str e) ;;
       randint 100000 500000).

Definition parse_article (url : string) : M (option Article) :=
  let* soup := get_soup url in
  match soup with
  | None => ret None
  | Some soup =>
      try_except
        (let title := candidates_loop true (title_candidates soup) NO_TITLE in
         let content := candidates_loop false (content_candidates soup) "" in
         let published_date := candidates_loop true (date_candidates soup) "" in
         let category := url_category url in
         let* views := extract_views (Some soup) url in
         let article_id := article_id_of url in
         let* crawled_at := datetime_now_isoformat in
         ret (Some (article_dict article_id url title content published_date
                      category name views crawled_at)))
        (fun e =>
           logger ERROR ("Error parsing article " ++ url ++ ": " ++ exc_str e) ;;
           ret None)
  end.

Definition get_article_urls (urljoin : string -> string -> string)
    (category : option string) (max_pages : nat) : M (list string) :=
  collect_article_urls urljoin base (contains "/articleshow/") category.

Definition new (urljoin : string -> string -> string) : Scraper :=
  Build_Scraper base name (get_article_urls urljoin) parse_article extract_views.

End TimesOfIndiaScraper.

(** ** HindustanTimesScraper *)

Module HindustanTimesScraper.

Definition base : string := "https://www.hindustantimes.com".
Definition name : string := "Hindustan Times".

Definition title_candidates (soup : Soup) : list (option Node) :=
  [ BS.find "h1" (Some "hdg1") [] soup;
    BS.find "h1" (Some "headline") [] soup;
    BS.find "h1" None [] soup;
    BS.find "meta" None [("property", "og:title")] soup ].

Definition content_candidates (soup : Soup) : list (option Node) :=
  [ BS.find "div" (Some "storyDetail") [] soup;
    BS.find "div" (Some "story-details") [] soup;
    BS.find "div" (Some "article-body") [] soup;
    BS.find "div" None [("itemprop", "articleBody")] soup ].

Definition date_candidates (soup : Soup) : list (option Node) :=
  [ BS.find "span" (Some "dateTime") [] soup;
    BS.find "span" (Some "article-time") [] soup;
    BS.find "meta" None [("property", "article:published_time")] soup ].

(** [url.split('-')[-1].split('.')[0]] *)
Definition article_id_of (url : string) : string :=
  Py.first_field (Py.split "." (Py.last_field (Py.split "-" url))).

Definition estimate_views (article_url : string) : M Z :=
  let* rt := get_runtime in
  match Py.search_trailing_id rt (Py.chars ".html") (Py.chars article_url) with
  | Some article_id =>
      let* last_digits := lift (Py.int rt (Py.lastn 2 article_id)) in
      let* r := randint 50 500 in
      ret (last_digits * 10 + r)
  | None => randint 100 2000
  end.

(** The [try] block of [extract_views]. *)
Definition extract_views_try (article_soup : option Soup) (article_url : string) : M Z :=
    (let* rt := get_runtime in
     let* views_elem := soup_find article_soup "span" (Some "viewCount") [] in
     match views_elem with
     | Some e =>
         let views_text := Py.strip (BS.text e) in
         match Py.search_digits rt (Py.chars views_text) with
         | Some g => lift (Py.int rt g)
         | None => estimate_views article_url
         end
     | None => estimate_views article_url
     end).

Definition extract_views (article_soup : option Soup) (article_url : string) : M Z :=
  try_except
    (extract_views_try article_soup article_url)
    (fun e =>
       logger ERROR ("Error extracting views from " ++ article_url ++ ": " ++ exc_str e) ;;
       randint 100 2000).

Definition parse_article (url : string) : M (option Article) :=
  let* soup := get_soup url in
  match soup with
  | None => ret None
  | Some soup =>
      try_except
        (let title := candidates_loop true (title_candidates soup) NO_TITLE in
         let content := candidates_loop false (content_candidates soup) "" in
         let published_date := candidates_loop true (date_candidates soup) "" in
         let category := url_category url in
         let* views := extract_views (Some soup) url in
         let article_id := article_id_of url in
         let* crawled_at := datetime_now_isoformat in
         ret (Some (article_dict article_id url title content published_date
                      category name views crawled_at)))
        (fun e =>
           logger ERROR ("Error parsing article " ++ url ++ ": " ++ exc_str e) ;;
           ret None)
  end.

Definition get_article_urls (urljoin : string -> string -> string)
    (category : option string) (max_pages : nat) : M (list string) :=
  collect_article_urls urljoin base
    (fun href => contains "/story-" href || contains "/article-" href) category.

Definition new (urljoin : string -> string -> string) : Scraper :=
  Build_Scraper base name (get_article_urls urljoin) parse_article extract_views.

End HindustanTimesScraper.

(** ** EconomicTimesScraper *)

Module EconomicTimesScraper.

Definition base : string := "https://economictimes.indiatimes.com".
Definition name : string := "Economic Times".

(** [elem.text.strip() if elem else default] *)
Definition text_or (elem : option Node) (dflt : string) : string :=
  match elem with
  | Some e => Py.strip (BS.text e)
  | None => dflt
  end.

(** [url.split('/')[-1].split('.')[0]] *)
Definition article_id_of (url : string) : string :=
  Py.first_field (Py.split "." (Py.last_field (Py.split "/" url))).

Definition estimate_views (article_url : string) : M Z :=
  let* rt := get_runtime in
  match Py.search_trailing_id rt (Py.chars ".cms") (Py.chars article_url) with
  | Some article_id =>
      let* last_digits := lift (Py.int rt (Py.lastn 3 article_id)) in
      let* r := randint 100 1000 in
      ret (last_digits * 5 + r)
  | None => randint 100 3000
  end.

(** The [try] block of [extract_views]. *)
Definition extract_views_try (article_soup : option Soup) (article_url : string) : M Z :=
    (let* rt := get_runtime in
     let* views_elem := soup_find article_soup "div" (Some "view-count") [] in
     match views_elem with
     | Some e =>
         let views_text := Py.strip (BS.text e) in
         match Py.search_digits rt (Py.chars views_text) with
         | Some g => lift (Py.int rt g)
         | None => estimate_views article_url
         end
     | None => estimate_views article_url
     end).

Definition extract_views (article_soup : option Soup) (article_url : string) : M Z :=
  try_except
    (extract_views_try article_soup article_url)
    (fun e =>
       logger ERROR ("Error extracting views from " ++ article_url ++ ": " ++ exc_str e) ;;
       randint 100 3000).

Definition parse_article (url : string) : M (option Article) :=
  let* soup := get_soup url in
  match soup with
  | None => ret None
  | Some soup =>
      try_except
        (let title_elem := BS.find "h1" (Some "artTitle") [] soup in
         let title := text_or title_elem NO_TITLE in
         let content_elem := BS.find "div" (Some "artText") [] soup in
         let content := text_or content_elem "" in
         let date_elem := BS.find "time" (Some "pub-time") [] soup in
         let published_date := text_or date_elem "" in
         let category := url_category url in
         let* views := extract_views (Some soup) url in
         let article_id := article_id_of url in
         let* crawled_at := datetime_now_isoformat in
         ret (Some (article_dict article_id url title content published_date
                      category name views crawled_at)))
        (fun e =>
           logger ERROR ("Error parsing article " ++ url ++ ": " ++ exc_str e) ;;
           ret None)
  end.

Definition get_article_urls (urljoin : string -> string -> string)
    (category : option string) (max_pages : nat) : M (list string) :=
  collect_article_urls urljoin base
    (fun href => contains "/articleshow/" href || contains "/prime/news/" href) category.

Definition new (urljoin : string -> string -> string) : Scraper :=
  Build_Scraper base name (get_article_urls urljoin) parse_article extract_views.

End EconomicTimesScraper.

(** ** IndiaNewsCrawler *)

(** [f"{v}"] *)
Definition value_str (v : Value) : string :=
  match v with
  | VStr s => s
  | VInt n => Py.str_int n
  end.

Definition value_truthy (v : Value) : bool :=
  match v with
  | VStr s => Py.truthy s
  | VInt n => negb (n =? 0)
  end.

(** [a < b] on two values: integers by value, strings by code point, and
    [TypeError] for a string against an integer. *)
Definition value_lt (a b : Value) : Result bool :=
  match a, b with
  | VInt x, VInt y => Ok (x <? y)
  | VStr x, VStr y => Ok (String.ltb x y)
  | VStr _, VInt _ =>
      Raise (TypeError "'<' not supported between instances of 'str' and 'int'")
  | VInt _, VStr _ =>
      Raise (TypeError "'<' not supported between instances of 'int' and 'str'")
  end.

(** [os.path.join(a, b)] *)
Definition path_join (a b : string) : string :=
  if String.prefix "/" b then b
  else match a with
       | EmptyString => b
       | _ => if String.eqb (Py.suffix 1 a) "/" then a ++ b else a ++ "/" ++ b
       end.

(** [s.endswith(e)] *)
Definition endswith (e s : string) : bool :=
  String.eqb (Py.suffix (String.length e) s) e && (String.length e <=? String.length s)%nat.

Record Config := {
  max_articles_per_website : Z;
  delay_min : Z;
  delay_max : Z
}.

Record Crawler := {
  config : Config;
  scrapers : list (string * Scraper);
  raw_dir : string
}.

(** [articles.insert] in descending order of the key, in front of the
    records that do not have a greater key. *)
Fixpoint insert_desc {A} (key : A -> Value) (x : A) (l : list A) : Result (list A) :=
  match l with
  | [] => Ok [x]
  | y :: l' =>
      match value_lt (key x) (key y) with
      | Raise e => Raise e
      | Ok true =>
          match insert_desc key x l' with
          | Ok r => Ok (y :: r)
          | Raise e => Raise e
          end
      | Ok false => Ok (x :: l)
      end
  end.

(** [sorted(l, key=key, reverse=True)]: the library's sort is stable, also
    when reversed; it is modelled by the insertion sort that gives the same
    list, and raises when two keys cannot be compared. *)
Fixpoint sorted_reverse {A} (key : A -> Value) (l : list A) : Result (list A) :=
  match l with
  | [] => Ok []
  | x :: l' =>
      match sorted_reverse key l' with
      | Ok s => insert_desc key x s
      | Raise e => Raise e
      end
  end.

Module IndiaNewsCrawler.

(** [x.get('views', 0)] *)
Definition views_key (x : Article) : Value :=
  match x !! "views" with
  | Some v => v
  | None => VInt 0
  end.

(** The [for filename in os.listdir(category_dir)] loop of
    [get_all_articles]. *)
Fixpoint load_files (category_dir : string) (filenames : list string)
    (all_articles : list Article) : M (list Article) :=
  match filenames with
  | [] => ret all_articles
  | filename :: rest =>
      if negb (endswith ".json" filename) then load_files category_dir rest all_articles
      else
        let filepath := path_join category_dir filename in
        let* all_articles :=
          try_except
            (let* article := read_json filepath in
             ret (all_articles ++ [article])%list)
            (fun e =>
               logger ERROR ("Error loading article " ++ filepath ++ ": " ++ exc_str e) ;;
               ret all_articles) in
        load_files category_dir rest all_articles
  end.

(** The [for category in os.listdir(website_dir)] loop. *)
Fixpoint load_categories (website_dir : string) (categories : list string)
    (all_articles : list Article) : M (list Article) :=
  match categories with
  | [] => ret all_articles
  | category :: rest =>
      let category_dir := path_join website_dir category in
      let* is_dir := os_path_isdir category_dir in
      if negb is_dir then load_categories website_dir rest all_articles
      else
        let* filenames := os_listdir category_dir in
        let* all_articles := load_files category_dir filenames all_articles in
        load_categories website_dir rest all_articles
  end.

(** The [for website in os.listdir(self.raw_dir)] loop. *)
Fixpoint load_websites (raw_dir : string) (websites : list string)
    (all_articles : list Article) : M (list Article) :=
  match websites with
  | [] => ret all_articles
  | website :: rest =>
      let website_dir := path_join raw_dir website in
      let* is_dir := os_path_isdir website_dir in
      if negb is_dir then load_websites raw_dir rest all_articles
      else
        let* categories := os_listdir website_dir in
        let* all_articles := load_categories website_dir categories all_articles in
        load_websites raw_dir rest all_articles
  end.

Definition get_all_articles (self : Crawler) : M (list Article) :=
  let* websites := os_listdir (raw_dir self) in
  load_websites (raw_dir self) websites [].

Definition sort_articles_by_views (self : Crawler) (articles : option (list Article))
    : M (list Article) :=
  let* articles :=
    match articles with
    | None => get_all_articles self
    | Some l => ret l
    end in
  lift (sorted_reverse views_key articles).

Definition get_top_articles (self : Crawler) (limit : Z)
    (articles : option (list Article)) : M (list Article) :=
  let* sorted_articles := sort_articles_by_views self articles in
  ret (Py.slice_to sorted_articles limit).

(** The [for article in articles] loop of [_save_raw_data].  The default
    of [article.get('id', ...)] is an argument of the call, so the clock is
    read for every record, with or without an id. *)
Fixpoint save_loop (category_dir : string) (articles : list Article) : M unit :=
  match articles with
  | [] => ret tt
  | article :: rest =>
      if bool_decide (article = ∅) then save_loop category_dir rest
      else
        let* t := time_time in
        let article_id :=
          match article !! "id" with
          | Some v => v
          | None => VStr (Py.str_int t)
          end in
        let filename := path_join category_dir (value_str article_id ++ ".json") in
        write_json filename article ;;
        save_loop category_dir rest
  end.

Definition _save_raw_data (self : Crawler) (website : string)
    (category : option string) (articles : list Article) : M unit :=
  let website_dir := path_join (raw_dir self) website in
  let category_dir :=
    path_join website_dir
      (match category with
       | Some c => if Py.truthy c then c else website
       | None => website
       end) in
  os_makedirs website_dir ;;
  os_makedirs category_dir ;;
  save_loop category_dir articles.

Fixpoint crawl_all_loop (self : Crawler) (todo : list (string * Scraper))
    (results : list (string * list Article)) : M (list (string * list Article)) :=
  match todo with
  | [] => ret results
  | (website, scraper) :: rest =>
      logger INFO ("Crawling " ++ website ++ "...") ;;
      let* articles :=
        crawl_articles scraper None (max_articles_per_website (config self))
          (delay_min (config self), delay_max (config self)) in
      _save_raw_data self website None articles ;;
      crawl_all_loop self rest (results ++ [(website, articles)])%list
  end.

Definition crawl_all (self : Crawler) : M (list (string * list Article)) :=
  crawl_all_loop self (scrapers self) [].

Definition crawl_specific_website (self : Crawler) (website_name : string)
    (max_articles : Z) : M (list Article) :=
  match List.find (fun p => String.eqb (fst p) website_name) (scrapers self) with
  | None =>
      logger ERROR ("Website " ++ website_name ++ " not found in available scrapers") ;;
      ret []
  | Some (_, scraper) =>
      logger INFO ("Crawling " ++ website_name ++ "...") ;;
      let* articles :=
        crawl_articles scraper None max_articles
          (delay_min (config self), delay_max (config self)) in
      _save_raw_data self website_name None articles ;;
      ret articles
  end.

(** [IndiaNewsCrawler()] with the default configuration. *)
Definition new (urljoin : string -> string -> string) (cwd : string) : Crawler :=
  {| config := {| max_articles_per_website := 20; delay_min := 2; delay_max := 5 |};
     scrapers := [ ("times_of_india", TimesOfIndiaScraper.new urljoin);
                   ("hindustan_times", HindustanTimesScraper.new urljoin);
                   ("economic_times", EconomicTimesScraper.new urljoin) ];
     raw_dir := path_join (path_join cwd "data") "raw" |}.

End IndiaNewsCrawler.

(** ** news_forwarder: format_article_message *)

Module Float.

(** [a / b] rounded to the nearest integer, ties to even ([0 <= a], [0 < b]). *)
Definition round_half_even (a b : Z) : Z :=
  let q := a / b in
  let r := a mod b in
  if 2 * r <? b then q
  else if b <? 2 * r then q + 1
  else if Z.even q then q else q + 1.

(** A finite positive double [mant * 2^(-shift)]: [2^52 <= mant <= 2^53]. *)
Record t := { mant : Z; shift : Z }.

(** [n / d] on two [int]s with [0 < d <= n]: the double nearest to the
    quotient, ties to even; [OverflowError] when that is beyond the largest
    double. *)
Definition true_div (n d : Z) : Result t :=
  let e := Z.log2 (n / d) in
  let s := 52 - e in
  let m :=
    if 0 <=? s then round_half_even (n * 2 ^ s) d
    else round_half_even n (d * 2 ^ (- s)) in
  if (1024 <=? e) || ((e =? 1023) && (m =? 2 ^ 53))
  then Raise (OverflowError "integer division result too large for a float")
  else Ok {| mant := m; shift := s |}.

(** The number of tenths printed by [f"{x:.1f}"]: the value of [x] times ten,
    rounded to the nearest integer, ties to even. *)
Definition tenths (x : t) : Z :=
  if 0 <=? shift x then round_half_even (10 * mant x) (2 ^ shift x)
  else 10 * mant x * 2 ^ (- shift x).

(** [k] tenths in decimal: the integer part, a point and one digit. *)
Definition one_decimal (k : Z) : string :=
  Py.str_int (k / 10) ++ "." ++ String (Py.digit_char (k mod 10)) EmptyString.

(** [f"{x:.1f}"] *)
Definition format_1f (x : t) : string := one_decimal (tenths x).

End Float.

(** The [view_count_str] of [format_article_message], for an [int] count. *)
Definition view_count_str (view_count : Z) : Result string :=
  if 1000000 <=? view_count then
    match Float.true_div view_count 1000000 with
    | Ok x => Ok (Float.format_1f x ++ "M")
    | Raise e => Raise e
    end
  else if 1000 <=? view_count then
    match Float.true_div view_count 1000 with
    | Ok x => Ok (Float.format_1f x ++ "K")
    | Raise e => Raise e
    end
  else Ok (Py.str_int view_count).

(** [article[key]] *)
Definition getitem (article : Article) (key : string) : Result Value :=
  match article !! key with
  | Some v => Ok v
  | None => Raise (KeyError key)
  end.

Definition rbind {A B} (r : Result A) (k : A -> Result B) : Result B :=
  match r with
  | Ok a => k a
  | Raise e => Raise e
  end.

Definition format_article_message (article : Article) : Result string :=
  rbind
    (match article !! "views" with
     | Some (VInt n) => view_count_str n
     | None => view_count_str 0
     | Some (VStr _) =>
         Raise (TypeError "'>=' not supported between instances of 'str' and 'int'")
     end) (fun view_count_str =>
  let category :=
    match article !! "category" with Some v => v | None => VStr "" end in
  let category_text :=
    if value_truthy category then " [" ++ value_str category ++ "]" else "" in
  rbind (getitem article "title") (fun title =>
  let message :=
    "📰 *" ++ value_str title ++ "*" ++ category_text ++ "

" ++ "👁 조회수: " ++ view_count_str ++ "
" in
  rbind
    (match article !! "published_date" with
     | Some v =>
         if value_truthy v
         then rbind (getitem article "published_date") (fun d =>
                Ok (message ++ "📅 발행일: " ++ value_str d ++ "
"))
         else Ok message
     | None => Ok message
     end) (fun message =>
  rbind (getitem article "url") (fun url =>
  let message := message ++ "🔗 링크: " ++ value_str url ++ "
" in
  rbind (getitem article "source") (fun source =>
  Ok (message ++ "출처: " ++ value_str source)))))).

(** ** The vocabulary of the statements *)

(** What a candidate element yields: the [content] attribute of a [meta]
    tag, the trimmed text of any other tag. *)
Definition field_value (c : Node) : string :=
  if String.eqb (BS.name c) "meta"
  then Py.strip (BS.get c "content" "")
  else Py.strip (BS.text c).

(** [first_nonblank cands v]: [v] is the value of the first candidate of
    [cands] that is found on the page and yields a non-empty value. *)
Inductive first_nonblank : list (option Node) -> string -> Prop :=
| first_here c rest :
    field_value c <> "" -> first_nonblank (Some c :: rest) (field_value c)
| first_after_missing rest v :
    first_nonblank rest v -> first_nonblank (None :: rest) v
| first_after_blank c rest v :
    field_value c = "" -> first_nonblank rest v -> first_nonblank (Some c :: rest) v.

(** No candidate of the chain yields a non-empty value. *)
Definition none_succeeds (cands : list (option Node)) : Prop :=
  Forall (fun o => match o with Some c => field_value c = "" | None => True end) cands.

Inductive Site := TOI | HT | ET.
Inductive Field := Title | Content | Date.

Definition site_parse_article (s : Site) : string -> M (option Article) :=
  match s with
  | TOI => TimesOfIndiaScraper.parse_article
  | HT => HindustanTimesScraper.parse_article
  | ET => EconomicTimesScraper.parse_article
  end.

Definition site_extract_views (s : Site) : option Soup -> string -> M Z :=
  match s with
  | TOI => TimesOfIndiaScraper.extract_views
  | HT => HindustanTimesScraper.extract_views
  | ET => EconomicTimesScraper.extract_views
  end.

Definition site_article_id (s : Site) : string -> string :=
  match s with
  | TOI => TimesOfIndiaScraper.article_id_of
  | HT => HindustanTimesScraper.article_id_of
  | ET => EconomicTimesScraper.article_id_of
  end.

(** The ordered candidates of a field on a page; the Economic Times adapter
    has one locator per field. *)
Definition chain (s : Site) (f : Field) (soup : Soup) : list (option Node) :=
  match s, f with
  | TOI, Title => TimesOfIndiaScraper.title_candidates soup
  | TOI, Content => TimesOfIndiaScraper.content_candidates soup
  | TOI, Date => TimesOfIndiaScraper.date_candidates soup
  | HT, Title => HindustanTimesScraper.title_candidates soup
  | HT, Content => HindustanTimesScraper.content_candidates soup
  | HT, Date => HindustanTimesScraper.date_candidates soup
  | ET, Title => [BS.find "h1" (Some "artTitle") [] soup]
  | ET, Content => [BS.find "div" (Some "artText") [] soup]
  | ET, Date => [BS.find "time" (Some "pub-time") [] soup]
  end.

Definition field_key (f : Field) : string :=
  match f with
  | Title => "title"
  | Content => "content"
  | Date => "published_date"
  end.

Definition not_meta (o : option Node) : Prop :=
  match o with Some c => BS.name c <> "meta" | None => True end.

(** The element that [extract_views] looks at: the first match of the first
    locator that matches anything. *)
Definition site_views_elem (s : Site) (soup : Soup) : option Node :=
  match s with
  | TOI =>
      match BS.find "div" (Some "_1_Akb") [] soup with
      | Some e => Some e
      | None => BS.find "div" (Some "view-count") [] soup
      end
  | HT => BS.find "span" (Some "viewCount") [] soup
  | ET => BS.find "div" (Some "view-count") [] soup
  end.

(** The locators of the view counter, in order. *)
Definition site_views_locators (s : Site) : list (string * string) :=
  match s with
  | TOI => [("div", "_1_Akb"); ("div", "view-count")]
  | HT => [("span", "viewCount")]
  | ET => [("div", "view-count")]
  end.

(** The text in which [extract_views] searches for digits: the trimmed text
    of the element; for Times of India, that text in lower case with every k
    replaced by 000 and every m by 000000. *)
Definition site_views_text (rt : Runtime) (s : Site) (e : Node) : string :=
  match s with
  | TOI => TimesOfIndiaScraper.normalize_units rt (Py.strip (BS.text e))
  | _ => Py.strip (BS.text e)
  end.

Definition site_estimate_views (s : Site) : string -> M Z :=
  match s with
  | TOI => TimesOfIndiaScraper.estimate_views
  | HT => HindustanTimesScraper.estimate_views
  | ET => EconomicTimesScraper.estimate_views
  end.

Definition site_extract_views_try (s : Site) : option Soup -> string -> M Z :=
  match s with
  | TOI => TimesOfIndiaScraper.extract_views_try
  | HT => HindustanTimesScraper.extract_views_try
  | ET => EconomicTimesScraper.extract_views_try
  end.

(** The range of the default draw of each adapter. *)
Definition site_default_range (s : Site) : Z * Z :=
  match s with
  | TOI => (100000, 500000)
  | HT => (100, 2000)
  | ET => (100, 3000)
  end.

(** The record that the [except] branch of [extract_views] logs. *)
Definition views_error (url : string) (e : PyExc) : Level * string :=
  (ERROR, "Error extracting views from " ++ url ++ ": " ++ exc_str e).

(** ** Concrete pages and worlds, for evaluation *)

Definition offline : string -> Response := fun _ => RequestException "offline".

(** The characters of U+0967 to U+0969, the Devanagari digits one to three. *)
Definition devanagari_digit (c : string) : option Digit :=
  if String.eqb c "१" then Some D1
  else if String.eqb c "२" then Some D2
  else if String.eqb c "३" then Some D3
  else None.

(** An interpreter with the default limit of 4300 digits; of the tables,
    what the examples need. *)
Definition runtime0 : Runtime :=
  {| decimal_digit := devanagari_digit;
     other_digit := fun c => String.eqb c "²";
     lower_text := fun s => s;
     int_max_str_digits := 4300 |}.

(** A file system that takes every write and holds nothing. *)
Definition fs0 : list (string * Article) -> FileSystem :=
  fun _ =>
    {| makedirs_error := fun _ => None;
       write_error := fun _ => None;
       listdir := fun _ => Ok [];
       isdir := fun _ => false;
       load_json := fun p => Raise (OSError ("[Errno 2] No such file or directory: '" ++ p ++ "'")) |}.

Definition world0 : World :=
  {| rng_tape := fun n => Z.of_nat n * 7919;
     rng_pos := 0;
     log := [];
     http := offline;
     clock := fun n => (1714557600 + Z.of_nat n, "2024-05-01T10:00:00");
     clock_pos := 0;
     runtime := runtime0;
     sleep_error := fun _ => None;
     fs := fs0;
     writes := [] |}.

(** [<tag class="cls">txt</tag>] *)
Definition elem (tag cls txt : string) : Node :=
  Tag tag [cls] ∅ [NavigableString txt].

(** A Times of India page whose first counter locator finds a label and
    whose second finds the figure. *)
Definition page_label_then_count : Soup :=
  [ Tag "html" [] ∅
      [ Tag "body" [] ∅
          [ elem "div" "_1_Akb" "Trending"; elem "div" "view-count" "1234 views" ] ] ].

Definition page_count_12k : Soup :=
  [ Tag "html" [] ∅ [ Tag "body" [] ∅ [ elem "div" "view-count" " 12K views " ] ] ].

Definition toi_url : string :=
  "https://timesofindia.indiatimes.com/india/monsoon-hits-kerala/articleshow/123456.cms".

(** Claim C3 as it is worded: a counter element anywhere on the page, under
    any of the adapter's locators, with a numeral in its text that [int]
    accepts, decides the result. *)
Definition tier1_wins_for_any_counter_element : Prop :=
  forall (s : Site) (soup : Soup) (url : string) (w : World) (e : Node)
         (g : list string) (n : Z),
    In e (List.flat_map BS.descendants soup) ->
    Exists (fun loc => BS.matches (fst loc) (Some (snd loc)) [] e = true)
      (site_views_locators s) ->
    Py.search_digits (runtime w) (Py.chars (site_views_text (runtime w) s e)) = Some g ->
    Py.int (runtime w) g = Ok n ->
    site_extract_views s (Some soup) url w = (Ok n, w).

(** The value that [parse_article] puts in a text field of its record. *)
Definition site_field (s : Site) (f : Field) (soup : Soup) : string :=
  match s, f with
  | ET, Title =>
      EconomicTimesScraper.text_or (BS.find "h1" (Some "artTitle") [] soup) NO_TITLE
  | ET, Content =>
      EconomicTimesScraper.text_or (BS.find "div" (Some "artText") [] soup) ""
  | ET, Date =>
      EconomicTimesScraper.text_or (BS.find "time" (Some "pub-time") [] soup) ""
  | _, Title => candidates_loop true (chain s Title soup) NO_TITLE
  | _, Content => candidates_loop false (chain s Content soup) ""
  | _, Date => candidates_loop true (chain s Date soup) ""
  end.

Definition site_name (s : Site) : string :=
  match s with
  | TOI => TimesOfIndiaScraper.name
  | HT => HindustanTimesScraper.name
  | ET => EconomicTimesScraper.name
  end.

(** A network that serves one page. *)
Definition serve (url : string) (page : Soup) : string -> Response :=
  fun u =>
    if String.eqb u url then Body "<!DOCTYPE html><html>...</html>" page
    else RequestException "404 Client Error".

Definition with_http (h : string -> Response) (w : World) : World :=
  {| rng_tape := rng_tape w; rng_pos := rng_pos w; log := log w; http := h;
     clock := clock w; clock_pos := clock_pos w; runtime := runtime w;
     sleep_error := sleep_error w; fs := fs w; writes := writes w |}.

(** A network that serves the listed pages. *)
Fixpoint serve_all (pages : list (string * Soup)) : string -> Response :=
  fun u =>
    match pages with
    | [] => RequestException "404 Client Error"
    | (url, page) :: rest =>
        if String.eqb u url then Body "<!DOCTYPE html><html>...</html>" page
        else serve_all rest u
    end.

(** [<meta property="p" content="c">] *)
Definition meta_tag (p c : string) : Node :=
  Tag "meta" [] (<["content" := c]> (<["property" := p]> ∅)) [].

(** The example of the specification: the first title candidate is there
    but blank, a later one holds the headline. *)
Definition page_blank_then_meta : Soup :=
  [ Tag "html" [] ∅
      [ Tag "head" [] ∅ [ meta_tag "og:title" " Monsoon hits Kerala " ];
        Tag "body" [] ∅ [ elem "h1" "_23498" "   " ] ] ].

(** U+00A0, the no-break space that [&nbsp;] stands for. *)
Definition NBSP : string := String (ascii_of_nat 194) (String (ascii_of_nat 160) EmptyString).

(** The same page with a headline element that holds nothing but no-break
    spaces. *)
Definition page_nbsp_then_meta : Soup :=
  [ Tag "html" [] ∅
      [ Tag "head" [] ∅ [ meta_tag "og:title" "Monsoon hits Kerala" ];
        Tag "body" [] ∅ [ Tag "h1" [] ∅ [ NavigableString (NBSP ++ NBSP) ] ] ] ].

Definition ht_url : string :=
  "https://www.hindustantimes.com/india-news/monsoon-hits-kerala-101700000345.html".

Definition et_url : string :=
  "https://economictimes.indiatimes.com/news/india/monsoon-hits-kerala/articleshow/998877.cms".

Definition site_example_url (s : Site) : string :=
  match s with TOI => toi_url | HT => ht_url | ET => et_url end.

(** For each adapter, a page whose only title element is blank. *)
Definition page_blank_title (s : Site) : Soup :=
  [ Tag "html" [] ∅
      [ Tag "body" [] ∅
          [ match s with
            | TOI => elem "h1" "_23498" "   "
            | HT => elem "h1" "hdg1" " "
            | ET => elem "h1" "artTitle" ""
            end;
            Tag "p" [] ∅ [ NavigableString "Heavy rain reached the coast." ] ] ] ].

(** Claim C6 as it is worded: an emitted record has a non-empty id and a
    non-empty url. *)
Definition every_record_has_nonempty_id_and_url : Prop :=
  forall (s : Site) (url : string) (w w' : World) (a : Article),
    site_parse_article s url w = (Ok (Some a), w') ->
    exists i u, a !! "id" = Some (VStr i) /\ i <> ""
                /\ a !! "url" = Some (VStr u) /\ u <> "".

(** [session.get('')] raises [MissingSchema], a [RequestException]: a
    network answers the empty URL with an error. *)
Definition rejects_empty_url (w : World) : Prop :=
  exists msg, http w "" = RequestException msg.

(** An article URL that ends in a slash, and a home page that links to it. *)
Definition toi_slash_url : string :=
  "https://timesofindia.indiatimes.com/india/articleshow/".

Definition toi_home : Soup :=
  [ Tag "html" [] ∅
      [ Tag "body" [] ∅
          [ Tag "a" [] (<["href" := "/india/articleshow/"]> ∅)
              [ NavigableString "Monsoon hits Kerala" ] ] ] ].

Definition toi_story : Soup :=
  [ Tag "html" [] ∅
      [ Tag "body" [] ∅
          [ elem "h1" "_23498" "Monsoon hits Kerala";
            elem "div" "view-count" "777" ] ] ].

(** [urljoin] on a base without a path and a reference that starts with a
    slash. *)
Definition urljoin_abs_path (base href : string) : string := base ++ href.

Definition world_slash : World :=
  with_http (serve_all [ (TimesOfIndiaScraper.base, toi_home);
                         (toi_slash_url, toi_story) ]) world0.

(** ** Texts of a view counter *)

Definition page_count_decimal : Soup :=
  [ Tag "html" [] ∅ [ Tag "body" [] ∅ [ elem "div" "view-count" "1.5k views" ] ] ].

(** A Times of India page whose counter block holds a label without any
    digit. *)
Definition page_label_markets : Soup :=
  [ Tag "html" [] ∅ [ Tag "body" [] ∅ [ elem "div" "_1_Akb" "Trending Markets" ] ] ].

(** A Hindustan Times page whose counter is written with Devanagari
    digits. *)
Definition page_count_devanagari : Soup :=
  [ Tag "html" [] ∅ [ Tag "body" [] ∅ [ elem "span" "viewCount" "12३ views" ] ] ].

(** The character does not count as a decimal digit. *)
Definition not_decimal (rt : Runtime) (c : string) : bool := negb (Py.is_decimal rt c).

(** ** Ranking *)

(** The number by which a record is ranked: its [views], or 0 without. *)
Definition views_of (a : Article) : Z :=
  match a !! "views" with
  | Some (VInt n) => n
  | _ => 0
  end.

(** The [views] of the record, if it has any, is an integer. *)
Definition int_views (a : Article) : Prop :=
  match a !! "views" with
  | Some (VStr _) => False
  | _ => True
  end.

(** [a] may stand before [b] in a ranking. *)
Definition desc (a b : Article) : Prop := views_of b <= views_of a.

Definition has_views (k : Z) (a : Article) : bool := views_of a =? k.

(** A record with nothing but a title and, possibly, a view count. *)
Definition record (title : string) (views : option Z) : Article :=
  match views with
  | Some n => <["views" := VInt n]> (<["title" := VStr title]> ∅)
  | None => <["title" := VStr title]> ∅
  end.

Definition crawler0 : Crawler :=
  {| config := {| max_articles_per_website := 20; delay_min := 2; delay_max := 5 |};
     scrapers := [];
     raw_dir := "/srv/app/data/raw" |}.

(** ** Crawls *)

(** The scraper object of a site. *)
Definition site_scraper (s : Site) (urljoin : string -> string -> string) : Scraper :=
  match s with
  | TOI => TimesOfIndiaScraper.new urljoin
  | HT => HindustanTimesScraper.new urljoin
  | ET => EconomicTimesScraper.new urljoin
  end.

(** The messages logged at level INFO, oldest first. *)
Definition info_messages (l : list (Level * string)) : list string :=
  List.flat_map (fun r => match fst r with INFO => [snd r] | _ => [] end) l.

(** A Times of India section page with three article links, the second of
    which cannot be fetched. *)
Definition toi_section : Soup :=
  [ Tag "html" [] ∅
      [ Tag "body" [] ∅
          [ Tag "a" [] (<["href" := "/india/a/articleshow/101.cms"]> ∅) [NavigableString "A"];
            Tag "a" [] (<["href" := "/about"]> ∅) [NavigableString "About"];
            Tag "a" [] (<["href" := "/india/b/articleshow/102.cms"]> ∅) [NavigableString "B"];
            Tag "a" [] (<["href" := "/india/a/articleshow/101.cms"]> ∅) [NavigableString "A"];
            Tag "a" [] (<["href" := "/india/c/articleshow/103.cms"]> ∅) [NavigableString "C"] ] ] ].

Definition world_section : World :=
  with_http
    (serve_all
       [ ("https://timesofindia.indiatimes.com/india", toi_section);
         ("https://timesofindia.indiatimes.com/india/a/articleshow/101.cms", toi_story);
         ("https://timesofindia.indiatimes.com/india/c/articleshow/103.cms", toi_story) ])
    world0.

(** What [crawl_articles] logs before it parses [url]. *)
Definition attempt_message (url : string) : string := "Crawling article: " ++ url.

(** The bounds of a delay between which [time.sleep] is known to return:
    both from 0 to [SLEEP_MAX] seconds. *)
Definition delay_in_range (delay_range : Z * Z) : Prop :=
  0 <= fst delay_range <= SLEEP_MAX /\ 0 <= snd delay_range <= SLEEP_MAX.

(** The world in which an attempt on [url] starts its parse: the attempt is
    on the log and the delay is drawn. *)
Definition before_parse (url : string) (w : World) : World :=
  set_rng_pos (S (rng_pos w)) (set_log (log w ++ [(INFO, attempt_message url)])%list w).

(** [attempts parse urls w articles w']: from the world [w], each URL of
    [urls] is attempted in order: [parse] is run on it in the world that
    the attempt before it has left (after the log entry and the delay), and
    the record it returns, if any, is the next of [articles]; a parse that
    returns nothing leaves no record, and the next URL is attempted all the
    same.  [w'] is the world after the last attempt. *)
Inductive attempts (parse : string -> M (option Article))
  : list string -> World -> list Article -> World -> Prop :=
| attempts_done w : attempts parse [] w [] w
| attempts_failed url urls w w1 articles w2 :
    parse url (before_parse url w) = (Ok None, w1) ->
    attempts parse urls w1 articles w2 ->
    attempts parse (url :: urls) w articles w2
| attempts_record url urls w a w1 articles w2 :
    parse url (before_parse url w) = (Ok (Some a), w1) ->
    attempts parse urls w1 articles w2 ->
    attempts parse (url :: urls) w (a :: articles) w2.

(** The record that [get_page] logs when the request fails, and the one
    that [crawl_articles] logs when it has no link. *)
Definition fetch_error (url msg : string) : Level * string :=
  (ERROR, "Error fetching " ++ url ++ ": " ++ msg).

Definition no_urls_warning (name : string) : Level * string :=
  (WARNING, "No article URLs found for " ++ name).

(** The world after link discovery in which the attempts start: with the
    warning of [crawl_articles] when no link was found. *)
Definition after_discovery (name : string) (urls : list string) (w : World) : World :=
  match urls with
  | [] => set_log (log w ++ [no_urls_warning name])%list w
  | _ => w
  end.

(** ** View counts in a message *)

(** Claim C8 as it is worded: three ranges that cover every count. *)
Definition every_count_is_abbreviated : Prop :=
  (forall n, 0 <= n < 1000 -> view_count_str n = Ok (Py.str_int n))
  /\ (forall n, 1000 <= n < 1000000 ->
        exists k, view_count_str n = Ok (Float.one_decimal k ++ "K"))
  /\ (forall n, 1000000 <= n ->
        exists k, view_count_str n = Ok (Float.one_decimal k ++ "M")).

(** The least quotient that no longer rounds to a finite double, times the
    divisor: [(2^1024 - 2^970) * 1000000]. *)
Definition overflow_count : Z := (2 ^ 1024 - 2 ^ 970) * 1000000.

Definition overflow_error : PyExc :=
  OverflowError "integer division result too large for a float".

(** An ASCII digit. *)
Definition is_digit (c : ascii) : bool :=
  let n := nat_of_ascii c in ((48 <=? n) && (n <=? 57))%nat.

Fixpoint all_digits (s : string) : bool :=
  match s with
  | EmptyString => true
  | String c s' => is_digit c && all_digits s'
  end.

(** A decimal numeral: a non-empty string of ASCII digits. *)
Definition numeral (s : string) : bool := Py.truthy s && all_digits s.

Definition digit_val (c : ascii) : Z := Z.of_nat (nat_of_ascii c) - 48.

Fixpoint numeral_acc (acc : Z) (s : string) : Z :=
  match s with
  | EmptyString => acc
  | String c s' => numeral_acc (10 * acc + digit_val c) s'
  end.

(** The number that a decimal numeral denotes. *)
Definition numeral_value (s : string) : Z := numeral_acc 0 s.

(** ** Further vocabulary *)

(** The number that the estimate of an adapter reads in a URL: for Times of
    India the last four characters of the id, when the id passes
    [isdigit] and [int] accepts them; for the other two the last two
    (three) digits of the number at the end of the URL. *)
Definition site_url_id (rt : Runtime) (s : Site) (url : string) : option Z :=
  match s with
  | TOI =>
      let article_id := Py.chars (TimesOfIndiaScraper.article_id_of url) in
      if Py.isdigit rt article_id
      then match Py.int rt (Py.lastn 4 article_id) with
           | Ok n => Some n
           | Raise _ => None
           end
      else None
  | HT =>
      match Py.search_trailing_id rt (Py.chars ".html") (Py.chars url) with
      | Some g => match Py.int rt (Py.lastn 2 g) with Ok n => Some n | Raise _ => None end
      | None => None
      end
  | ET =>
      match Py.search_trailing_id rt (Py.chars ".cms") (Py.chars url) with
      | Some g => match Py.int rt (Py.lastn 3 g) with Ok n => Some n | Raise _ => None end
      | None => None
      end
  end.

(** The range of the estimate made from an identifier. *)
Definition site_id_estimate_range (s : Site) : Z * Z :=
  match s with
  | TOI => (50000, 1199900)
  | HT => (50, 1490)
  | ET => (100, 5995)
  end.

(** The value a field has before its candidates are tried. *)
Definition field_default (f : Field) : string :=
  match f with
  | Title => NO_TITLE
  | _ => ""
  end.

Definition is_missing (o : option Node) : bool :=
  match o with
  | Some _ => false
  | None => true
  end.

Definition site_base (s : Site) : string :=
  match s with
  | TOI => TimesOfIndiaScraper.base
  | HT => HindustanTimesScraper.base
  | ET => EconomicTimesScraper.base
  end.

(** The page on which [get_article_urls] looks for links. *)
Definition listing_url (s : Site) (category : option string) : string :=
  match category with
  | Some c => if Py.truthy c then site_base s ++ "/" ++ c else site_base s
  | None => site_base s
  end.

(** The test that an href is a link to an article of the site. *)
Definition site_is_article (s : Site) (href : string) : bool :=
  match s with
  | TOI => contains "/articleshow/" href
  | HT => contains "/story-" href || contains "/article-" href
  | ET => contains "/articleshow/" href || contains "/prime/news/" href
  end.

Definition page_no_counter : Soup :=
  [ Tag "html" [] ∅ [ Tag "body" [] ∅ [ elem "h1" "hdg1" "Monsoon hits Kerala" ] ] ].

Definition page_count_comma : Soup :=
  [ Tag "html" [] ∅ [ Tag "body" [] ∅ [ elem "span" "viewCount" "Views: 1,234" ] ] ].

(** The keys of the record that [parse_article] returns. *)
Definition article_keys : gset string :=
  {[ "id"; "url"; "title"; "content"; "published_date"; "category"; "source";
     "views"; "crawled_at" ]}.

Definition world_error : World :=
  with_http (fun _ => RequestException "HTTPSConnectionPool: Read timed out.") world0.

(** ** Links and URLs *)

(** The first occurrence of each string of a list, in order. *)
Fixpoint keep_first (l : list string) : list string :=
  match l with
  | [] => []
  | x :: r => x :: List.filter (fun y => negb (String.eqb x y)) (keep_first r)
  end.

(** The hrefs of the anchors of a page, in document order. *)
Definition hrefs (soup : Soup) : list string :=
  List.map (fun a_tag => BS.get a_tag "href" "") (find_all "a" soup).

Fixpoint all_chars (p : ascii -> bool) (s : string) : bool :=
  match s with
  | EmptyString => true
  | String c s' => p c && all_chars p s'
  end.

(** The character [c] does not occur in [s]. *)
Definition no_char (c : ascii) (s : string) : bool :=
  all_chars (fun a => negb (Ascii.eqb c a)) s.

(** ** Files *)

(** The directory of a site and category under the root of the archive. *)
Definition category_dir_of (self : Crawler) (website : string) (category : option string)
    : string :=
  path_join (path_join (raw_dir self) website)
    (match category with
     | Some c => if Py.truthy c then c else website
     | None => website
     end).

(** The file in which [_save_raw_data] stores a record that has an id. *)
Definition record_file (category_dir : string) (a : Article) : string :=
  path_join category_dir
    (match a !! "id" with Some v => value_str v | None => "" end ++ ".json").

(** The file system raises [e] when the program makes a directory or writes
    a file at one of [paths], after some files were written. *)
Definition fs_refuses (w : World) (paths : list string) (e : PyExc) : Prop :=
  exists (written : list (string * Article)) (path : string),
    In path paths
    /\ (makedirs_error (fs w written) path = Some e
        \/ write_error (fs w written) path = Some e).

(** The files of some records under a directory, with their contents. *)
Definition record_files (category_dir : string) (articles : list Article)
    : list (string * Article) :=
  List.map (fun a => (record_file category_dir a, a)) articles.

(** The record is not the empty [dict] and its id is a string. *)
Definition has_string_id (a : Article) : Prop :=
  a <> ∅ /\ exists i, a !! "id" = Some (VStr i).

(** ** Messages *)

(** The first of the keys that [format_article_message] reads with
    [article[...]] and that the record lacks. *)
Definition first_missing_key (a : Article) : option string :=
  match a !! "title", a !! "url", a !! "source" with
  | None, _, _ => Some "title"
  | Some _, None, _ => Some "url"
  | Some _, Some _, None => Some "source"
  | Some _, Some _, Some _ => None
  end.

(** The key of a site in [IndiaNewsCrawler.scrapers]. *)
Definition site_key (s : Site) : string :=
  match s with
  | TOI => "times_of_india"
  | HT => "hindustan_times"
  | ET => "economic_times"
  end.

(** The [except] branch of [extract_views]: the error is logged and the
    result is drawn from the default range of the adapter. *)
Definition site_handler (s : Site) (url : string) (e : PyExc) : M Z :=
  logger ERROR (snd (views_error url e)) ;;
  randint (fst (site_default_range s)) (snd (site_default_range s)).

(** What [crawl_all] and [crawl_specific_website] log before a site is
    crawled. *)
Definition crawling_message (website : string) : string := "Crawling " ++ website ++ "...".

(** * Properties *)

(** ** Evaluation on small inputs *)

Example chars_ex : Py.chars "a१b" = ["a"; "१"; "b"].
Proof. reflexivity. Qed.

Example strip_ex : Py.strip "  12k views
" = "12k views".
Proof. reflexivity. Qed.

Example strip_nbsp_ex : Py.strip (NBSP ++ " 12k " ++ NBSP) = "12k" /\ Py.strip (NBSP ++ NBSP) = "".
Proof. split; reflexivity. Qed.

Example replace_ex : Py.replace "k" "000" "1.5k ok" = "1.5000 o000".
Proof. reflexivity. Qed.

Example replace_ex2 : Py.replace "ab" "x" "aabab-ab" = "axx-x".
Proof. reflexivity. Qed.

Example split_ex : Py.split "/" "https://a.b/india/x-1.cms" =
  ["https:"; ""; "a.b"; "india"; "x-1.cms"].
Proof. reflexivity. Qed.

Example split_ex2 : Py.split "." "" = [""].
Proof. reflexivity. Qed.

Example search_digits_ex :
  Py.search_digits runtime0 (Py.chars "views: 1.5000") = Some ["1"]
  /\ Py.search_digits runtime0 (Py.chars "12३ views") = Some ["1"; "2"; "३"]
  /\ Py.int runtime0 ["1"; "2"; "३"] = Ok 123.
Proof. repeat split; reflexivity. Qed.

Example isdigit_ex :
  Py.isdigit runtime0 (Py.chars "12²") = true
  /\ Py.int runtime0 (Py.chars "12²")
     = Raise (ValueError "invalid literal for int() with base 10: '12²'").
Proof. split; reflexivity. Qed.

Example search_trailing_ex :
  Py.search_trailing_id runtime0 (Py.chars ".html") (Py.chars "/a-12-b/story-101700000345.html")
  = Some (Py.chars "101700000345").
Proof. reflexivity. Qed.

Example search_trailing_ex2 :
  Py.search_trailing_id runtime0 (Py.chars ".html") (Py.chars "/a-12-b/story") = None.
Proof. reflexivity. Qed.

Example str_int_ex : Py.str_int 1500 = "1500" /\ Py.str_int 0 = "0" /\ Py.str_int 999 = "999".
Proof. repeat split; reflexivity. Qed.

Example lastn_ex :
  Py.lastn 4 (Py.chars "123456") = Py.chars "3456" /\ Py.lastn 4 (Py.chars "12") = Py.chars "12".
Proof. split; reflexivity. Qed.

Example slice_ex : Py.slice_to [1; 2; 3] 2 = [1; 2] /\ Py.slice_to [1; 2; 3] (-1) = [1; 2]
  /\ Py.slice_to [1; 2; 3] 7 = [1; 2; 3].
Proof. repeat split; reflexivity. Qed.

Example view_count_str_examples :
  view_count_str 999 = Ok "999" /\ view_count_str 1500 = Ok "1.5K"
  /\ view_count_str 2500000 = Ok "2.5M" /\ view_count_str 1250 = Ok "1.2K"
  /\ view_count_str 1350 = Ok "1.4K" /\ view_count_str 999999 = Ok "1000.0K"
  /\ view_count_str 1150 = Ok "1.1K" /\ view_count_str 1050 = Ok "1.1K".
Proof. vm_compute. repeat split. Qed.

(** ** Running the monad *)

Lemma bind_ok {A B} (c : M A) (k : A -> M B) w a w' :
  c w = (Ok a, w') -> bind c k w = k a w'.
Proof. unfold bind. intros ->. reflexivity. Qed.

Lemma bind_raise {A B} (c : M A) (k : A -> M B) w e w' :
  c w = (Raise e, w') -> bind c k w = (Raise e, w').
Proof. unfold bind. intros ->. reflexivity. Qed.

Lemma try_except_ok {A} (body : M A) h w a w' :
  body w = (Ok a, w') -> try_except body h w = (Ok a, w').
Proof. unfold try_except. intros ->. reflexivity. Qed.

Lemma truthy_true s : Py.truthy s = true <-> s <> "".
Proof. destruct s; simpl; split; congruence. Qed.

Lemma truthy_false s : Py.truthy s = false <-> s = "".
Proof. destruct s; simpl; split; congruence. Qed.

(** ** Pages *)

Lemma find_name nm cls attrs soup e :
  BS.find nm cls attrs soup = Some e -> BS.name e = nm.
Proof.
  unfold BS.find. intros H. apply List.find_some in H as [_ H].
  unfold BS.matches in H.
  apply andb_true_iff in H as [H _]. apply andb_true_iff in H as [H _].
  now apply String.eqb_eq in H.
Qed.

Lemma find_matches nm cls attrs soup e :
  BS.find nm cls attrs soup = Some e ->
  In e (List.flat_map BS.descendants soup) /\ BS.matches nm cls attrs e = true.
Proof. unfold BS.find. apply List.find_some. Qed.

(** ** The candidate loops *)

Lemma candidates_loop_no_meta cands init :
  Forall not_meta cands ->
  candidates_loop false cands init = candidates_loop true cands init.
Proof.
  intros H. revert init. induction H as [|o cands Ho _ IH]; intros init; [reflexivity|].
  destruct o as [c|]; simpl; [|apply IH].
  simpl in Ho. apply String.eqb_neq in Ho. rewrite Ho. simpl.
  destruct (Py.truthy _); [reflexivity|apply IH].
Qed.

Lemma candidates_loop_first cands init v :
  first_nonblank cands v -> candidates_loop true cands init = v.
Proof.
  intros H. revert init.
  induction H as [c rest Hc|rest v _ IH|c rest v Hc _ IH]; intros init; simpl.
  - fold (field_value c). apply truthy_true in Hc. now rewrite Hc.
  - apply IH.
  - fold (field_value c). rewrite Hc. simpl. apply IH.
Qed.

(** When nothing succeeds, the loop variable keeps its initial value only
    if no candidate was found at all; a blank candidate leaves it empty. *)
Lemma candidates_loop_none cands init :
  none_succeeds cands ->
  candidates_loop true cands init =
    if forallb (fun o => match o with Some _ => false | None => true end) cands
    then init else "".
Proof.
  intros H. revert init. induction H as [|o cands Ho _ IH]; intros init; [reflexivity|].
  destruct o as [c|]; simpl; [|apply IH].
  fold (field_value c). rewrite Ho. simpl. rewrite IH.
  now destruct (forallb _ cands).
Qed.

Lemma find_not_meta nm cls attrs soup :
  nm <> "meta" -> not_meta (BS.find nm cls attrs soup).
Proof.
  intros Hnm. destruct (BS.find nm cls attrs soup) as [e|] eqn:E; simpl; [|exact I].
  apply find_name in E. congruence.
Qed.

Lemma content_chain_no_meta s soup : Forall not_meta (chain s Content soup).
Proof.
  destruct s; simpl; repeat constructor; apply find_not_meta; discriminate.
Qed.

Lemma et_chain_no_meta f soup : Forall not_meta (chain ET f soup).
Proof.
  destruct f; simpl; repeat constructor; apply find_not_meta; discriminate.
Qed.

Lemma text_or_loop o init :
  EconomicTimesScraper.text_or o init =
    match o with
    | Some c => Py.strip (BS.text c)
    | None => init
    end.
Proof. reflexivity. Qed.

(** The Economic Times adapter takes the trimmed text of its one candidate
    whatever it is; this agrees with the loop of the other two adapters when
    the candidate is missing or not blank. *)
Lemma text_or_candidates_loop o init :
  not_meta o ->
  (forall c, o = Some c -> field_value c <> "") ->
  EconomicTimesScraper.text_or o init = candidates_loop true [o] init.
Proof.
  intros Hm Hv. destruct o as [c|]; simpl; [|reflexivity].
  simpl in Hm. apply String.eqb_neq in Hm. rewrite Hm. simpl.
  specialize (Hv c eq_refl). unfold field_value in Hv. rewrite Hm in Hv.
  apply truthy_true in Hv. now rewrite Hv.
Qed.

(** ** Numerals *)

Lemma digit_Z_range d : 0 <= digit_Z d <= 9.
Proof. destruct d; simpl; lia. Qed.

Lemma horner_bound ds acc :
  acc * 10 ^ Z.of_nat (length ds) <= Py.horner acc ds
    < (acc + 1) * 10 ^ Z.of_nat (length ds).
Proof.
  revert acc. induction ds as [|d ds IH]; intros acc.
  - simpl. lia.
  - cbn [Py.horner length]. rewrite Nat2Z.inj_succ, Z.pow_succ_r by lia.
    pose proof (digit_Z_range d) as Hd.
    specialize (IH (10 * acc + digit_Z d)).
    assert (0 < 10 ^ Z.of_nat (length ds)) by (apply Z.pow_pos_nonneg; lia).
    nia.
Qed.

Lemma digits_of_length rt cs ds :
  Py.digits_of rt cs = Some ds -> length ds = length cs.
Proof.
  revert ds. induction cs as [|c cs IH]; intros ds; cbn [Py.digits_of].
  - now intros [= <-].
  - destruct (Py.decimal rt c) as [d|]; [|discriminate].
    destruct (Py.digits_of rt cs) as [ds'|]; [|discriminate].
    intros [= <-]. simpl. now rewrite (IH ds').
Qed.

Lemma digits_of_all rt cs :
  forallb (Py.is_decimal rt) cs = true -> exists ds, Py.digits_of rt cs = Some ds.
Proof.
  induction cs as [|c cs IH]; cbn [forallb Py.digits_of]; [eauto|].
  intros H. apply andb_true_iff in H as [Hc H].
  destruct (IH H) as (ds & ->). unfold Py.is_decimal in Hc.
  destruct (Py.decimal rt c) as [d|]; [eauto|discriminate].
Qed.

(** What [int] returns is the value of a numeral that has as many digits as
    the text has characters. *)
Lemma int_value rt cs n :
  Py.int rt cs = Ok n ->
  exists ds, Py.digits_of rt cs = Some ds /\ n = Py.horner 0 ds /\ cs <> [].
Proof.
  unfold Py.int. destruct (Py.digits_of rt cs) as [[|d ds]|] eqn:E; try discriminate.
  destruct (Py.too_long rt (length cs)); [discriminate|].
  intros [= <-]. exists (d :: ds). repeat split.
  intros ->. discriminate E.
Qed.

Lemma int_bound rt cs n :
  Py.int rt cs = Ok n -> 0 <= n < 10 ^ Z.of_nat (length cs).
Proof.
  intros H. destruct (int_value rt cs n H) as (ds & Hd & -> & _).
  pose proof (horner_bound ds 0) as Hb. rewrite (digits_of_length _ _ _ Hd) in Hb. lia.
Qed.

Lemma int_nonneg rt cs n : Py.int rt cs = Ok n -> 0 <= n.
Proof. intros H. apply (int_bound rt cs n H). Qed.

Lemma length_lastn {A} n (l : list A) : (length (Py.lastn n l) <= n)%nat.
Proof. unfold Py.lastn. rewrite length_skipn. lia. Qed.

Lemma lastn_nonempty {A} n (l : list A) : l <> [] -> (0 < n)%nat -> Py.lastn n l <> [].
Proof.
  intros Hl Hn H. apply (f_equal (@length A)) in H.
  unfold Py.lastn in H. rewrite length_skipn in H. simpl in H.
  destruct l; [congruence|simpl in H; lia].
Qed.

Lemma forallb_skipn {A} (p : A -> bool) n l :
  forallb p l = true -> forallb p (List.skipn n l) = true.
Proof.
  revert l. induction n as [|n IH]; intros l H; [exact H|].
  destruct l as [|x l]; [reflexivity|]. simpl in *.
  apply andb_true_iff in H as [_ H]. now apply IH.
Qed.

Lemma int_lastn_bound rt k cs n :
  Py.int rt (Py.lastn k cs) = Ok n -> 0 <= n < 10 ^ Z.of_nat k.
Proof.
  intros H. pose proof (int_bound _ _ _ H) as Hb.
  split; [lia|]. eapply Z.lt_le_trans; [apply Hb|].
  apply Z.pow_le_mono_r; [lia|]. pose proof (length_lastn k cs). lia.
Qed.

(** The last few characters of a run of decimal digits are a numeral that
    [int] accepts. *)
Lemma int_lastn_decimal rt k cs :
  cs <> [] -> forallb (Py.is_decimal rt) cs = true -> (0 < k <= 640)%nat ->
  exists n, Py.int rt (Py.lastn k cs) = Ok n.
Proof.
  intros Hne Hall Hk.
  pose proof (lastn_nonempty k cs Hne ltac:(lia)) as Hl.
  pose proof (length_lastn k cs) as Hlen.
  destruct (digits_of_all rt (Py.lastn k cs)) as (ds & Hd); [now apply forallb_skipn|].
  unfold Py.int. rewrite Hd.
  destruct ds as [|d ds].
  - apply digits_of_length in Hd. destruct (Py.lastn k cs); [congruence|discriminate].
  - unfold Py.too_long.
    replace (640 <? length (Py.lastn k cs))%nat with false
      by (symmetry; apply Nat.ltb_ge; lia).
    eauto.
Qed.

Lemma take_while_all {A} (p : A -> bool) l : forallb p (Py.take_while p l) = true.
Proof.
  induction l as [|x l IH]; [reflexivity|]. simpl.
  destruct (p x) eqn:E; [|reflexivity]. simpl. now rewrite E.
Qed.

Lemma search_digits_all rt cs g :
  Py.search_digits rt cs = Some g -> g <> [] /\ forallb (Py.is_decimal rt) g = true.
Proof.
  induction cs as [|c cs IH]; [discriminate|]. cbn [Py.search_digits].
  destruct (Py.is_decimal rt c) eqn:E; [|exact IH].
  intros [= <-]. split; [discriminate|]. simpl. rewrite E. apply take_while_all.
Qed.

Lemma search_trailing_id_all rt ext cs g :
  Py.search_trailing_id rt ext cs = Some g ->
  g <> [] /\ forallb (Py.is_decimal rt) g = true.
Proof.
  induction cs as [|c cs IH]; [discriminate|]. cbn [Py.search_trailing_id].
  destruct (Py.is_decimal rt c) eqn:E; [|exact IH].
  destruct (_ || _); [|exact IH].
  intros [= <-]. split; [discriminate|]. simpl. rewrite E. apply take_while_all.
Qed.

(** ** The random generator *)

Lemma randint_spec a b w :
  a <= b ->
  exists v, randint a b w = (Ok v, set_rng_pos (S (rng_pos w)) w) /\ a <= v <= b.
Proof.
  intros Hab. eexists. split; [reflexivity|].
  pose proof (Z.mod_pos_bound (rng_tape w (rng_pos w)) (b - a + 1)). lia.
Qed.

(** ** extract_views *)

Lemma site_extract_views_handler s soup url :
  site_extract_views s soup url
  = try_except (site_extract_views_try s soup url) (site_handler s url).
Proof. now destruct s. Qed.

(** The handler: one error on the log, one draw from the default range. *)
Lemma site_handler_spec s url e w :
  exists v,
    site_handler s url e w
      = (Ok v, set_rng_pos (S (rng_pos w)) (set_log (log w ++ [views_error url e]) w))
    /\ fst (site_default_range s) <= v <= snd (site_default_range s).
Proof.
  unfold site_handler, bind, logger.
  destruct (randint_spec (fst (site_default_range s)) (snd (site_default_range s))
              (set_log (log w ++ [(ERROR, snd (views_error url e))]) w)) as (v & Hv & Hb).
  { destruct s; simpl; lia. }
  exists v. split; [exact Hv|exact Hb].
Qed.

Lemma default_range_nonneg s v :
  fst (site_default_range s) <= v <= snd (site_default_range s) -> 0 <= v.
Proof. destruct s; simpl; lia. Qed.

(** The estimate from the URL: one draw and a value in the range of the
    identifier, or of the default when the URL has none; for a Times of India
    id that passes [isdigit] and that [int] refuses, the [ValueError] of
    [int], before any draw. *)
Lemma estimate_views_cases s url w :
  match site_url_id (runtime w) s url with
  | Some _ =>
      exists v, site_estimate_views s url w = (Ok v, set_rng_pos (S (rng_pos w)) w)
                /\ fst (site_id_estimate_range s) <= v <= snd (site_id_estimate_range s)
  | None =>
      (exists v, site_estimate_views s url w = (Ok v, set_rng_pos (S (rng_pos w)) w)
                 /\ fst (site_default_range s) <= v <= snd (site_default_range s))
      \/ (exists e, site_estimate_views s url w = (Raise e, w))
  end.
Proof.
  destruct s; simpl.
  - unfold TimesOfIndiaScraper.estimate_views, bind, get_runtime, lift.
    destruct (Py.isdigit _ _) eqn:E.
    + destruct (Py.int _ _) as [n|e] eqn:En.
      * destruct (randint_spec 50000 200000 w) as (r & Hr & Hb); [lia|].
        rewrite Hr. eexists. split; [reflexivity|].
        pose proof (int_lastn_bound _ _ _ _ En) as Hs.
        change (10 ^ Z.of_nat 4) with 10000 in Hs. lia.
      * right. eauto.
    + left. destruct (randint_spec 100000 500000 w) as (r & Hr & Hb); [lia|].
      exists r. split; [exact Hr|lia].
  - unfold HindustanTimesScraper.estimate_views, bind, get_runtime, lift.
    destruct (Py.search_trailing_id _ _ _) as [g|] eqn:E.
    + apply search_trailing_id_all in E as [Hne Hall].
      destruct (int_lastn_decimal (runtime w) 2 g Hne Hall ltac:(lia)) as (n & Hn).
      rewrite Hn.
      destruct (randint_spec 50 500 w) as (r & Hr & Hb); [lia|].
      rewrite Hr. eexists. split; [reflexivity|].
      pose proof (int_lastn_bound _ _ _ _ Hn) as Hs.
      change (10 ^ Z.of_nat 2) with 100 in Hs. lia.
    + left. destruct (randint_spec 100 2000 w) as (r & Hr & Hb); [lia|].
      exists r. split; [exact Hr|lia].
  - unfold EconomicTimesScraper.estimate_views, bind, get_runtime, lift.
    destruct (Py.search_trailing_id _ _ _) as [g|] eqn:E.
    + apply search_trailing_id_all in E as [Hne Hall].
      destruct (int_lastn_decimal (runtime w) 3 g Hne Hall ltac:(lia)) as (n & Hn).
      rewrite Hn.
      destruct (randint_spec 100 1000 w) as (r & Hr & Hb); [lia|].
      rewrite Hr. eexists. split; [reflexivity|].
      pose proof (int_lastn_bound _ _ _ _ Hn) as Hs.
      change (10 ^ Z.of_nat 3) with 1000 in Hs. lia.
    + left. destruct (randint_spec 100 3000 w) as (r & Hr & Hb); [lia|].
      exists r. split; [exact Hr|lia].
Qed.

Lemma id_range_nonneg s v :
  fst (site_id_estimate_range s) <= v <= snd (site_id_estimate_range s) -> 0 <= v.
Proof. destruct s; simpl; lia. Qed.

(** When the estimate returns, it has taken one draw and nothing else, and
    its value is not negative; when it raises, it has changed nothing. *)
Lemma estimate_views_result s url w :
  (exists v, site_estimate_views s url w = (Ok v, set_rng_pos (S (rng_pos w)) w) /\ 0 <= v)
  \/ (exists e, site_estimate_views s url w = (Raise e, w)).
Proof.
  pose proof (estimate_views_cases s url w) as H.
  destruct (site_url_id (runtime w) s url).
  - destruct H as (v & Hv & Hb). left. exists v. split; [exact Hv|].
    now apply (id_range_nonneg s).
  - destruct H as [(v & Hv & Hb)|H]; [left|now right].
    exists v. split; [exact Hv|]. now apply (default_range_nonneg s).
Qed.

(** With a page, the [try] block of [extract_views] reads the located
    element and, failing that, estimates. *)
Lemma extract_views_try_some s soup url w :
  site_extract_views_try s (Some soup) url w =
    match site_views_elem s soup with
    | Some e =>
        match Py.search_digits (runtime w) (Py.chars (site_views_text (runtime w) s e)) with
        | Some g => (Py.int (runtime w) g, w)
        | None => site_estimate_views s url w
        end
    | None => site_estimate_views s url w
    end.
Proof.
  destruct s; simpl.
  - unfold TimesOfIndiaScraper.extract_views_try, soup_find, bind, get_runtime, ret at 1.
    destruct (BS.find "div" (Some "_1_Akb") [] soup) as [e|] eqn:E1.
    + unfold ret. now destruct (Py.search_digits _ _).
    + unfold ret at 1.
      destruct (BS.find "div" (Some "view-count") [] soup) as [e|] eqn:E2;
        unfold ret; [now destruct (Py.search_digits _ _)|reflexivity].
  - unfold HindustanTimesScraper.extract_views_try, soup_find, bind, get_runtime, ret.
    destruct (BS.find _ _ _ soup) as [e|]; [now destruct (Py.search_digits _ _)|reflexivity].
  - unfold EconomicTimesScraper.extract_views_try, soup_find, bind, get_runtime, ret.
    destruct (BS.find _ _ _ soup) as [e|]; [now destruct (Py.search_digits _ _)|reflexivity].
Qed.

(** Without a page the lookup raises. *)
Lemma extract_views_try_none s url w :
  site_extract_views_try s None url w
  = (Raise (AttributeError "'NoneType' object has no attribute 'find'"), w).
Proof. now destruct s. Qed.

(** The [try] block changes nothing but the position of the generator, by
    at most one draw, and what it returns is not negative. *)
Lemma extract_views_try_result s soup url w :
  match site_extract_views_try s soup url w with
  | (Ok v, w') => 0 <= v /\ (w' = w \/ w' = set_rng_pos (S (rng_pos w)) w)
  | (Raise _, w') => w' = w
  end.
Proof.
  destruct soup as [soup|]; [|now rewrite extract_views_try_none].
  rewrite extract_views_try_some.
  assert (He : match site_estimate_views s url w with
               | (Ok v, w') => 0 <= v /\ (w' = w \/ w' = set_rng_pos (S (rng_pos w)) w)
               | (Raise _, w') => w' = w
               end).
  { destruct (estimate_views_result s url w) as [(v & -> & Hv)|(e & ->)]; auto. }
  destruct (site_views_elem s soup) as [e|]; [|exact He].
  destruct (Py.search_digits _ _) as [g|]; [|exact He].
  destruct (Py.int (runtime w) g) as [n|x] eqn:E; [|reflexivity].
  split; [now apply int_nonneg in E|now left].
Qed.

(** [extract_views] returns what its [try] block returns, and the draw of
    the handler when the block raises. *)
Lemma extract_views_result s soup url w :
  match site_extract_views_try s soup url w with
  | (Ok v, w') => site_extract_views s soup url w = (Ok v, w')
  | (Raise e, _) =>
      exists v,
        site_extract_views s soup url w
          = (Ok v, set_rng_pos (S (rng_pos w)) (set_log (log w ++ [views_error url e]) w))
        /\ fst (site_default_range s) <= v <= snd (site_default_range s)
  end.
Proof.
  rewrite site_extract_views_handler. unfold try_except.
  pose proof (extract_views_try_result s soup url w) as H.
  destruct (site_extract_views_try s soup url w) as [[v|e] w']; [reflexivity|].
  subst w'. apply site_handler_spec.
Qed.

Lemma extract_views_total s soup url w :
  exists v w', site_extract_views s soup url w = (Ok v, w') /\ 0 <= v.
Proof.
  pose proof (extract_views_result s soup url w) as H.
  pose proof (extract_views_try_result s soup url w) as Ht.
  destruct (site_extract_views_try s soup url w) as [[v|e] w'].
  - exists v, w'. split; [exact H|apply Ht].
  - destruct H as (v & Hv & Hb). eexists. eexists. split; [exact Hv|].
    now apply (default_range_nonneg s).
Qed.

Lemma extract_views_total_some s soup url w :
  exists v w', site_extract_views s (Some soup) url w = (Ok v, w') /\ 0 <= v.
Proof. apply extract_views_total. Qed.

Lemma info_messages_app l1 l2 :
  info_messages (l1 ++ l2)%list = (info_messages l1 ++ info_messages l2)%list.
Proof. unfold info_messages. apply flat_map_app. Qed.

(** What [extract_views] leaves of the world: everything but the position
    of the generator, which advances by at most one draw, and the log, which
    gains at most an error. *)
Lemma extract_views_frame s soup url w v w' :
  site_extract_views s soup url w = (Ok v, w') ->
  (rng_pos w <= rng_pos w' <= S (rng_pos w))%nat
  /\ info_messages (log w') = info_messages (log w)
  /\ http w' = http w /\ clock w' = clock w /\ clock_pos w' = clock_pos w
  /\ runtime w' = runtime w /\ sleep_error w' = sleep_error w /\ fs w' = fs w
  /\ writes w' = writes w.
Proof.
  pose proof (extract_views_result s soup url w) as H.
  pose proof (extract_views_try_result s soup url w) as Ht.
  destruct (site_extract_views_try s soup url w) as [[v0|e] w0].
  - rewrite H. intros [= _ <-]. destruct Ht as [_ [-> | ->]]; simpl; repeat split; lia.
  - destruct H as (v1 & -> & _). intros [= _ <-]. simpl.
    rewrite info_messages_app. simpl. rewrite app_nil_r. repeat split; lia.
Qed.

(** The shared step behind the statements on the first tier. *)
Lemma tier1_text s soup url w e g n :
  site_views_elem s soup = Some e ->
  Py.search_digits (runtime w) (Py.chars (site_views_text (runtime w) s e)) = Some g ->
  Py.int (runtime w) g = Ok n ->
  site_extract_views s (Some soup) url w = (Ok n, w).
Proof.
  intros He Hg Hn. pose proof (extract_views_result s (Some soup) url w) as H.
  rewrite extract_views_try_some, He, Hg, Hn in H. exact H.
Qed.

(** C4.  For every adapter, every page (present or absent) and every URL,
    [extract_views] returns an integer that is not negative and raises
    nothing: it returns what its [try] block returns, and when that block
    raises, a draw from the default range of the adapter. *)
Theorem extract_views_returns_nonnegative_int :
  forall (s : Site) (article_soup : option Soup) (article_url : string) (w : World),
  exists (v : Z) (w' : World),
    site_extract_views s article_soup article_url w = (Ok v, w')
    /\ 0 <= v
    /\ match site_extract_views_try s article_soup article_url w with
       | (Ok v0, _) => v = v0
       | (Raise _, _) =>
           fst (site_default_range s) <= v <= snd (site_default_range s)
       end.
Proof.
  intros s soup url w.
  pose proof (extract_views_result s soup url w) as H.
  pose proof (extract_views_try_result s soup url w) as Ht.
  destruct (site_extract_views_try s soup url w) as [[v|e] w'].
  - exists v, w'. split; [exact H|]. split; [apply Ht|reflexivity].
  - destruct H as (v & Hv & Hb). eexists. eexists. split; [exact Hv|].
    split; [now apply (default_range_nonneg s)|exact Hb].
Qed.

(** The [try] block does raise on some input: the handler is not dead.  It
    is reached without a page, by a counter of more digits than [int]
    converts, and by a Times of India id that ends in a digit that is not
    decimal. *)
Example extract_views_handler_reached :
  fst (TimesOfIndiaScraper.extract_views_try None toi_url world0)
    = Raise (AttributeError "'NoneType' object has no attribute 'find'")
  /\ fst (TimesOfIndiaScraper.extract_views None toi_url world0) = Ok 100000
  /\ fst (TimesOfIndiaScraper.extract_views_try (Some page_no_counter)
            "https://timesofindia.indiatimes.com/india/articleshow/12².cms" world0)
     = Raise (ValueError "invalid literal for int() with base 10: '12²'").
Proof. repeat split; reflexivity. Qed.

(** C3, amended.  For every adapter, when the element that the counter
    lookup selects (the first match of the first locator that matches
    anything) has a decimal digit in the text that the estimator searches
    (the trimmed text; for Times of India, that text in lower case with every
    k replaced by 000 and every m by 000000), and [int] accepts the first run
    of digits of that text, [extract_views] returns the value of that run,
    whatever the URL is, and leaves the random generator and the log as they
    were: the estimate from the URL and the default draw are not
    consulted. *)
Theorem tier1_wins_for_located_element :
  forall (s : Site) (soup : Soup) (url : string) (w : World) (e : Node)
         (g : list string) (n : Z),
    site_views_elem s soup = Some e ->
    Py.search_digits (runtime w) (Py.chars (site_views_text (runtime w) s e)) = Some g ->
    Py.int (runtime w) g = Ok n ->
    site_extract_views s (Some soup) url w = (Ok n, w).
Proof.
  intros s soup url w e g n He Hg Hn. exact (tier1_text s soup url w e g n He Hg Hn).
Qed.

Lemma tier1_wins_for_located_element_witness :
  site_extract_views TOI (Some page_count_12k) toi_url world0 = (Ok 12000, world0).
Proof.
  exact (tier1_wins_for_located_element TOI page_count_12k toi_url world0
           (elem "div" "view-count" " 12K views ") (Py.chars "12000") 12000
           eq_refl eq_refl eq_refl).
Defined.

(** The same on texts that the wording of the claim does not suggest: a
    label without any digit wins the first tier with 0 on Times of India,
    because its m becomes six zeros; and digits outside ASCII count. *)
Example tier1_examples :
  site_extract_views TOI (Some page_label_markets) toi_url world0 = (Ok 0, world0)
  /\ site_extract_views HT (Some page_count_devanagari) ht_url world0 = (Ok 123, world0).
Proof. split; reflexivity. Qed.

(** C3 as worded fails: on a Times of India page whose [_1_Akb] block holds a
    label and whose [view-count] block holds "1234 views", the lookup selects
    the label, finds no digits and falls through to the estimate from the
    article id (3456 * 100 + a draw). *)
Lemma tier1_wins_for_any_counter_element_fails :
  ~ tier1_wins_for_any_counter_element.
Proof.
  intros H.
  specialize (H TOI page_label_then_count toi_url world0
                (elem "div" "view-count" "1234 views") (Py.chars "1234") 1234).
  assert (Hr : fst (site_extract_views TOI (Some page_label_then_count) toi_url world0)
               = Ok 395600) by reflexivity.
  rewrite H in Hr; [discriminate Hr| | |reflexivity|reflexivity].
  - simpl. right. right. right. left. reflexivity.
  - right. left. reflexivity.
Qed.

(** ** parse_article *)

Lemma article_dict_lookup i u t c d cat src v at_ :
  let a := article_dict i u t c d cat src v at_ in
  a !! "id" = Some (VStr i) /\ a !! "url" = Some (VStr u)
  /\ a !! "title" = Some (VStr t) /\ a !! "content" = Some (VStr c)
  /\ a !! "published_date" = Some (VStr d) /\ a !! "category" = Some (VStr cat)
  /\ a !! "source" = Some (VStr src) /\ a !! "views" = Some (VInt v)
  /\ a !! "crawled_at" = Some (VStr at_).
Proof. unfold article_dict. cbv zeta. repeat split; by simplify_map_eq. Qed.

Lemma article_dict_field f i u t c d cat src v at_ :
  article_dict i u t c d cat src v at_ !! field_key f =
    Some (VStr match f with Title => t | Content => c | Date => d end).
Proof.
  pose proof (article_dict_lookup i u t c d cat src v at_) as H. cbv zeta in H.
  destruct f; simpl; tauto.
Qed.

Lemma article_dict_nonempty i u t c d cat src v at_ :
  article_dict i u t c d cat src v at_ <> ∅.
Proof.
  intros H. pose proof (article_dict_lookup i u t c d cat src v at_) as (Hid & _).
  cbv zeta in Hid. rewrite H in Hid. by rewrite lookup_empty in Hid.
Qed.

Lemma article_dict_truthy i u t c d cat src v at_ :
  article_truthy (Some (article_dict i u t c d cat src v at_)) = true.
Proof.
  simpl. apply negb_true_iff, bool_decide_eq_false. apply article_dict_nonempty.
Qed.

(** With the page fetched, [parse_article] emits a record; the views are
    what [extract_views] returns on the page, and the clock is read once,
    after that. *)
Lemma parse_article_some s url w soup w1 :
  get_soup url w = (Ok (Some soup), w1) ->
  exists v w2,
    site_extract_views s (Some soup) url w1 = (Ok v, w2) /\ 0 <= v
    /\ site_parse_article s url w =
         (Ok (Some (article_dict (site_article_id s url) url
                      (site_field s Title soup) (site_field s Content soup)
                      (site_field s Date soup) (url_category url) (site_name s)
                      v (now w2))), set_clock_pos (S (clock_pos w2)) w2).
Proof.
  intros Hs.
  destruct (extract_views_total_some s soup url w1) as (v & w2 & Hv & Hpos).
  exists v, w2. split; [exact Hv|]. split; [exact Hpos|].
  destruct s; simpl in *.
  - unfold TimesOfIndiaScraper.parse_article.
    erewrite bind_ok by exact Hs. apply try_except_ok.
    erewrite bind_ok by exact Hv. reflexivity.
  - unfold HindustanTimesScraper.parse_article.
    erewrite bind_ok by exact Hs. apply try_except_ok.
    erewrite bind_ok by exact Hv. reflexivity.
  - unfold EconomicTimesScraper.parse_article.
    erewrite bind_ok by exact Hs. apply try_except_ok.
    erewrite bind_ok by exact Hv. reflexivity.
Qed.

Lemma parse_article_none s url w w1 :
  get_soup url w = (Ok None, w1) -> site_parse_article s url w = (Ok None, w1).
Proof.
  intros Hs. destruct s; simpl;
    [unfold TimesOfIndiaScraper.parse_article
    |unfold HindustanTimesScraper.parse_article
    |unfold EconomicTimesScraper.parse_article];
    erewrite bind_ok by exact Hs; reflexivity.
Qed.

Lemma get_soup_cases url w :
  (exists soup, get_soup url w = (Ok (Some soup), w))
  \/ (exists w1, get_soup url w = (Ok None, w1)
                 /\ info_messages (log w1) = info_messages (log w)).
Proof.
  unfold get_soup, get_page, bind.
  destruct (http w url) as [msg|html parsed].
  - right. eexists. split; [reflexivity|].
    simpl. rewrite info_messages_app. simpl. apply app_nil_r.
  - destruct (Py.truthy html); [left|right]; eexists; [reflexivity|].
    split; reflexivity.
Qed.

Lemma get_soup_some_world url w soup w1 :
  get_soup url w = (Ok (Some soup), w1) -> w1 = w.
Proof.
  unfold get_soup, get_page, bind.
  destruct (http w url) as [msg|html parsed]; [discriminate|].
  destruct (Py.truthy html); [|discriminate]. now intros [= _ <-].
Qed.

(** A page that is fetched was asked for under a URL that the network does
    not answer with an error. *)
Lemma get_soup_some_http url w soup w1 msg :
  get_soup url w = (Ok (Some soup), w1) -> http w url <> RequestException msg.
Proof.
  unfold get_soup, get_page, bind. intros H E. rewrite E in H. discriminate H.
Qed.

Lemma first_nonblank_nonempty cands v : first_nonblank cands v -> v <> "".
Proof. induction 1; auto. Qed.

Lemma site_field_first s f soup v :
  first_nonblank (chain s f soup) v -> site_field s f soup = v.
Proof.
  intros H.
  assert (Hloop : candidates_loop true (chain s f soup)
                    match f with Title => NO_TITLE | _ => "" end = v)
    by now apply candidates_loop_first.
  destruct s.
  1, 2: destruct f; unfold site_field; try exact Hloop;
        rewrite candidates_loop_no_meta by apply content_chain_no_meta; exact Hloop.
  assert (Hm : Forall not_meta (chain ET f soup)) by apply et_chain_no_meta.
  destruct f; unfold site_field; unfold chain in H, Hloop, Hm;
    (rewrite text_or_candidates_loop; [exact Hloop|now inversion Hm|]);
    intros c Hc; rewrite Hc in H; inversion H; subst; try assumption;
    match goal with H' : first_nonblank [] _ |- _ => inversion H' end.
Qed.

(** C1.  In every adapter and for each of the three text fields, when [v]
    is the value of the first candidate of the field's chain that is found
    on the page and is not blank (the [content] attribute for a [meta] tag,
    the trimmed text otherwise), the record that [parse_article] emits for
    the page carries [v] in that field: candidates that are missing or blank
    are passed over, and [v] is not empty. *)
Theorem chain_takes_first_nonblank :
  forall (s : Site) (f : Field) (url : string) (w w1 : World) (soup : Soup) (v : string),
    get_soup url w = (Ok (Some soup), w1) ->
    first_nonblank (chain s f soup) v ->
    exists (a : Article) (w' : World),
      site_parse_article s url w = (Ok (Some a), w')
      /\ a !! field_key f = Some (VStr v)
      /\ v <> "".
Proof.
  intros s f url w w1 soup v Hs Hv.
  destruct (parse_article_some s url w soup w1 Hs) as (n & w2 & _ & _ & Hp).
  eexists. eexists. split; [exact Hp|]. split.
  - rewrite article_dict_field. f_equal. f_equal.
    destruct f; now apply site_field_first.
  - eapply first_nonblank_nonempty, Hv.
Qed.

Lemma chain_takes_first_nonblank_witness :
  exists (a : Article) (w' : World),
    site_parse_article TOI toi_url (with_http (serve toi_url page_blank_then_meta) world0)
      = (Ok (Some a), w')
    /\ a !! "title" = Some (VStr "Monsoon hits Kerala")
    /\ "Monsoon hits Kerala" <> "".
Proof.
  apply (chain_takes_first_nonblank TOI Title toi_url
           (with_http (serve toi_url page_blank_then_meta) world0)
           (with_http (serve toi_url page_blank_then_meta) world0)
           page_blank_then_meta "Monsoon hits Kerala").
  - reflexivity.
  - change (first_nonblank
              [ Some (elem "h1" "_23498" "   "); None; None;
                Some (elem "h1" "_23498" "   ");
                Some (meta_tag "og:title" " Monsoon hits Kerala ") ]
              (field_value (meta_tag "og:title" " Monsoon hits Kerala "))).
    apply first_after_blank; [reflexivity|].
    apply first_after_missing. apply first_after_missing.
    apply first_after_blank; [reflexivity|].
    apply first_here. vm_compute. discriminate.
Defined.

(** Blank is what [str.strip] leaves empty: a headline element that holds
    nothing but no-break spaces is passed over as well, and the title is
    taken from the [og:title] tag. *)
Example nbsp_title_is_blank :
  field_value (Tag "h1" [] ∅ [ NavigableString (NBSP ++ NBSP) ]) = ""
  /\ match fst (site_parse_article TOI toi_url
                  (with_http (serve toi_url page_nbsp_then_meta) world0)) with
     | Ok (Some a) => a !! "title" = Some (VStr "Monsoon hits Kerala")
     | _ => False
     end.
Proof. split; vm_compute; reflexivity. Qed.

(** When nothing in a chain succeeds, the field keeps the value it had
    before the loop only if no candidate was found; as soon as one candidate
    is there (and blank), the field is the empty string. *)
Lemma site_field_none s f soup :
  none_succeeds (chain s f soup) ->
  site_field s f soup =
    if forallb (fun o => match o with Some _ => false | None => true end) (chain s f soup)
    then match f with Title => NO_TITLE | _ => "" end
    else "".
Proof.
  intros H.
  pose proof (candidates_loop_none _ match f with Title => NO_TITLE | _ => "" end H) as Hl.
  destruct s.
  1, 2: destruct f; unfold site_field; try exact Hl;
        rewrite candidates_loop_no_meta by apply content_chain_no_meta; exact Hl.
  assert (Hm : Forall not_meta (chain ET f soup)) by apply et_chain_no_meta.
  destruct f; unfold site_field; unfold chain in H, Hl, Hm |- *;
    inversion H as [|o l Ho _]; subst; inversion Hm as [|o' l' Hn _]; subst;
    (destruct (BS.find _ _ _ soup) as [c|]; [|reflexivity]);
    simpl in *; unfold field_value in Ho; apply String.eqb_neq in Hn;
    rewrite Hn in Ho; exact Ho.
Qed.

(** C2, on the code.  For each adapter, on a page whose only title element
    is blank, no rule of the title chain succeeds, and the record carries the
    empty string as its title, not the sentinel; content and date, which
    start from the empty string, are empty as the claim says. *)
Theorem blank_title_element_gives_empty_title :
  forall s : Site,
    none_succeeds (chain s Title (page_blank_title s))
    /\ match fst (site_parse_article s (site_example_url s)
                    (with_http (serve (site_example_url s) (page_blank_title s)) world0)) with
       | Ok (Some a) =>
           a !! "title" = Some (VStr "") /\ VStr "" <> VStr NO_TITLE
           /\ a !! "content" = Some (VStr "") /\ a !! "published_date" = Some (VStr "")
       | _ => False
       end.
Proof.
  intros s. split.
  - destruct s; repeat constructor.
  - destruct s; vm_compute; repeat split; discriminate.
Qed.

(** ** Saving records *)

Lemma fs_refuses_eq w w' paths e : fs w' = fs w -> fs_refuses w' paths e -> fs_refuses w paths e.
Proof. unfold fs_refuses. now intros ->. Qed.

Lemma fs_refuses_incl w paths paths' e :
  incl paths paths' -> fs_refuses w paths e -> fs_refuses w paths' e.
Proof. intros Hi (written & path & Hin & H). exists written, path. auto. Qed.

(** The loop of [_save_raw_data] writes each record to the file named after
    its id, in order, until the file system refuses one. *)
Lemma save_loop_cases dir (articles : list Article) w :
  Forall has_string_id articles ->
  match IndiaNewsCrawler.save_loop dir articles w with
  | (Ok _, w') =>
      writes w' = (writes w ++ record_files dir articles)%list
      /\ http w' = http w /\ fs w' = fs w
  | (Raise e, _) => fs_refuses w (List.map (record_file dir) articles) e
  end.
Proof.
  intros Hall. revert w. induction Hall as [|a l [Hne (i & Hi)] _ IH]; intros w.
  - simpl. rewrite app_nil_r. auto.
  - cbn [IndiaNewsCrawler.save_loop]. rewrite bool_decide_eq_false_2 by exact Hne.
    unfold bind at 1. unfold time_time at 1. rewrite Hi. cbn [value_str].
    unfold bind at 1. unfold write_json at 1. cbn [fs writes set_clock_pos].
    assert (Hfile : record_file dir a = path_join dir (i ++ ".json"))
      by (unfold record_file; now rewrite Hi).
    destruct (write_error (fs w (writes w)) (path_join dir (i ++ ".json"))) as [e|] eqn:E.
    + exists (writes w), (record_file dir a). split; [now left|].
      right. now rewrite Hfile.
    + match goal with
      | |- context [IndiaNewsCrawler.save_loop dir l ?w0] =>
          specialize (IH w0); destruct (IndiaNewsCrawler.save_loop dir l w0) as [[[]|e] w']
      end.
      * destruct IH as (Hw & Hh & Hf). cbn [writes set_writes http fs set_clock_pos] in *.
        split; [|auto]. rewrite Hw, <- app_assoc. unfold record_files. cbn [List.map app].
        now rewrite Hfile.
      * apply (fs_refuses_incl w (List.map (record_file dir) l)).
        -- intros x Hx. now right.
        -- eapply fs_refuses_eq; [|exact IH]. reflexivity.
Qed.

Lemma save_raw_data_cases self website (articles : list Article) w :
  Forall has_string_id articles ->
  match IndiaNewsCrawler._save_raw_data self website None articles w with
  | (Ok _, w') =>
      writes w' = (writes w ++ record_files (category_dir_of self website None) articles)%list
      /\ http w' = http w /\ fs w' = fs w
  | (Raise e, _) =>
      fs_refuses w
        (path_join (raw_dir self) website :: category_dir_of self website None
         :: List.map (record_file (category_dir_of self website None)) articles) e
  end.
Proof.
  intros Hall. unfold IndiaNewsCrawler._save_raw_data.
  unfold bind at 1. unfold os_makedirs at 1.
  destruct (makedirs_error (fs w (writes w)) (path_join (raw_dir self) website)) as [e|] eqn:E1.
  { exists (writes w), (path_join (raw_dir self) website). split; [now left|now left]. }
  unfold bind at 1. unfold os_makedirs at 1.
  fold (category_dir_of self website None).
  destruct (makedirs_error (fs w (writes w)) (category_dir_of self website None))
    as [e|] eqn:E2.
  { exists (writes w), (category_dir_of self website None).
    split; [right; now left|now left]. }
  pose proof (save_loop_cases (category_dir_of self website None) articles w Hall) as H.
  destruct (IndiaNewsCrawler.save_loop _ articles w) as [[[]|e] w']; [exact H|].
  eapply fs_refuses_incl; [|exact H]. intros x Hx. right. now right.
Qed.

(** ** The id and the url of a record *)

(** C6, amended.  Whenever the page of an article is fetched, the adapter
    emits a record, and the record has both keys: [url] is the URL that was
    asked for, which is not empty (the network refuses the empty URL), and
    [id] is what the adapter cuts out of the URL by position, empty or not.
    [_save_raw_data] then writes this record to the file named after that id
    in the directory of the site, unless the file system refuses the
    directory or the file. *)
Theorem emitted_record_has_id_and_url_keys :
  forall (s : Site) (url : string) (w w1 : World) (soup : Soup),
    rejects_empty_url w ->
    get_soup url w = (Ok (Some soup), w1) ->
    exists (a : Article) (w' : World),
      site_parse_article s url w = (Ok (Some a), w')
      /\ a !! "id" = Some (VStr (site_article_id s url))
      /\ a !! "url" = Some (VStr url)
      /\ url <> ""
      /\ forall (self : Crawler) (website : string),
           let dir := category_dir_of self website None in
           let file := path_join dir (site_article_id s url ++ ".json") in
           match IndiaNewsCrawler._save_raw_data self website None [a] w' with
           | (Ok _, w2) => writes w2 = (writes w' ++ [(file, a)])%list
           | (Raise e, _) =>
               fs_refuses w' [path_join (raw_dir self) website; dir; file] e
           end.
Proof.
  intros s url w w1 soup (msg & Hmsg) Hs.
  destruct (parse_article_some s url w soup w1 Hs) as (n & w2 & _ & _ & Hp).
  eexists. eexists. split; [exact Hp|].
  pose proof (article_dict_lookup (site_article_id s url) url
                (site_field s Title soup) (site_field s Content soup)
                (site_field s Date soup) (url_category url) (site_name s) n (now w2))
    as (Hid & Hurl & _).
  cbv zeta in Hid, Hurl. split; [exact Hid|]. split; [exact Hurl|].
  split; [intros ->; exact (get_soup_some_http "" w soup w1 msg Hs Hmsg)|].
  intros self website dir file.
  match goal with
  | |- context [IndiaNewsCrawler._save_raw_data self website None [?a] ?w0] =>
      pose proof (save_raw_data_cases self website [a] w0) as H;
      assert (Hfile : record_file dir a = file)
        by (unfold record_file; rewrite Hid; reflexivity)
  end.
  destruct (IndiaNewsCrawler._save_raw_data self website None _ _) as [[[]|e] w3].
  - destruct H as (Hw & _).
    + constructor; [|constructor]. split; [apply article_dict_nonempty|eauto].
    + rewrite Hw. unfold record_files. cbn [List.map]. fold dir. now rewrite Hfile.
  - cbn [List.map] in H. fold dir in H. rewrite Hfile in H. apply H.
    constructor; [|constructor]. split; [apply article_dict_nonempty|eauto].
Qed.

Lemma emitted_record_has_id_and_url_keys_witness :
  exists (a : Article) (w' : World),
    site_parse_article TOI toi_slash_url world_slash = (Ok (Some a), w')
    /\ a !! "id" = Some (VStr "")
    /\ a !! "url" = Some (VStr toi_slash_url)
    /\ toi_slash_url <> ""
    /\ forall (self : Crawler) (website : string),
         let dir := category_dir_of self website None in
         let file := path_join dir ("" ++ ".json") in
         match IndiaNewsCrawler._save_raw_data self website None [a] w' with
         | (Ok _, w2) => writes w2 = (writes w' ++ [(file, a)])%list
         | (Raise e, _) =>
             fs_refuses w' [path_join (raw_dir self) website; dir; file] e
         end.
Proof.
  exact (emitted_record_has_id_and_url_keys TOI toi_slash_url world_slash world_slash
           toi_story (ex_intro _ "404 Client Error" eq_refl) eq_refl).
Defined.

(** C6 as worded fails: the Times of India adapter takes the id from the
    last segment of the path, which is empty for a URL that ends in a slash;
    the record is emitted all the same, with the empty id. *)
Lemma every_record_has_nonempty_id_and_url_fails :
  ~ every_record_has_nonempty_id_and_url.
Proof.
  intros H.
  destruct (parse_article_some TOI toi_slash_url world_slash toi_story world_slash eq_refl)
    as (n & w2 & _ & _ & Hp).
  destruct (H TOI toi_slash_url world_slash _ _ Hp) as (i & u & Hi & Hne & _).
  rewrite (proj1 (article_dict_lookup _ _ _ _ _ _ _ _ _)) in Hi.
  injection Hi as <-. apply Hne. reflexivity.
Qed.

(** The same record, end to end: the crawl of the site finds the link, parses
    the page and, on a file system that takes the write, writes the record
    to a file whose name is just [.json]. *)
Example empty_id_is_persisted :
  let crawler := IndiaNewsCrawler.new urljoin_abs_path "/srv/app" in
  match IndiaNewsCrawler.crawl_specific_website crawler "times_of_india" 5 world_slash with
  | (Ok [a], w') =>
      a !! "id" = Some (VStr "")
      /\ a !! "title" = Some (VStr "Monsoon hits Kerala")
      /\ a !! "views" = Some (VInt 777)
      /\ writes w' = [("/srv/app/data/raw/times_of_india/times_of_india/.json", a)]
  | _ => False
  end.
Proof. vm_compute. repeat split. Qed.

(** An id is cut out by position and may hold a slash: the name of the file
    of such a record names a directory that [_save_raw_data] has not made. *)
Example id_with_a_slash :
  site_article_id HT "https://www.hindustantimes.com/story-1/abc.html" = "1/abc".
Proof. reflexivity. Qed.

(** ** Unit suffixes *)

(** C5, on the code.  The Times of India estimator handles the K and M
    suffixes by replacing the letter with zeros in the text.  For a whole
    number directly before the letter this multiplies ("12K views" gives
    12,000); for a count with a decimal point it does not: "1.5k views"
    becomes "1.5000 views", the first run of digits is "1", and the result is
    1, where the number times 1,000 is 1,500.  This holds for every URL and
    in every world. *)
Theorem unit_suffix_truncates_decimal_count :
  forall (url : string) (w : World),
    TimesOfIndiaScraper.normalize_units (runtime w) "1.5k views" = "1.5000 views"
    /\ TimesOfIndiaScraper.extract_views (Some page_count_decimal) url w = (Ok 1, w)
    /\ 1 <> 1500
    /\ TimesOfIndiaScraper.extract_views (Some page_count_12k) url w = (Ok 12000, w).
Proof.
  intros url w. split; [reflexivity|]. split; [|split; [lia|]].
  - exact (tier1_text TOI page_count_decimal url w
             (elem "div" "view-count" "1.5k views") ["1"] 1 eq_refl eq_refl eq_refl).
  - exact (tier1_text TOI page_count_12k url w
             (elem "div" "view-count" " 12K views ") (Py.chars "12000") 12000
             eq_refl eq_refl eq_refl).
Qed.

(** ** Ranking by views *)

Lemma views_key_int a :
  int_views a -> IndiaNewsCrawler.views_key a = VInt (views_of a).
Proof.
  unfold int_views, IndiaNewsCrawler.views_key, views_of.
  destruct (a !! "views") as [[s|n]|]; [intros []|reflexivity|reflexivity].
Qed.

Lemma insert_desc_spec x l :
  int_views x -> Forall int_views l ->
  exists r,
    insert_desc IndiaNewsCrawler.views_key x l = Ok r
    /\ Permutation r (x :: l)
    /\ (forall k, List.filter (has_views k) r = List.filter (has_views k) (x :: l))
    /\ (StronglySorted desc l -> StronglySorted desc r).
Proof.
  intros Hx Hl. induction Hl as [|y l Hy Hl IH].
  - exists [x]. repeat split; auto. intros _. repeat constructor.
  - cbn [insert_desc]. rewrite (views_key_int x Hx), (views_key_int y Hy).
    cbn [value_lt]. destruct (views_of x <? views_of y) eqn:E.
    + destruct IH as (r & -> & Hp & Hf & Hs). exists (y :: r).
      apply Z.ltb_lt in E. split; [reflexivity|]. split; [|split].
      * rewrite Hp. apply perm_swap.
      * intros k. cbn [List.filter]. rewrite Hf. cbn [List.filter].
        unfold has_views.
        destruct (views_of y =? k) eqn:Ey, (views_of x =? k) eqn:Ex; try reflexivity.
        apply Z.eqb_eq in Ey, Ex. lia.
      * intros Hsort. inversion Hsort as [|? ? Hs' Hall]; subst.
        constructor; [now apply Hs|].
        eapply Permutation_Forall; [symmetry; exact Hp|].
        constructor; [unfold desc; lia|exact Hall].
    + exists (x :: y :: l). apply Z.ltb_ge in E. repeat split; auto.
      intros Hsort. constructor; [exact Hsort|].
      inversion Hsort as [|? ? _ Hall]; subst.
      constructor; [exact E|].
      eapply Forall_impl; [exact Hall|]. unfold desc. intros b Hb. simpl in Hb. lia.
Qed.

Lemma insert_desc_int x l r :
  int_views x -> Forall int_views l ->
  insert_desc IndiaNewsCrawler.views_key x l = Ok r -> Forall int_views r.
Proof.
  intros Hx Hl Hr.
  destruct (insert_desc_spec x l Hx Hl) as (r' & Hr' & Hp & _).
  rewrite Hr in Hr'. injection Hr' as <-.
  eapply Permutation_Forall; [symmetry; exact Hp|]. now constructor.
Qed.

(** On records whose views are integers (or missing) the sort raises
    nothing and returns the stable descending arrangement. *)
Lemma sorted_reverse_spec l :
  Forall int_views l ->
  exists r,
    sorted_reverse IndiaNewsCrawler.views_key l = Ok r
    /\ Permutation r l
    /\ (forall k, List.filter (has_views k) r = List.filter (has_views k) l)
    /\ StronglySorted desc r
    /\ Forall int_views r.
Proof.
  intros Hl. induction Hl as [|x l Hx Hl IH].
  - exists []. repeat split; constructor.
  - destruct IH as (s & Hs & Hp & Hf & Hsort & Hint).
    cbn [sorted_reverse]. rewrite Hs.
    destruct (insert_desc_spec x s Hx Hint) as (r & Hr & Hp' & Hf' & Hs').
    exists r. split; [exact Hr|]. split; [|split; [|split]].
    + rewrite Hp'. now constructor.
    + intros k. rewrite Hf'. cbn [List.filter]. now rewrite Hf.
    + now apply Hs'.
    + eapply insert_desc_int; eauto.
Qed.

(** A list that is already ranked is returned as it is. *)
Lemma sorted_reverse_sorted l :
  Forall int_views l -> StronglySorted desc l ->
  sorted_reverse IndiaNewsCrawler.views_key l = Ok l.
Proof.
  intros Hl Hs. induction Hs as [|x l Hs IH Hall]; [reflexivity|].
  inversion Hl as [|? ? Hx Hl']; subst.
  cbn [sorted_reverse]. rewrite (IH Hl').
  destruct l as [|y l]; [reflexivity|].
  inversion Hl' as [|? ? Hy _]; subst. inversion Hall as [|? ? Hxy _]; subst.
  cbn [insert_desc]. rewrite (views_key_int x Hx), (views_key_int y Hy).
  cbn [value_lt]. unfold desc in Hxy.
  destruct (views_of x <? views_of y) eqn:E; [apply Z.ltb_lt in E; lia|reflexivity].
Qed.

Lemma strongly_sorted_firstn {A} (R : A -> A -> Prop) n l :
  StronglySorted R l -> StronglySorted R (List.firstn n l).
Proof.
  intros H. revert n. induction H as [|x l Hs IH Hall]; intros [|n]; simpl;
    try constructor; [apply IH|now apply Forall_take].
Qed.

Lemma slice_to_nonneg {A} (l : list A) n :
  0 <= n -> Py.slice_to l n = List.firstn (Z.to_nat n) l.
Proof. intros H. unfold Py.slice_to. destruct (n <? 0) eqn:E; [lia|reflexivity]. Qed.

Lemma strongly_sorted_lookup {A} (R : A -> A -> Prop) (l : list A) i j a b :
  StronglySorted R l -> l !! i = Some a -> l !! j = Some b -> (i < j)%nat -> R a b.
Proof.
  intros H. revert i j. induction H as [|x l Hs IH Hall]; intros i j Hi Hj Hij.
  - discriminate.
  - destruct j as [|j]; [lia|]. destruct i as [|i].
    + injection Hi as <-. simpl in Hj.
      eapply (proj1 (Forall_forall _ _) Hall). eapply list_elem_of_lookup_2, Hj.
    + simpl in Hi, Hj. eapply IH; eauto. lia.
Qed.

Lemma sort_articles_given self articles w ranked :
  sorted_reverse IndiaNewsCrawler.views_key articles = Ok ranked ->
  IndiaNewsCrawler.sort_articles_by_views self (Some articles) w = (Ok ranked, w).
Proof.
  intros H. unfold IndiaNewsCrawler.sort_articles_by_views, bind, ret, lift.
  now rewrite H.
Qed.

Lemma get_top_given self limit articles w ranked :
  sorted_reverse IndiaNewsCrawler.views_key articles = Ok ranked ->
  IndiaNewsCrawler.get_top_articles self limit (Some articles) w
    = (Ok (Py.slice_to ranked limit), w).
Proof.
  intros H. unfold IndiaNewsCrawler.get_top_articles.
  erewrite bind_ok by (apply sort_articles_given; exact H). reflexivity.
Qed.

(** C7.  On records whose views are integers and for a limit that is not
    negative, [get_top_articles] returns the first [limit] records of the
    ranking computed by [sort_articles_by_views]; the ranking is a
    rearrangement of the input, in descending order of views, in which records
    with the same views keep their order of the input; the world is left as
    it was, and ranking the result again with the same limit returns it
    unchanged.  Records with views 50, 200, 10 come back as 200, 50, 10. *)
Theorem rank_by_views_sorted_stable_truncated :
  (forall (self : Crawler) (limit : Z) (articles : list Article) (w : World),
     Forall int_views articles ->
     0 <= limit ->
     exists ranked out : list Article,
       IndiaNewsCrawler.sort_articles_by_views self (Some articles) w = (Ok ranked, w)
       /\ IndiaNewsCrawler.get_top_articles self limit (Some articles) w = (Ok out, w)
       /\ out = List.firstn (Z.to_nat limit) ranked
       /\ Permutation ranked articles
       /\ StronglySorted desc ranked
       /\ (forall k, List.filter (has_views k) ranked = List.filter (has_views k) articles)
       /\ IndiaNewsCrawler.get_top_articles self limit (Some out) w = (Ok out, w))
  /\ (forall (self : Crawler) (w : World),
        IndiaNewsCrawler.get_top_articles self 10
          (Some [record "a" (Some 50); record "b" (Some 200); record "c" (Some 10)]) w
        = (Ok [record "b" (Some 200); record "a" (Some 50); record "c" (Some 10)], w)).
Proof.
  split.
  - intros self limit articles w Hint Hlim.
    destruct (sorted_reverse_spec articles Hint) as (ranked & Hr & Hp & Hf & Hs & Hi).
    exists ranked, (List.firstn (Z.to_nat limit) ranked).
    split; [now apply sort_articles_given|].
    split; [rewrite (get_top_given _ _ _ _ _ Hr); now rewrite slice_to_nonneg|].
    split; [reflexivity|]. split; [exact Hp|]. split; [exact Hs|]. split; [exact Hf|].
    rewrite (get_top_given self limit _ w (List.firstn (Z.to_nat limit) ranked)).
    + rewrite slice_to_nonneg by exact Hlim. now rewrite take_take, Nat.min_id.
    + apply sorted_reverse_sorted; [now apply Forall_take|now apply strongly_sorted_firstn].
  - intros self w.
    rewrite (get_top_given self 10 _ w
               [record "b" (Some 200); record "a" (Some 50); record "c" (Some 10)])
      by reflexivity.
    reflexivity.
Qed.

Lemma rank_by_views_sorted_stable_truncated_witness :
  exists ranked out : list Article,
    IndiaNewsCrawler.sort_articles_by_views crawler0
      (Some [record "a" (Some 7); record "b" None; record "c" (Some 7)]) world0
      = (Ok ranked, world0)
    /\ IndiaNewsCrawler.get_top_articles crawler0 2
         (Some [record "a" (Some 7); record "b" None; record "c" (Some 7)]) world0
       = (Ok out, world0)
    /\ out = List.firstn (Z.to_nat 2) ranked
    /\ Permutation ranked [record "a" (Some 7); record "b" None; record "c" (Some 7)]
    /\ StronglySorted desc ranked
    /\ (forall k, List.filter (has_views k) ranked
                  = List.filter (has_views k)
                      [record "a" (Some 7); record "b" None; record "c" (Some 7)])
    /\ IndiaNewsCrawler.get_top_articles crawler0 2 (Some out) world0 = (Ok out, world0).
Proof.
  apply (proj1 rank_by_views_sorted_stable_truncated crawler0 2
           [record "a" (Some 7); record "b" None; record "c" (Some 7)] world0).
  - repeat constructor.
  - lia.
Defined.

(** C10.  On records whose views are integers or missing,
    [sort_articles_by_views] raises nothing: a record without the key is
    ranked with the key 0, the result is the input rearranged in descending
    order of these keys, and so every record without views stands after every
    record with positive views. *)
Theorem sort_ranks_missing_views_as_zero :
  forall (self : Crawler) (articles : list Article) (w : World),
    Forall int_views articles ->
    exists ranked : list Article,
      IndiaNewsCrawler.sort_articles_by_views self (Some articles) w = (Ok ranked, w)
      /\ Permutation ranked articles
      /\ StronglySorted desc ranked
      /\ (forall a, a !! "views" = None -> IndiaNewsCrawler.views_key a = VInt 0)
      /\ (forall (i j : nat) (a b : Article) (n : Z),
            ranked !! i = Some a -> ranked !! j = Some b ->
            a !! "views" = None -> b !! "views" = Some (VInt n) -> 0 < n ->
            (j < i)%nat).
Proof.
  intros self articles w Hint.
  destruct (sorted_reverse_spec articles Hint) as (ranked & Hr & Hp & _ & Hs & _).
  exists ranked. split; [now apply sort_articles_given|].
  split; [exact Hp|]. split; [exact Hs|]. split.
  - intros a Ha. unfold IndiaNewsCrawler.views_key. now rewrite Ha.
  - intros i j a b n Hi Hj Ha Hb Hn.
    destruct (Nat.lt_trichotomy j i) as [Hlt|[Heq|Hgt]]; [exact Hlt| |].
    + subst j. rewrite Hi in Hj. injection Hj as <-. congruence.
    + pose proof (strongly_sorted_lookup desc ranked i j a b Hs Hi Hj Hgt) as Hd.
      unfold desc, views_of in Hd. rewrite Ha, Hb in Hd. lia.
Qed.

Lemma sort_ranks_missing_views_as_zero_witness :
  exists ranked : list Article,
    IndiaNewsCrawler.sort_articles_by_views crawler0
      (Some [record "a" None; record "b" (Some 3); record "c" None]) world0
      = (Ok ranked, world0)
    /\ Permutation ranked [record "a" None; record "b" (Some 3); record "c" None]
    /\ StronglySorted desc ranked
    /\ (forall a, a !! "views" = None -> IndiaNewsCrawler.views_key a = VInt 0)
    /\ (forall (i j : nat) (a b : Article) (n : Z),
          ranked !! i = Some a -> ranked !! j = Some b ->
          a !! "views" = None -> b !! "views" = Some (VInt n) -> 0 < n ->
          (j < i)%nat).
Proof.
  apply (sort_ranks_missing_views_as_zero crawler0
           [record "a" None; record "b" (Some 3); record "c" None] world0).
  repeat constructor.
Defined.

(** A string among the views does make the sort raise. *)
Example sort_raises_on_mixed_views :
  match fst (IndiaNewsCrawler.sort_articles_by_views crawler0
               (Some [record "a" (Some 3); <["views" := VStr "many"]> (record "b" None)])
               world0) with
  | Raise (TypeError _) => True
  | _ => False
  end.
Proof. exact I. Qed.

Example sort_missing_views_example :
  fst (IndiaNewsCrawler.sort_articles_by_views crawler0
         (Some [record "a" None; record "b" (Some 3); record "c" None]) world0)
  = Ok [record "b" (Some 3); record "a" None; record "c" None].
Proof. reflexivity. Qed.

(** ** crawl_articles *)

Lemma get_soup_none_world url w w1 :
  get_soup url w = (Ok None, w1) ->
  rng_pos w1 = rng_pos w /\ info_messages (log w1) = info_messages (log w)
  /\ http w1 = http w /\ clock w1 = clock w /\ clock_pos w1 = clock_pos w
  /\ runtime w1 = runtime w /\ sleep_error w1 = sleep_error w /\ fs w1 = fs w
  /\ writes w1 = writes w.
Proof.
  unfold get_soup, get_page, bind.
  destruct (http w url) as [msg|html parsed].
  - intros [= <-]. simpl. rewrite info_messages_app. simpl. rewrite app_nil_r. auto 10.
  - destruct (Py.truthy html); [discriminate|]. intros [= <-]. auto 10.
Qed.

Lemma parse_article_total s url w :
  exists r w', site_parse_article s url w = (Ok r, w').
Proof.
  destruct (get_soup_cases url w) as [(soup & Hs)|(w1 & Hs & _)].
  - destruct (parse_article_some s url w soup w Hs) as (v & w2 & _ & _ & Hp). eauto.
  - exists None, w1. now apply parse_article_none.
Qed.

(** One parse: the log gains nothing at level INFO; the network, the clock's
    readings, the interpreter and the files are left alone; a failed parse
    draws nothing, and a record, which is never the empty [dict] and has an
    id that is a string, costs at most one draw. *)
Lemma parse_article_effects s url w r w' :
  site_parse_article s url w = (Ok r, w') ->
  info_messages (log w') = info_messages (log w)
  /\ http w' = http w /\ clock w' = clock w /\ runtime w' = runtime w
  /\ sleep_error w' = sleep_error w /\ fs w' = fs w /\ writes w' = writes w
  /\ match r with
     | None => rng_pos w' = rng_pos w
     | Some d =>
         d <> ∅ /\ d !! "id" = Some (VStr (site_article_id s url))
         /\ (rng_pos w <= rng_pos w' <= S (rng_pos w))%nat
     end.
Proof.
  intros H.
  destruct (get_soup_cases url w) as [(soup & Hs)|(w1 & Hs & _)].
  - destruct (parse_article_some s url w soup w Hs) as (v & w2 & Hv & _ & Hp).
    rewrite Hp in H. injection H as <- <-.
    destruct (extract_views_frame _ _ _ _ _ _ Hv) as (Hr & Hl & Hh & Hc & _ & Hrt & Hsl & Hf & Hw).
    simpl. split; [exact Hl|]. split; [exact Hh|]. split; [exact Hc|].
    split; [exact Hrt|]. split; [exact Hsl|]. split; [exact Hf|]. split; [exact Hw|].
    split; [apply article_dict_nonempty|].
    split; [apply (article_dict_lookup (site_article_id s url))|lia].
  - rewrite (parse_article_none s url w w1 Hs) in H. injection H as <- <-.
    destruct (get_soup_none_world _ _ _ Hs) as (H1 & H2 & H3 & H4 & _ & H6 & H7 & H8 & H9).
    auto 10.
Qed.

Lemma site_scraper_parse s urljoin : parse_article (site_scraper s urljoin) = site_parse_article s.
Proof. now destruct s. Qed.

Lemma time_sleep_in_range a b d w :
  delay_in_range (a, b) ->
  time_sleep {| delay_lo := a; delay_hi := b; delay_draw := d |} w = (Ok tt, w).
Proof.
  intros [[H1 H2] [H3 H4]]. simpl in *. unfold time_sleep. simpl.
  rewrite (proj2 (Z.leb_le 0 a) H1), (proj2 (Z.leb_le a SLEEP_MAX) H2),
    (proj2 (Z.leb_le 0 b) H3), (proj2 (Z.leb_le b SLEEP_MAX) H4).
  reflexivity.
Qed.

(** What the loop does before the parse of [url]. *)
Lemma crawl_loop_step self delay_range url rest acc w :
  delay_in_range delay_range ->
  crawl_loop self delay_range (url :: rest) acc w
  = (let* article_data := parse_article self url in
     crawl_loop self delay_range rest
       (match article_data with
        | Some d => if article_truthy article_data then (acc ++ [d])%list else acc
        | None => acc
        end)) (before_parse url w).
Proof.
  intros Hd. destruct delay_range as [a b].
  cbn [crawl_loop]. unfold bind at 1. unfold logger at 1.
  unfold bind at 1. unfold random_uniform at 1. cbn [fst snd].
  unfold bind at 1. rewrite time_sleep_in_range by exact Hd. reflexivity.
Qed.

(** The loop of [crawl_articles] on a site: it attempts each URL in order
    and appends the records. *)
Lemma crawl_loop_attempts s urljoin delay_range urls acc w :
  delay_in_range delay_range ->
  exists articles w2,
    crawl_loop (site_scraper s urljoin) delay_range urls acc w
      = (Ok (acc ++ articles)%list, w2)
    /\ attempts (site_parse_article s) urls w articles w2.
Proof.
  intros Hd. revert acc w. induction urls as [|url urls IH]; intros acc w.
  - exists [], w. rewrite app_nil_r. split; [reflexivity|constructor].
  - rewrite crawl_loop_step by exact Hd. rewrite site_scraper_parse.
    destruct (parse_article_total s url (before_parse url w)) as (r & w1 & Hp).
    erewrite bind_ok by exact Hp.
    destruct r as [d|].
    + destruct (parse_article_effects _ _ _ _ _ Hp) as (_ & _ & _ & _ & _ & _ & _ & Hne & _).
      assert (Ht : article_truthy (Some d) = true)
        by (simpl; apply negb_true_iff; now apply bool_decide_eq_false_2).
      rewrite Ht.
      destruct (IH (acc ++ [d])%list w1) as (articles & w2 & Hc & Ha).
      exists (d :: articles), w2. split.
      * rewrite Hc, <- app_assoc. reflexivity.
      * eapply attempts_record; eassumption.
    + destruct (IH acc w1) as (articles & w2 & Hc & Ha).
      exists articles, w2. split; [exact Hc|].
      eapply attempts_failed; eassumption.
Qed.

(** What a run of attempts on a site does to the world. *)
Lemma attempts_effects s urls w articles w2 :
  attempts (site_parse_article s) urls w articles w2 ->
  info_messages (log w2)
    = (info_messages (log w) ++ List.map attempt_message urls)%list
  /\ (length articles <= length urls)%nat
  /\ (rng_pos w + length urls <= rng_pos w2
      <= rng_pos w + length urls + length articles)%nat
  /\ Forall has_string_id articles
  /\ http w2 = http w /\ clock w2 = clock w /\ runtime w2 = runtime w
  /\ sleep_error w2 = sleep_error w /\ fs w2 = fs w /\ writes w2 = writes w.
Proof.
  induction 1 as [w|url urls w w1 articles w2 Hp _ IH|url urls w a w1 articles w2 Hp _ IH].
  - rewrite app_nil_r. simpl. repeat split; auto; lia.
  - destruct (parse_article_effects _ _ _ _ _ Hp)
      as (Hl & Hh & Hc & Hrt & Hsl & Hf & Hw & Hr).
    destruct IH as (IHl & IHn & IHr & IHa & IHh & IHc & IHrt & IHsl & IHf & IHw).
    simpl in *. rewrite info_messages_app in Hl. simpl in Hl.
    split; [rewrite IHl, Hl, <- app_assoc; reflexivity|].
    split; [lia|]. split; [lia|]. split; [exact IHa|].
    repeat split; congruence.
  - destruct (parse_article_effects _ _ _ _ _ Hp)
      as (Hl & Hh & Hc & Hrt & Hsl & Hf & Hw & Hne & Hid & Hr).
    destruct IH as (IHl & IHn & IHr & IHa & IHh & IHc & IHrt & IHsl & IHf & IHw).
    simpl in *. rewrite info_messages_app in Hl. simpl in Hl.
    split; [rewrite IHl, Hl, <- app_assoc; reflexivity|].
    split; [lia|]. split; [lia|].
    split; [constructor; [split; [exact Hne|eauto]|exact IHa]|].
    repeat split; congruence.
Qed.

Lemma crawl_articles_attempts s urljoin category max_articles delay_range w w1 urls :
  0 <= max_articles ->
  delay_in_range delay_range ->
  get_article_urls (site_scraper s urljoin) category 2%nat w = (Ok urls, w1) ->
  exists articles w2,
    crawl_articles (site_scraper s urljoin) category max_articles delay_range w
      = (Ok articles, w2)
    /\ attempts (site_parse_article s) (List.firstn (Z.to_nat max_articles) urls)
         (after_discovery (site_name s) urls w1) articles w2.
Proof.
  intros Hmax Hd Hurls.
  unfold crawl_articles. erewrite bind_ok by exact Hurls.
  destruct urls as [|u urls].
  - eexists. eexists. split; [reflexivity|].
    rewrite firstn_nil. replace (scraper_name (site_scraper s urljoin)) with (site_name s)
      by now destruct s.
    constructor.
  - rewrite slice_to_nonneg by exact Hmax.
    destruct (crawl_loop_attempts s urljoin delay_range
                (List.firstn (Z.to_nat max_articles) (u :: urls)) [] w1 Hd)
      as (articles & w2 & Hc & Ha).
    exists articles, w2. split; [exact Hc|exact Ha].
Qed.

(** C9.  In a crawl of one of the three sites, with a cap that is not
    negative and a delay between 0 and [SLEEP_MAX] seconds, the links that
    the link discovery returned are cut to the first [max_articles]; each of
    these is attempted, in order, and no other URL is: for each, the attempt
    is logged, a delay is drawn, and [parse_article] is run on it, in the
    world that the attempt before has left; its record, if it returns one, is
    the next of the result, and if it returns none the loop goes on with the
    next URL.  So the attempts number [min (links found) max_articles] and
    the records are at most as many. *)
Theorem crawl_attempts_first_max_links :
  forall (s : Site) (urljoin : string -> string -> string) (category : option string)
         (max_articles : Z) (delay_range : Z * Z) (w w1 : World) (urls : list string),
    0 <= max_articles ->
    delay_in_range delay_range ->
    get_article_urls (site_scraper s urljoin) category 2%nat w = (Ok urls, w1) ->
    exists (articles : list Article) (w2 : World),
      crawl_articles (site_scraper s urljoin) category max_articles delay_range w
        = (Ok articles, w2)
      /\ attempts (site_parse_article s) (List.firstn (Z.to_nat max_articles) urls)
           (after_discovery (site_name s) urls w1) articles w2
      /\ length (List.firstn (Z.to_nat max_articles) urls)
         = Nat.min (length urls) (Z.to_nat max_articles)
      /\ (length articles <= Nat.min (length urls) (Z.to_nat max_articles))%nat
      /\ info_messages (log w2)
         = (info_messages (log w1)
            ++ List.map attempt_message
                 (List.firstn (Z.to_nat max_articles) urls))%list.
Proof.
  intros s urljoin category max_articles delay_range w w1 urls Hmax Hd Hurls.
  destruct (crawl_articles_attempts s urljoin category max_articles delay_range w w1 urls
              Hmax Hd Hurls) as (articles & w2 & Hc & Ha).
  exists articles, w2. split; [exact Hc|]. split; [exact Ha|].
  assert (Hlen : length (List.firstn (Z.to_nat max_articles) urls)
                 = Nat.min (length urls) (Z.to_nat max_articles)).
  { rewrite length_firstn. apply Nat.min_comm. }
  split; [exact Hlen|].
  destruct (attempts_effects _ _ _ _ _ Ha) as (Hl & Hn & _).
  split; [lia|]. rewrite Hl. f_equal.
  destruct urls; [|reflexivity]. simpl. rewrite info_messages_app. simpl. apply app_nil_r.
Qed.

Lemma crawl_attempts_first_max_links_witness :
  exists (articles : list Article) (w2 : World),
    crawl_articles (site_scraper TOI urljoin_abs_path) (Some "india") 2 (1, 3) world_section
      = (Ok articles, w2)
    /\ attempts (site_parse_article TOI)
         (List.firstn (Z.to_nat 2)
            [ "https://timesofindia.indiatimes.com/india/a/articleshow/101.cms";
              "https://timesofindia.indiatimes.com/india/b/articleshow/102.cms";
              "https://timesofindia.indiatimes.com/india/c/articleshow/103.cms" ])
         (after_discovery (site_name TOI)
            [ "https://timesofindia.indiatimes.com/india/a/articleshow/101.cms";
              "https://timesofindia.indiatimes.com/india/b/articleshow/102.cms";
              "https://timesofindia.indiatimes.com/india/c/articleshow/103.cms" ]
            world_section) articles w2
    /\ length (List.firstn (Z.to_nat 2)
                 [ "https://timesofindia.indiatimes.com/india/a/articleshow/101.cms";
                   "https://timesofindia.indiatimes.com/india/b/articleshow/102.cms";
                   "https://timesofindia.indiatimes.com/india/c/articleshow/103.cms" ])
       = Nat.min
           (length [ "https://timesofindia.indiatimes.com/india/a/articleshow/101.cms";
                     "https://timesofindia.indiatimes.com/india/b/articleshow/102.cms";
                     "https://timesofindia.indiatimes.com/india/c/articleshow/103.cms" ])
           (Z.to_nat 2)
    /\ (length articles
        <= Nat.min
             (length [ "https://timesofindia.indiatimes.com/india/a/articleshow/101.cms";
                       "https://timesofindia.indiatimes.com/india/b/articleshow/102.cms";
                       "https://timesofindia.indiatimes.com/india/c/articleshow/103.cms" ])
             (Z.to_nat 2))%nat
    /\ info_messages (log w2)
       = (info_messages (log world_section)
          ++ List.map attempt_message
               (List.firstn (Z.to_nat 2)
                  [ "https://timesofindia.indiatimes.com/india/a/articleshow/101.cms";
                    "https://timesofindia.indiatimes.com/india/b/articleshow/102.cms";
                    "https://timesofindia.indiatimes.com/india/c/articleshow/103.cms" ]))%list.
Proof.
  apply (crawl_attempts_first_max_links TOI urljoin_abs_path (Some "india") 2 (1, 3)
           world_section world_section).
  - lia.
  - unfold delay_in_range, SLEEP_MAX. simpl. lia.
  - reflexivity.
Defined.

(** The same crawl, evaluated: two attempts, the second of which fails, and
    one record. *)
Example crawl_section_example :
  match crawl_articles (site_scraper TOI urljoin_abs_path) (Some "india") 2 (1, 3)
          world_section with
  | (Ok [a], w2) =>
      a !! "id" = Some (VStr "101")
      /\ info_messages (log w2)
         = [ "Crawling article: https://timesofindia.indiatimes.com/india/a/articleshow/101.cms";
             "Crawling article: https://timesofindia.indiatimes.com/india/b/articleshow/102.cms" ]
  | _ => False
  end.
Proof. vm_compute. split; reflexivity. Qed.

(** With a negative delay the crawl stops at the first attempt: [time.sleep]
    raises [ValueError], which nothing catches. *)
Example crawl_with_negative_delay :
  fst (crawl_articles (site_scraper TOI urljoin_abs_path) (Some "india") 2 (-5, -1)
         world_section)
  = Raise (ValueError "sleep length must be non-negative").
Proof. vm_compute. reflexivity. Qed.

(** ** Strings *)

Lemma append_cons x (a b : string) : String x a ++ b = String x (a ++ b).
Proof. reflexivity. Qed.

Lemma append_nil (b : string) : "" ++ b = b.
Proof. reflexivity. Qed.

Lemma string_app_assoc (a b c : string) : (a ++ b) ++ c = a ++ b ++ c.
Proof.
  induction a as [|x a IH]; [reflexivity|]. rewrite !append_cons. now rewrite IH.
Qed.

(** ** Decimal strings *)

Lemma digit_val_range c : is_digit c = true -> 0 <= digit_val c <= 9.
Proof.
  unfold is_digit, digit_val. intros H.
  apply andb_true_iff in H as [H1 H2].
  apply Nat.leb_le in H1. apply Nat.leb_le in H2. lia.
Qed.

Lemma numeral_acc_app acc a b : numeral_acc acc (a ++ b) = numeral_acc (numeral_acc acc a) b.
Proof.
  revert acc. induction a as [|c a IH]; intros acc; [reflexivity|].
  rewrite append_cons. cbn [numeral_acc]. apply IH.
Qed.

Lemma all_digits_app a b :
  all_digits a = true -> all_digits b = true -> all_digits (a ++ b) = true.
Proof.
  intros Ha Hb. induction a as [|c a IH]; [exact Hb|].
  rewrite append_cons. cbn [all_digits] in *.
  apply andb_true_iff in Ha as [Hc Ha]. rewrite Hc. now apply IH.
Qed.

Lemma digit_char_val d : 0 <= d <= 9 ->
  is_digit (Py.digit_char d) = true /\ digit_val (Py.digit_char d) = d.
Proof.
  intros H.
  assert (Hc : d = 0 \/ d = 1 \/ d = 2 \/ d = 3 \/ d = 4 \/ d = 5 \/ d = 6 \/ d = 7
               \/ d = 8 \/ d = 9) by lia.
  repeat (destruct Hc as [->|Hc]; [split; reflexivity|]). subst. split; reflexivity.
Qed.

Lemma length_append_one d c : String.length (d ++ String c "") = S (String.length d).
Proof.
  induction d as [|x d IH]; [reflexivity|].
  rewrite append_cons. cbn [String.length]. now rewrite IH.
Qed.

Lemma str_nat_go_spec fuel n acc :
  0 <= n < 10 ^ Z.of_nat (S fuel) ->
  exists d,
    Py.str_nat_go (S fuel) n acc = d ++ acc
    /\ all_digits d = true
    /\ Py.truthy d = true
    /\ (forall a, numeral_acc a d = a * 10 ^ Z.of_nat (String.length d) + n).
Proof.
  revert n acc. induction fuel as [|fuel IH]; intros n acc Hn;
    cbn [Py.str_nat_go];
    assert (Hm : 0 <= n mod 10 <= 9) by (pose proof (Z.mod_pos_bound n 10); lia);
    destruct (digit_char_val _ Hm) as [Hd Hv];
    destruct (n <? 10) eqn:E.
  1, 3: apply Z.ltb_lt in E; exists (String (Py.digit_char (n mod 10)) "");
        (split; [reflexivity|]); (split; [simpl; now rewrite Hd|]); (split; [reflexivity|]);
        intros a; cbn [numeral_acc String.length]; rewrite Hv;
        rewrite Z.mod_small by lia; change (10 ^ Z.of_nat 1) with 10; lia.
  - apply Z.ltb_ge in E. change (10 ^ Z.of_nat 1) with 10 in Hn. lia.
  - apply Z.ltb_ge in E.
    destruct (IH (n / 10) (String (Py.digit_char (n mod 10)) acc))
      as (d & Hgo & Hall & Hne & Hval).
    { split; [apply Z.div_pos; lia|].
      apply Z.div_lt_upper_bound; [lia|].
      rewrite (Nat2Z.inj_succ (S fuel)), Z.pow_succ_r in Hn by lia. lia. }
    exists (d ++ String (Py.digit_char (n mod 10)) "").
    split; [cbn [Py.str_nat_go] in Hgo; rewrite Hgo, string_app_assoc; reflexivity|].
    split; [apply all_digits_app; [exact Hall|simpl; now rewrite Hd]|].
    split; [destruct d; [discriminate|reflexivity]|].
    intros a. rewrite numeral_acc_app, Hval. cbn [numeral_acc]. rewrite Hv.
    rewrite length_append_one, Nat2Z.inj_succ, Z.pow_succ_r by lia.
    pose proof (Z.div_mod n 10 ltac:(lia)). lia.
Qed.

Lemma lt_pow10_log2 n : 0 <= n -> n < 10 ^ Z.of_nat (S (Z.to_nat (Z.log2 n))).
Proof.
  intros Hn. pose proof (Z.log2_nonneg n) as Hl.
  rewrite Nat2Z.inj_succ, Z2Nat.id by exact Hl.
  destruct (Z.eq_dec n 0) as [->|Hne]; [reflexivity|].
  pose proof (Z.log2_spec n ltac:(lia)) as [_ Hlt].
  eapply Z.lt_le_trans; [exact Hlt|].
  apply Z.pow_le_mono_l. lia.
Qed.

(** [str] of an integer that is not negative is its decimal numeral: a
    non-empty string of digits whose value is the integer. *)
Lemma str_int_decimal n :
  0 <= n ->
  numeral (Py.str_int n) = true /\ numeral_value (Py.str_int n) = n.
Proof.
  intros Hn. unfold Py.str_int. destruct (n <? 0) eqn:E; [apply Z.ltb_lt in E; lia|].
  destruct (str_nat_go_spec (Z.to_nat (Z.log2 n)) n "") as (d & Hgo & Hall & Hne & Hval).
  { split; [exact Hn|now apply lt_pow10_log2]. }
  rewrite Hgo.
  assert (Hd : d ++ "" = d).
  { clear. induction d as [|c d IH]; [reflexivity|]. rewrite append_cons. now rewrite IH. }
  rewrite Hd. unfold numeral, numeral_value. rewrite Hne, Hall, Hval. split; [reflexivity|lia].
Qed.

(** ** Division and rounding *)

Lemma round_half_even_bound a b :
  0 < b -> - b <= 2 * (b * Float.round_half_even a b - a) <= b.
Proof.
  intros Hb. unfold Float.round_half_even.
  pose proof (Z.div_mod a b ltac:(lia)) as Hdm.
  pose proof (Z.mod_pos_bound a b Hb) as Hr.
  set (q := a / b) in *. set (r := a mod b) in *.
  destruct (2 * r <? b) eqn:E1; [apply Z.ltb_lt in E1; lia|].
  apply Z.ltb_ge in E1.
  destruct (b <? 2 * r) eqn:E2; [apply Z.ltb_lt in E2; lia|].
  apply Z.ltb_ge in E2.
  destruct (Z.even q); lia.
Qed.

Lemma tenths_close d P m k n :
  0 < d -> 0 < P -> 10 * d < 2 * P -> Z.even d = true ->
  - d <= 2 * (d * m - n * P) <= d ->
  - P <= 2 * (P * k - 10 * m) <= P ->
  - d <= 2 * (d * k - 10 * n) <= d.
Proof.
  intros Hd HP Hbig Hev H1 H2.
  assert (HX : - (P * (d + 2)) < 2 * P * (d * k - 10 * n) < P * (d + 2)) by nia.
  assert (HY : - (d + 2) < 2 * (d * k - 10 * n) < d + 2) by nia.
  apply Z.even_spec in Hev. destruct Hev as [h Hh]. lia.
Qed.

Lemma log2_quotient_bound n d E :
  0 < d -> d <= n -> 0 <= E -> n < 2 ^ E * d -> 0 <= Z.log2 (n / d) < E.
Proof.
  intros Hd Hn HE Hlt. split; [apply Z.log2_nonneg|].
  assert (Hq : 0 < n / d) by (apply Z.div_str_pos; lia).
  apply Z.log2_lt_pow2; [exact Hq|].
  apply Z.div_lt_upper_bound; lia.
Qed.

(** While the quotient is small against the 53 bits of a double, the tenths
    that are printed are the quotient times ten, rounded to the nearest
    integer. *)
Lemma true_div_tenths n d E :
  0 < d -> d <= n -> Z.even d = true ->
  0 <= E <= 52 -> n < 2 ^ E * d -> 10 * d < 2 * 2 ^ (52 - (E - 1)) ->
  exists x,
    Float.true_div n d = Ok x
    /\ - d <= 2 * (d * Float.tenths x - 10 * n) <= d.
Proof.
  intros Hd Hn Hev HE Hlt Hbig.
  destruct (log2_quotient_bound n d E Hd Hn (proj1 HE) Hlt) as [He0 He1].
  unfold Float.true_div. set (e := Z.log2 (n / d)) in *.
  assert (Hs : 0 <= 52 - e) by lia.
  rewrite (proj2 (Z.leb_le 0 (52 - e)) Hs).
  replace (1024 <=? e) with false by (symmetry; apply Z.leb_gt; lia).
  replace (e =? 1023) with false by (symmetry; apply Z.eqb_neq; lia).
  cbn [orb andb]. eexists. split; [reflexivity|].
  unfold Float.tenths. cbn [Float.shift Float.mant].
  rewrite (proj2 (Z.leb_le 0 (52 - e)) Hs).
  assert (HP : 0 < 2 ^ (52 - e)) by (apply Z.pow_pos_nonneg; lia).
  assert (HPbig : 2 ^ (52 - (E - 1)) <= 2 ^ (52 - e)) by (apply Z.pow_le_mono_r; lia).
  apply (tenths_close d (2 ^ (52 - e)) (Float.round_half_even (n * 2 ^ (52 - e)) d));
    [exact Hd|exact HP|lia|exact Hev| |].
  - apply round_half_even_bound. exact Hd.
  - apply round_half_even_bound. exact HP.
Qed.

(** Below [(2^1024 - 2^970) * d] the division does not overflow. *)
Lemma true_div_finite n d :
  0 < d -> d <= n -> n < (2 ^ 1024 - 2 ^ 970) * d ->
  exists x, Float.true_div n d = Ok x.
Proof.
  intros Hd Hn Hlt.
  assert (H970 : 0 < 2 ^ 970) by (apply Z.pow_pos_nonneg; lia).
  assert (H1024 : 2 ^ 1024 = 2 ^ 54 * 2 ^ 970) by (rewrite <- Z.pow_add_r by lia; reflexivity).
  assert (H971 : 2 ^ 971 = 2 * 2 ^ 970) by (rewrite <- Z.pow_succ_r by lia; reflexivity).
  destruct (log2_quotient_bound n d 1024 Hd Hn ltac:(lia)) as [He0 He1]; [nia|].
  unfold Float.true_div. set (e := Z.log2 (n / d)) in *.
  replace (1024 <=? e) with false by (symmetry; apply Z.leb_gt; lia).
  destruct (e =? 1023) eqn:E; [|eexists; reflexivity].
  apply Z.eqb_eq in E. rewrite E.
  change (0 <=? 52 - 1023) with false. change (- (52 - 1023)) with 971. cbn [orb andb].
  assert (Hr : Float.round_half_even n (d * 2 ^ 971) < 2 ^ 53).
  { pose proof (round_half_even_bound n (d * 2 ^ 971) ltac:(nia)) as [_ Hb].
    set (m := Float.round_half_even n (d * 2 ^ 971)) in *.
    rewrite H971 in *. rewrite H1024 in Hlt.
    set (P := 2 ^ 970) in *. change (2 ^ 54) with (2 * 2 ^ 53) in Hlt.
    set (M := 2 ^ 53) in *. nia. }
  replace (Float.round_half_even n (d * 2 ^ 971) =? 2 ^ 53) with false
    by (symmetry; apply Z.eqb_neq; lia).
  eexists. reflexivity.
Qed.

(** The quotient is at least [2^e] for the exponent [e] that the division
    works with. *)
Lemma log2_quotient_le n d :
  0 < d -> d <= n -> 2 ^ Z.log2 (n / d) * d <= n.
Proof.
  intros Hd Hn.
  assert (Hq : 0 < n / d) by (apply Z.div_str_pos; lia).
  pose proof (Z.log2_spec (n / d) Hq) as [Hlo _].
  pose proof (Z.mul_div_le n d Hd). nia.
Qed.

(** Whatever the size of the quotient, the tenths that are printed are the
    quotient times ten up to the rounding of the double (one part in [2^53]
    of the quotient) and the rounding to an integer (half a tenth). *)
Lemma true_div_tenths_close n d x :
  0 < d -> d <= n -> Float.true_div n d = Ok x ->
  - (2 ^ 52 * d + 10 * n) <= 2 ^ 53 * (d * Float.tenths x - 10 * n)
    <= 2 ^ 52 * d + 10 * n.
Proof.
  intros Hd Hn. unfold Float.true_div.
  pose proof (log2_quotient_le n d Hd Hn) as Hle.
  pose proof (Z.log2_nonneg (n / d)) as He0.
  set (e := Z.log2 (n / d)) in *.
  assert (HE : 0 < 2 ^ e) by (apply Z.pow_pos_nonneg; lia).
  destruct (_ || _); [discriminate|]. intros [= <-].
  unfold Float.tenths. cbn [Float.shift Float.mant].
  destruct (0 <=? 52 - e) eqn:Es.
  - apply Z.leb_le in Es.
    assert (HP : 0 < 2 ^ (52 - e)) by (apply Z.pow_pos_nonneg; lia).
    assert (H52 : 2 ^ e * 2 ^ (52 - e) = 2 ^ 52)
      by (rewrite <- Z.pow_add_r by lia; f_equal; lia).
    assert (H53 : 2 ^ 53 = 2 * 2 ^ 52) by reflexivity.
    pose proof (round_half_even_bound (n * 2 ^ (52 - e)) d Hd) as Hm.
    set (m := Float.round_half_even (n * 2 ^ (52 - e)) d) in *.
    pose proof (round_half_even_bound (10 * m) (2 ^ (52 - e)) HP) as Hk.
    set (k := Float.round_half_even (10 * m) (2 ^ (52 - e))) in *.
    set (P := 2 ^ (52 - e)) in *. set (E := 2 ^ e) in *.
    assert (H1 : - (d * P + 10 * d) <= 2 * P * (d * k - 10 * n) <= d * P + 10 * d) by nia.
    assert (H2 : E * (2 * P * (d * k - 10 * n)) = 2 ^ 53 * (d * k - 10 * n))
      by (rewrite H53, <- H52; ring).
    assert (H3 : E * (d * P + 10 * d) <= 2 ^ 52 * d + 10 * n)
      by (rewrite <- H52; nia).
    rewrite <- H2. nia.
  - apply Z.leb_gt in Es.
    assert (HQ : 0 < 2 ^ (- (52 - e))) by (apply Z.pow_pos_nonneg; lia).
    assert (H52 : 2 ^ 52 * 2 ^ (- (52 - e)) = 2 ^ e)
      by (rewrite <- Z.pow_add_r by lia; f_equal; lia).
    assert (H53 : 2 ^ 53 = 2 * 2 ^ 52) by reflexivity.
    pose proof (round_half_even_bound n (d * 2 ^ (- (52 - e))) ltac:(nia)) as Hm.
    set (m := Float.round_half_even n (d * 2 ^ (- (52 - e)))) in *.
    set (Q := 2 ^ (- (52 - e))) in *.
    assert (H1 : 2 ^ 53 * (d * (10 * m * Q) - 10 * n)
                 = 2 ^ 52 * (10 * (2 * (d * Q * m - n)))) by (rewrite H53; ring).
    assert (H2 : 2 ^ 52 * (10 * (d * Q)) = 10 * (2 ^ e * d)) by (rewrite <- H52; ring).
    rewrite H1.
    assert (H0 : 0 < 2 ^ 52) by reflexivity.
    set (T := 2 ^ 52) in *. set (E := 2 ^ e) in *. nia.
Qed.

(** From [(2^1024 - 2^970) * d] on the division overflows. *)
Lemma true_div_overflow n d :
  0 < d -> (2 ^ 1024 - 2 ^ 970) * d <= n -> Float.true_div n d = Raise overflow_error.
Proof.
  intros Hd Hn.
  assert (H970 : 0 < 2 ^ 970) by (apply Z.pow_pos_nonneg; lia).
  assert (H1024 : 2 ^ 1024 = 2 ^ 54 * 2 ^ 970) by (rewrite <- Z.pow_add_r by lia; reflexivity).
  assert (H1023 : 2 ^ 1023 = 2 ^ 53 * 2 ^ 970) by (rewrite <- Z.pow_add_r by lia; reflexivity).
  assert (H971 : 2 ^ 971 = 2 * 2 ^ 970) by (rewrite <- Z.pow_succ_r by lia; reflexivity).
  assert (H54 : 2 ^ 54 = 2 * 2 ^ 53) by reflexivity.
  assert (HM : 0 < 2 ^ 53) by reflexivity.
  assert (Hdn : d <= n) by nia.
  assert (Hq : 0 < n / d) by (apply Z.div_str_pos; lia).
  assert (He : 1023 <= Z.log2 (n / d)).
  { apply Z.log2_le_pow2; [exact Hq|]. apply Z.div_le_lower_bound; [lia|]. nia. }
  unfold Float.true_div. set (e := Z.log2 (n / d)) in *.
  destruct (1024 <=? e) eqn:E1; [reflexivity|].
  apply Z.leb_gt in E1. assert (Ee : e = 1023) by lia.
  pose proof (Z.log2_spec (n / d) Hq) as [_ Hhi]. fold e in Hhi. rewrite Ee in *.
  change (Z.succ 1023) with 1024 in Hhi.
  assert (Hlt : n < 2 ^ 1024 * d).
  { pose proof (Z.div_mod n d ltac:(lia)) as Hdm.
    pose proof (Z.mod_pos_bound n d Hd) as Hr. nia. }
  change (0 <=? 52 - 1023) with false. change (- (52 - 1023)) with 971.
  change (1023 =? 1023) with true. cbn [orb andb].
  replace (Float.round_half_even n (d * 2 ^ 971) =? 2 ^ 53) with true; [reflexivity|].
  symmetry. apply Z.eqb_eq. unfold Float.round_half_even.
  assert (Hb : 0 < d * 2 ^ 971) by nia.
  pose proof (Z.div_mod n (d * 2 ^ 971) ltac:(lia)) as Hdm.
  pose proof (Z.mod_pos_bound n (d * 2 ^ 971) Hb) as Hr.
  set (q := n / (d * 2 ^ 971)) in *. set (r := n mod (d * 2 ^ 971)) in *.
  rewrite H971 in *. rewrite H1024, H54 in Hlt, Hn.
  set (h := 2 ^ 970) in *. set (T := 2 ^ 53) in *.
  assert (Hq1 : q = T - 1) by nia.
  assert (Hr1 : d * (2 * h) <= 2 * r) by nia.
  destruct (2 * r <? d * (2 * h)) eqn:E2; [apply Z.ltb_lt in E2; lia|].
  destruct (d * (2 * h) <? 2 * r) eqn:E3; [lia|].
  rewrite Hq1. subst T. change (Z.even (2 ^ 53 - 1)) with false. lia.
Qed.

(** C8, amended.  The abbreviation of a view count in a message:
    - below 1,000: the plain decimal numeral of the count;
    - from 1,000 up to 999,999: the count in thousands with one decimal,
      which is the count divided by 100 and rounded to the nearest integer
      number of tenths, followed by K;
    - from 1,000,000 up to the largest count whose quotient by 1,000,000 is
      still a finite double (below [(2^1024 - 2^970) * 1000000]): the count
      in millions with one decimal followed by M; the tenths shown are the
      count divided by 100,000, within half a tenth and the precision of a
      double (one part in [2^53] of the count), which below 10^15 makes them
      the nearest tenth;
    - from that bound on, for every count: [OverflowError].
    So 999 gives "999", 1500 gives "1.5K" and 2500000 gives "2.5M". *)
Theorem view_count_abbreviation :
  (forall n, 0 <= n < 1000 ->
     view_count_str n = Ok (Py.str_int n)
     /\ numeral (Py.str_int n) = true /\ numeral_value (Py.str_int n) = n)
  /\ (forall n, 1000 <= n < 1000000 ->
        exists k, view_count_str n = Ok (Float.one_decimal k ++ "K")
                  /\ - 1000 <= 2 * (1000 * k - 10 * n) <= 1000)
  /\ (forall n, 1000000 <= n < overflow_count ->
        exists k, view_count_str n = Ok (Float.one_decimal k ++ "M")
                  /\ - (2 ^ 52 * 1000000 + 10 * n)
                     <= 2 ^ 53 * (1000000 * k - 10 * n)
                     <= 2 ^ 52 * 1000000 + 10 * n)
  /\ (forall n, 1000000 <= n < 10 ^ 15 ->
        exists k, view_count_str n = Ok (Float.one_decimal k ++ "M")
                  /\ - 1000000 <= 2 * (1000000 * k - 10 * n) <= 1000000)
  /\ (forall n, overflow_count <= n -> view_count_str n = Raise overflow_error)
  /\ view_count_str 999 = Ok "999"
  /\ view_count_str 1500 = Ok "1.5K"
  /\ view_count_str 2500000 = Ok "2.5M".
Proof.
  split; [|split; [|split; [|split; [|split]]]].
  - intros n Hn. unfold view_count_str.
    replace (1000000 <=? n) with false by (symmetry; apply Z.leb_gt; lia).
    replace (1000 <=? n) with false by (symmetry; apply Z.leb_gt; lia).
    split; [reflexivity|]. apply str_int_decimal. lia.
  - intros n Hn. unfold view_count_str.
    replace (1000000 <=? n) with false by (symmetry; apply Z.leb_gt; lia).
    replace (1000 <=? n) with true by (symmetry; apply Z.leb_le; lia).
    destruct (true_div_tenths n 1000 10) as (x & Hx & Hk);
      [lia|lia|reflexivity|lia|change (2 ^ 10) with 1024; lia
      |change (2 ^ (52 - (10 - 1))) with 8796093022208; lia|].
    rewrite Hx. exists (Float.tenths x). split; [reflexivity|exact Hk].
  - intros n Hn. unfold view_count_str.
    replace (1000000 <=? n) with true by (symmetry; apply Z.leb_le; lia).
    destruct (true_div_finite n 1000000) as (x & Hx); [lia|lia|exact (proj2 Hn)|].
    rewrite Hx. exists (Float.tenths x). split; [reflexivity|].
    apply (true_div_tenths_close n 1000000 x); [lia|lia|exact Hx].
  - intros n Hn. unfold view_count_str.
    replace (1000000 <=? n) with true by (symmetry; apply Z.leb_le; lia).
    destruct (true_div_tenths n 1000000 30) as (x & Hx & Hk);
      [lia|lia|reflexivity|lia
      |change (2 ^ 30) with 1073741824; change (10 ^ 15) with 1000000000000000 in Hn; lia
      |change (2 ^ (52 - (30 - 1))) with 8388608; lia|].
    rewrite Hx. exists (Float.tenths x). split; [reflexivity|exact Hk].
  - intros n Hn. unfold view_count_str.
    assert (H970 : 0 < 2 ^ 970) by (apply Z.pow_pos_nonneg; lia).
    assert (H1024 : 2 ^ 1024 = 2 ^ 54 * 2 ^ 970)
      by (rewrite <- Z.pow_add_r by lia; reflexivity).
    assert (Hbig : 1000000 <= n).
    { unfold overflow_count in Hn. rewrite H1024 in Hn.
      change (2 ^ 54) with 18014398509481984 in Hn. nia. }
    replace (1000000 <=? n) with true by (symmetry; apply Z.leb_le; lia).
    rewrite (true_div_overflow n 1000000); [reflexivity|lia|exact Hn].
  - repeat split; reflexivity.
Qed.

Lemma view_count_abbreviation_witness :
  (exists k, view_count_str 999949 = Ok (Float.one_decimal k ++ "K")
             /\ - 1000 <= 2 * (1000 * k - 10 * 999949) <= 1000)
  /\ (exists k, view_count_str 123456789 = Ok (Float.one_decimal k ++ "M")
                /\ - 1000000 <= 2 * (1000000 * k - 10 * 123456789) <= 1000000)
  /\ (exists k, view_count_str (10 ^ 300) = Ok (Float.one_decimal k ++ "M")
                /\ - (2 ^ 52 * 1000000 + 10 * 10 ^ 300)
                   <= 2 ^ 53 * (1000000 * k - 10 * 10 ^ 300)
                   <= 2 ^ 52 * 1000000 + 10 * 10 ^ 300)
  /\ view_count_str (2 ^ 1024 * 1000000) = Raise overflow_error
  /\ view_count_str 7 = Ok (Py.str_int 7).
Proof.
  split; [|split; [|split; [|split]]].
  - apply (proj1 (proj2 view_count_abbreviation) 999949). lia.
  - apply (proj1 (proj2 (proj2 (proj2 view_count_abbreviation))) 123456789).
    change (10 ^ 15) with 1000000000000000. lia.
  - apply (proj1 (proj2 (proj2 view_count_abbreviation)) (10 ^ 300)).
    vm_compute. split; [discriminate|reflexivity].
  - apply (proj1 (proj2 (proj2 (proj2 (proj2 view_count_abbreviation)))) (2 ^ 1024 * 1000000)).
    vm_compute. discriminate.
  - apply (proj1 view_count_abbreviation 7). lia.
Defined.

(** C8 as worded fails: the quotient of [2^1024 * 1000000] by 1,000,000 is
    beyond the largest double, and the division raises [OverflowError]. *)
Lemma every_count_is_abbreviated_fails : ~ every_count_is_abbreviated.
Proof.
  intros (_ & _ & H).
  destruct (H (2 ^ 1024 * 1000000)) as (k & Hk); [vm_compute; discriminate|].
  assert (Hr : view_count_str (2 ^ 1024 * 1000000)
               = Raise (OverflowError "integer division result too large for a float"))
    by (vm_compute; reflexivity).
  rewrite Hr in Hk. discriminate Hk.
Qed.

(** The bound of the third range is the exact one. *)
Example view_count_str_at_the_bound :
  (exists s, view_count_str (overflow_count - 1) = Ok s)
  /\ view_count_str overflow_count
     = Raise (OverflowError "integer division result too large for a float").
Proof. split; [eexists|]; vm_compute; reflexivity. Qed.

(** * Further properties of the code *)

(** ** The record of parse_article *)

(** X3.  A text field that no rule resolves: when no candidate of the chain
    yields a value, the field of the emitted record is the value it was
    initialised with (the sentinel for the title, the empty string for
    content and date) exactly when no candidate element was found at all, and
    the empty string as soon as one candidate is there. *)
Theorem unresolved_field_keeps_default_only_if_nothing_found :
  forall (s : Site) (f : Field) (url : string) (w w1 : World) (soup : Soup),
    get_soup url w = (Ok (Some soup), w1) ->
    none_succeeds (chain s f soup) ->
    exists (a : Article) (w' : World),
      site_parse_article s url w = (Ok (Some a), w')
      /\ a !! field_key f
         = Some (VStr (if forallb is_missing (chain s f soup) then field_default f else "")).
Proof.
  intros s f url w w1 soup Hs Hn.
  destruct (parse_article_some s url w soup w1 Hs) as (n & w2 & _ & _ & Hp).
  eexists. eexists. split; [exact Hp|].
  rewrite article_dict_field. f_equal. f_equal.
  pose proof (site_field_none s f soup Hn) as H.
  destruct f; exact H.
Qed.

Lemma unresolved_field_keeps_default_only_if_nothing_found_witness :
  exists (a : Article) (w' : World),
    site_parse_article HT ht_url (with_http (serve ht_url page_count_comma) world0)
      = (Ok (Some a), w')
    /\ a !! "title" = Some (VStr NO_TITLE).
Proof.
  apply (unresolved_field_keeps_default_only_if_nothing_found HT Title ht_url
           (with_http (serve ht_url page_count_comma) world0)
           (with_http (serve ht_url page_count_comma) world0) page_count_comma).
  - reflexivity.
  - repeat constructor.
Defined.

Lemma article_dict_dom i u t c d cat src v at_ :
  dom (article_dict i u t c d cat src v at_) = article_keys.
Proof.
  unfold article_dict, article_keys. rewrite !dom_insert_L, dom_empty_L. set_solver.
Qed.

(** X4.  The record that an adapter emits has exactly the nine keys of an
    article; [source] is the name of the adapter, [category] the fourth
    field of the URL split at slashes (empty when there are fewer), [views] a
    non-negative integer, [crawled_at] the time of the clock, and the text
    fields are strings. *)
Theorem emitted_record_has_the_nine_fields :
  forall (s : Site) (url : string) (w w1 : World) (soup : Soup),
    get_soup url w = (Ok (Some soup), w1) ->
    exists (a : Article) (w' : World) (title content date : string) (views : Z),
      site_parse_article s url w = (Ok (Some a), w')
      /\ dom a = article_keys
      /\ a !! "source" = Some (VStr (site_name s))
      /\ a !! "category" = Some (VStr (url_category url))
      /\ a !! "views" = Some (VInt views) /\ 0 <= views
      /\ a !! "crawled_at" = Some (VStr (now w))
      /\ a !! "title" = Some (VStr title)
      /\ a !! "content" = Some (VStr content)
      /\ a !! "published_date" = Some (VStr date).
Proof.
  intros s url w w1 soup Hs.
  destruct (parse_article_some s url w soup w1 Hs) as (n & w2 & Hv & Hpos & Hp).
  pose proof (get_soup_some_world _ _ _ _ Hs) as ->.
  assert (Hnow : now w2 = now w).
  { destruct (extract_views_frame _ _ _ _ _ _ Hv) as (_ & _ & _ & Hc & Hcp & _).
    unfold now. now rewrite Hc, Hcp. }
  pose proof (article_dict_lookup (site_article_id s url) url
                (site_field s Title soup) (site_field s Content soup)
                (site_field s Date soup) (url_category url) (site_name s) n (now w2))
    as (_ & _ & Ht & Hc & Hd & Hcat & Hsrc & Hviews & Hat).
  cbv zeta in *.
  eexists. eexists. exists (site_field s Title soup), (site_field s Content soup),
    (site_field s Date soup), n.
  split; [exact Hp|]. split; [apply article_dict_dom|].
  rewrite <- Hnow. repeat split; assumption.
Qed.

Lemma emitted_record_has_the_nine_fields_witness :
  exists (a : Article) (w' : World) (title content date : string) (views : Z),
    site_parse_article TOI toi_slash_url world_slash = (Ok (Some a), w')
    /\ dom a = article_keys
    /\ a !! "source" = Some (VStr "Times of India")
    /\ a !! "category" = Some (VStr "india")
    /\ a !! "views" = Some (VInt views) /\ 0 <= views
    /\ a !! "crawled_at" = Some (VStr "2024-05-01T10:00:00")
    /\ a !! "title" = Some (VStr title)
    /\ a !! "content" = Some (VStr content)
    /\ a !! "published_date" = Some (VStr date).
Proof.
  exact (emitted_record_has_the_nine_fields TOI toi_slash_url world_slash world_slash
           toi_story eq_refl).
Defined.

(** ** Pages that cannot be fetched *)

(** X5.  When the request for the page fails, [parse_article] returns
    [None]; it logs the one error of [get_page] and touches nothing else (no
    draw, no record).  When the request succeeds with an empty body, it
    returns [None] as well, and logs nothing. *)
Theorem parse_article_without_page :
  (forall (s : Site) (url : string) (w : World) (msg : string),
     http w url = RequestException msg ->
     site_parse_article s url w
       = (Ok None, set_log (log w ++ [fetch_error url msg])%list w))
  /\ (forall (s : Site) (url : string) (w : World) (parsed : Soup),
        http w url = Body "" parsed ->
        site_parse_article s url w = (Ok None, w)).
Proof.
  split.
  - intros s url w msg H. apply parse_article_none.
    unfold get_soup, get_page, bind. rewrite H. reflexivity.
  - intros s url w parsed H. apply parse_article_none.
    unfold get_soup, get_page, bind. rewrite H. reflexivity.
Qed.

Lemma parse_article_without_page_witness :
  site_parse_article ET et_url world_error
    = (Ok None,
       set_log (log world_error
                ++ [fetch_error et_url "HTTPSConnectionPool: Read timed out."])%list
         world_error)
  /\ site_parse_article ET et_url
       (with_http (fun _ => Body "" page_no_counter) world0)
     = (Ok None, with_http (fun _ => Body "" page_no_counter) world0).
Proof.
  split.
  - apply (proj1 parse_article_without_page ET et_url world_error). reflexivity.
  - apply (proj2 parse_article_without_page ET et_url _ page_no_counter). reflexivity.
Defined.

Lemma site_scraper_urls s urljoin category max_pages :
  get_article_urls (site_scraper s urljoin) category max_pages
  = collect_article_urls urljoin (site_base s) (site_is_article s) category.
Proof. now destruct s. Qed.

Lemma site_scraper_name s urljoin : scraper_name (site_scraper s urljoin) = site_name s.
Proof. now destruct s. Qed.

(** X6.  When the listing page of a site cannot be fetched, the crawl of the
    site returns no record: link discovery logs the error and returns no
    link, [crawl_articles] logs a warning, and no article is requested, no
    delay drawn and nothing parsed. *)
Theorem crawl_without_listing_page_returns_nothing :
  forall (s : Site) (urljoin : string -> string -> string) (category : option string)
         (max_articles : Z) (delay_range : Z * Z) (w : World) (msg : string),
    http w (listing_url s category) = RequestException msg ->
    crawl_articles (site_scraper s urljoin) category max_articles delay_range w
      = (Ok [],
         set_log (log w ++ [ fetch_error (listing_url s category) msg;
                             no_urls_warning (site_name s) ])%list w).
Proof.
  intros s urljoin category max_articles delay_range w msg H.
  unfold crawl_articles. rewrite site_scraper_urls, site_scraper_name.
  unfold collect_article_urls. fold (listing_url s category).
  unfold get_soup, get_page, bind. rewrite H. simpl.
  unfold set_log. simpl. rewrite <- app_assoc. reflexivity.
Qed.

Lemma crawl_without_listing_page_returns_nothing_witness :
  crawl_articles (site_scraper HT urljoin_abs_path) (Some "india-news") 5 (2, 5) world_error
    = (Ok [],
       set_log (log world_error
                ++ [ fetch_error (listing_url HT (Some "india-news"))
                       "HTTPSConnectionPool: Read timed out.";
                     no_urls_warning (site_name HT) ])%list world_error).
Proof.
  apply (crawl_without_listing_page_returns_nothing HT urljoin_abs_path
           (Some "india-news") 5 (2, 5) world_error).
  reflexivity.
Defined.

(** ** Link discovery *)

Lemma str_in_In x l : str_in x l = true <-> In x l.
Proof.
  unfold str_in. rewrite existsb_exists. split.
  - intros (y & Hy & E). apply String.eqb_eq in E. now subst.
  - intros H. exists x. split; [exact H|apply String.eqb_refl].
Qed.

Lemma filter_filter_absent (x : string) acc l :
  In x acc ->
  List.filter (fun y => negb (str_in y acc)) (List.filter (fun y => negb (String.eqb x y)) l)
  = List.filter (fun y => negb (str_in y acc)) l.
Proof.
  intros Hx. induction l as [|y l IH]; [reflexivity|].
  cbn [List.filter]. destruct (String.eqb x y) eqn:E; cbn [negb].
  - apply String.eqb_eq in E. subst y.
    rewrite (proj2 (str_in_In x acc) Hx). cbn [negb]. exact IH.
  - cbn [List.filter]. now rewrite IH.
Qed.

Lemma filter_absent_snoc (x : string) acc l :
  List.filter (fun y => negb (str_in y (acc ++ [x])%list)) l
  = List.filter (fun y => negb (str_in y acc)) (List.filter (fun y => negb (String.eqb x y)) l).
Proof.
  induction l as [|y l IH]; [reflexivity|].
  cbn [List.filter]. unfold str_in at 1. rewrite existsb_app. cbn [existsb].
  rewrite orb_false_r. fold (str_in y acc). rewrite (String.eqb_sym y x).
  destruct (String.eqb x y) eqn:E; cbn [negb].
  - rewrite orb_true_r. cbn [negb]. exact IH.
  - rewrite orb_false_r. cbn [List.filter].
    destruct (str_in y acc); cbn [negb]; now rewrite IH.
Qed.

Lemma filter_absent_nil l : List.filter (fun y => negb (str_in y [])) l = l.
Proof.
  induction l as [|x l IH]; [reflexivity|].
  cbn [List.filter]. change (str_in x []) with false. cbn [negb]. now rewrite IH.
Qed.

(** The loop over the anchors, on the hrefs: it extends what it has with
    the first occurrences of the links that are new. *)
Lemma collect_fold (urljoin : string -> string -> string) (base : string)
    (is_article : string -> bool) (tags : list Node) (acc : list string) :
  fold_left
    (fun article_urls a_tag =>
       let href := BS.get a_tag "href" "" in
       if is_article href
       then let full_url := urljoin base href in
            if str_in full_url article_urls then article_urls
            else (article_urls ++ [full_url])%list
       else article_urls)
    tags acc
  = (acc ++ List.filter (fun y => negb (str_in y acc))
              (keep_first
                 (List.map (urljoin base)
                    (List.filter is_article
                       (List.map (fun a_tag => BS.get a_tag "href" "") tags)))))%list.
Proof.
  revert acc. induction tags as [|a tags IH]; intros acc.
  - simpl. now rewrite app_nil_r.
  - cbn [fold_left List.map List.filter]. cbv zeta.
    destruct (is_article (BS.get a "href" "")) eqn:E; [|apply IH].
    cbn [List.map keep_first List.filter].
    destruct (str_in (urljoin base (BS.get a "href" "")) acc) eqn:Ein; cbn [negb].
    + rewrite IH. f_equal. symmetry. apply filter_filter_absent. now apply str_in_In.
    + rewrite IH, <- app_assoc. cbn [app]. f_equal. f_equal. apply filter_absent_snoc.
Qed.

Lemma NoDup_bool_filter {A} (p : A -> bool) (l : list A) :
  NoDup l -> NoDup (List.filter p l).
Proof.
  induction 1 as [|x l Hx Hl IH]; [constructor|].
  cbn [List.filter]. destruct (p x); [|exact IH].
  constructor; [|exact IH].
  intros H. apply Hx. apply list_elem_of_In in H. apply filter_In in H as [H _].
  now apply list_elem_of_In.
Qed.

Lemma keep_first_NoDup l : NoDup (keep_first l).
Proof.
  induction l as [|x l IH]; [constructor|].
  cbn [keep_first]. constructor.
  - intros H. apply list_elem_of_In in H. apply filter_In in H as [_ H].
    now rewrite String.eqb_refl in H.
  - now apply NoDup_bool_filter.
Qed.

Lemma keep_first_In x l : In x (keep_first l) <-> In x l.
Proof.
  induction l as [|y l IH]; [reflexivity|].
  cbn [keep_first]. simpl. rewrite filter_In, IH. split.
  - intros [H|[H _]]; auto.
  - intros [H|H]; [now left|].
    destruct (String.eqb y x) eqn:E; [left; now apply String.eqb_eq|right; auto].
Qed.

(** X7.  Link discovery on a listing page that is fetched returns the links
    of the page that pass the site's test, made absolute with [urljoin], each
    once, in the order of their first occurrence on the page; it changes
    nothing in the world. *)
Theorem discovered_links_are_first_occurrences :
  forall (s : Site) (urljoin : string -> string -> string) (category : option string)
         (max_pages : nat) (w w1 : World) (soup : Soup),
    get_soup (listing_url s category) w = (Ok (Some soup), w1) ->
    exists urls : list string,
      get_article_urls (site_scraper s urljoin) category max_pages w = (Ok urls, w)
      /\ urls = keep_first
                  (List.map (urljoin (site_base s))
                     (List.filter (site_is_article s) (hrefs soup)))
      /\ NoDup urls
      /\ (forall u, In u urls <->
            exists href, In href (hrefs soup) /\ site_is_article s href = true
                         /\ u = urljoin (site_base s) href).
Proof.
  intros s urljoin category max_pages w w1 soup Hs.
  pose proof (get_soup_some_world _ _ _ _ Hs) as ->.
  eexists. split; [|split; [reflexivity|split]].
  - rewrite site_scraper_urls. unfold collect_article_urls.
    fold (listing_url s category). erewrite bind_ok by exact Hs.
    unfold ret. rewrite collect_fold. cbn [app]. f_equal. f_equal.
    apply filter_absent_nil.
  - apply keep_first_NoDup.
  - intros u. rewrite keep_first_In, in_map_iff. split.
    + intros (href & <- & H). apply filter_In in H as [H1 H2]. eauto.
    + intros (href & H1 & H2 & ->). exists href. split; [reflexivity|].
      apply filter_In. auto.
Qed.

Lemma discovered_links_are_first_occurrences_witness :
  exists urls : list string,
    get_article_urls (site_scraper TOI urljoin_abs_path) (Some "india") 2%nat world_section
      = (Ok urls, world_section)
    /\ urls = keep_first
                (List.map (urljoin_abs_path (site_base TOI))
                   (List.filter (site_is_article TOI) (hrefs toi_section)))
    /\ NoDup urls
    /\ (forall u, In u urls <->
          exists href, In href (hrefs toi_section) /\ site_is_article TOI href = true
                       /\ u = urljoin_abs_path (site_base TOI) href).
Proof.
  exact (discovered_links_are_first_occurrences TOI urljoin_abs_path (Some "india") 2%nat
           world_section world_section toi_section eq_refl).
Defined.

(** ** Identifiers and categories *)

Lemma split_go_char c s :
  Py.split_go (String c "") s 0 =
    match s with
    | EmptyString => (EmptyString, [])
    | String a s' =>
        let '(f, r) := Py.split_go (String c "") s' 0 in
        if Ascii.eqb c a then (EmptyString, f :: r) else (String a f, r)
    end.
Proof.
  destruct s as [|a s']; [reflexivity|].
  cbn [Py.split_go String.prefix String.length Nat.sub].
  destruct (ascii_dec c a) as [->|Hne].
  - rewrite Ascii.eqb_refl. destruct s'; reflexivity.
  - apply Ascii.eqb_neq in Hne. now rewrite Hne.
Qed.

Lemma split_go_no_sep c s :
  no_char c s = true -> Py.split_go (String c "") s 0 = (s, []).
Proof.
  induction s as [|a s IH]; [reflexivity|].
  unfold no_char. cbn [all_chars]. intros H. apply andb_true_iff in H as [Ha H].
  rewrite split_go_char, (IH H). apply negb_true_iff in Ha. now rewrite Ha.
Qed.

Lemma split_no_sep c s : no_char c s = true -> Py.split (String c "") s = [s].
Proof. intros H. unfold Py.split. now rewrite split_go_no_sep. Qed.

(** A field without the separator, then the separator: the field is split
    off. *)
Lemma split_app_sep c a b :
  no_char c a = true ->
  Py.split (String c "") (a ++ String c b) = a :: Py.split (String c "") b.
Proof.
  unfold Py.split. induction a as [|x a IH]; intros H.
  - rewrite append_nil, split_go_char. rewrite Ascii.eqb_refl.
    now destruct (Py.split_go (String c "") b 0).
  - unfold no_char in H. cbn [all_chars] in H. apply andb_true_iff in H as [Hx H].
    rewrite append_cons, split_go_char. specialize (IH H).
    destruct (Py.split_go (String c "") (a ++ String c b) 0) as [f r].
    apply negb_true_iff in Hx. rewrite Hx.
    destruct (Py.split_go (String c "") b 0) as [f' r'].
    now injection IH as -> ->.
Qed.

(** After the last separator comes the last field. *)
Lemma split_last_field c p t :
  no_char c t = true ->
  exists f r, Py.split (String c "") (p ++ String c t) = f :: r
              /\ r <> [] /\ List.last r "" = t.
Proof.
  intros Ht. unfold Py.split. induction p as [|x p IH].
  - rewrite append_nil, split_go_char, Ascii.eqb_refl, (split_go_no_sep c t Ht).
    exists "", [t]. repeat split. discriminate.
  - rewrite append_cons, split_go_char.
    destruct IH as (f & r & Hs & Hr & Hl).
    destruct (Py.split_go (String c "") (p ++ String c t) 0) as [f' r'].
    injection Hs as -> ->.
    destruct (Ascii.eqb c x).
    + exists "", (f :: r). split; [reflexivity|]. split; [discriminate|].
      destruct r; [congruence|exact Hl].
    + exists (String x f), r. auto.
Qed.

Lemma last_field_split c p t :
  no_char c t = true -> Py.last_field (Py.split (String c "") (p ++ String c t)) = t.
Proof.
  intros Ht. destruct (split_last_field c p t Ht) as (f & r & -> & Hr & Hl).
  unfold Py.last_field. destruct r; [congruence|exact Hl].
Qed.

Lemma first_field_split c a b :
  no_char c a = true -> Py.first_field (Py.split (String c "") (a ++ String c b)) = a.
Proof. intros H. now rewrite split_app_sep. Qed.

Lemma no_char_app c a b :
  no_char c a = true -> no_char c b = true -> no_char c (a ++ b) = true.
Proof.
  unfold no_char. intros Ha Hb. induction a as [|x a IH]; [exact Hb|].
  rewrite append_cons. cbn [all_chars] in *.
  apply andb_true_iff in Ha as [Hx Ha]. rewrite Hx. now apply IH.
Qed.

(** X8.  What the adapters cut out of a URL.  For Times of India and
    Economic Times the id is the last path segment up to its first dot: a URL
    [pre/name.ext] has the id [name]; for Hindustan Times it is what follows
    the last hyphen, up to the first dot: a URL [pre-name.ext] has the id
    [name].  The category of [scheme//host/category/rest] is [category]. *)
Theorem id_and_category_of_a_url :
  (forall (s : Site) (pre name ext : string),
     s <> HT ->
     no_char "/" name = true -> no_char "." name = true -> no_char "/" ext = true ->
     site_article_id s (pre ++ "/" ++ name ++ "." ++ ext) = name)
  /\ (forall (pre name ext : string),
        no_char "-" name = true -> no_char "." name = true -> no_char "-" ext = true ->
        site_article_id HT (pre ++ "-" ++ name ++ "." ++ ext) = name)
  /\ (forall (scheme host category rest : string),
        no_char "/" scheme = true -> no_char "/" host = true ->
        no_char "/" category = true ->
        url_category (scheme ++ "//" ++ host ++ "/" ++ category ++ "/" ++ rest) = category).
Proof.
  split; [|split].
  - intros s pre name ext Hs H1 H2 H3.
    assert (Hid : Py.first_field
                    (Py.split "." (Py.last_field (Py.split "/" (pre ++ "/" ++ name ++ "." ++ ext))))
                  = name).
    { change (pre ++ "/" ++ name ++ "." ++ ext)
        with (pre ++ String "/" (name ++ String "." ext)).
      rewrite (last_field_split "/" pre (name ++ String "." ext)).
      - now apply (first_field_split "." name ext).
      - apply no_char_app; [exact H1|].
        change (String "." ext) with (String "." "" ++ ext).
        apply no_char_app; [reflexivity|exact H3]. }
    destruct s; [exact Hid|congruence|exact Hid].
  - intros pre name ext H1 H2 H3.
    change (site_article_id HT (pre ++ "-" ++ name ++ "." ++ ext))
      with (Py.first_field
              (Py.split "." (Py.last_field
                               (Py.split "-" (pre ++ String "-" (name ++ String "." ext)))))).
    rewrite (last_field_split "-" pre (name ++ String "." ext)).
    + now apply (first_field_split "." name ext).
    + apply no_char_app; [exact H1|].
      change (String "." ext) with (String "." "" ++ ext).
      apply no_char_app; [reflexivity|exact H3].
  - intros scheme host category rest H1 H2 H3. unfold url_category.
    change (scheme ++ "//" ++ host ++ "/" ++ category ++ "/" ++ rest)
      with (scheme ++ String "/" ("" ++ String "/" (host ++ String "/"
              (category ++ String "/" rest)))).
    rewrite (split_app_sep "/" scheme) by exact H1.
    rewrite (split_app_sep "/" "") by reflexivity.
    rewrite (split_app_sep "/" host) by exact H2.
    rewrite (split_app_sep "/" category) by exact H3.
    unfold Py.split. destruct (Py.split_go "/" rest 0) as [f r]. reflexivity.
Qed.

Lemma id_and_category_of_a_url_witness :
  site_article_id TOI ("https://timesofindia.indiatimes.com/india/x/articleshow"
                       ++ "/" ++ "123456" ++ "." ++ "cms") = "123456"
  /\ site_article_id HT ("https://www.hindustantimes.com/india-news/monsoon-hits-kerala"
                         ++ "-" ++ "101700000345" ++ "." ++ "html") = "101700000345"
  /\ url_category ("https:" ++ "//" ++ "economictimes.indiatimes.com" ++ "/" ++ "markets"
                   ++ "/" ++ "stocks/news/articleshow/998877.cms") = "markets".
Proof.
  split; [|split].
  - apply (proj1 id_and_category_of_a_url TOI); [discriminate|reflexivity..].
  - apply (proj1 (proj2 id_and_category_of_a_url)); reflexivity.
  - apply (proj2 (proj2 id_and_category_of_a_url)); reflexivity.
Defined.

(** ** Formatting a record *)

Lemma view_count_str_finite n :
  n < overflow_count -> exists s, view_count_str n = Ok s.
Proof.
  intros Hn. unfold view_count_str.
  destruct (1000000 <=? n) eqn:E1.
  - apply Z.leb_le in E1.
    destruct (true_div_finite n 1000000) as (x & ->); [lia|lia|exact Hn|]. eauto.
  - destruct (1000 <=? n) eqn:E2; [|eauto].
    apply Z.leb_le in E2. apply Z.leb_gt in E1.
    destruct (true_div_finite n 1000) as (x & ->); [lia|lia| |eauto].
    assert (0 < 2 ^ 970) by (apply Z.pow_pos_nonneg; lia).
    assert (2 ^ 1024 = 2 ^ 54 * 2 ^ 970) by (rewrite <- Z.pow_add_r by lia; reflexivity).
    change (2 ^ 54) with 18014398509481984 in *. nia.
Qed.

Lemma view_count_str_raises n e :
  view_count_str n = Raise e -> e = overflow_error /\ overflow_count <= n.
Proof.
  intros H. split.
  - unfold view_count_str, Float.true_div in H.
    repeat match type of H with
           | context [if ?b then _ else _] => destruct b
           end; try discriminate; now injection H as <-.
  - destruct (Z.lt_ge_cases n overflow_count) as [Hlt|Hge]; [|exact Hge].
    destruct (view_count_str_finite n Hlt) as (s & Hs). congruence.
Qed.

Lemma format_article_dict i u t c d cat src v at_ :
  match view_count_str v with
  | Ok _ => exists msg, format_article_message (article_dict i u t c d cat src v at_) = Ok msg
  | Raise e => format_article_message (article_dict i u t c d cat src v at_) = Raise e
  end.
Proof.
  pose proof (article_dict_lookup i u t c d cat src v at_)
    as (_ & Hu & Ht & _ & Hd & Hcat & Hsrc & Hv & _).
  cbv zeta in *. unfold format_article_message, getitem.
  rewrite Hv, Hcat, Ht, Hd, Hu, Hsrc.
  destruct (view_count_str v) as [vs|e]; [|reflexivity].
  cbn [rbind value_truthy]. destruct (Py.truthy d); cbn [rbind]; eauto.
Qed.

(** X11.  A record that an adapter emits can be put into a message: the
    formatter finds every key it reads, and the one way it can fail is the
    overflow of the float division, for a view count of
    [(2^1024 - 2^970) * 1000000] or more (a counter text with over three
    hundred digits). *)
Theorem emitted_record_formats_unless_overflow :
  forall (s : Site) (url : string) (w w1 : World) (soup : Soup),
    get_soup url w = (Ok (Some soup), w1) ->
    exists (a : Article) (w' : World),
      site_parse_article s url w = (Ok (Some a), w')
      /\ match format_article_message a with
         | Ok _ => True
         | Raise e => e = overflow_error /\ overflow_count <= views_of a
         end.
Proof.
  intros s url w w1 soup Hs.
  destruct (parse_article_some s url w soup w1 Hs) as (n & w2 & _ & _ & Hp).
  eexists. eexists. split; [exact Hp|].
  pose proof (format_article_dict (site_article_id s url) url
                (site_field s Title soup) (site_field s Content soup)
                (site_field s Date soup) (url_category url) (site_name s) n (now w2)) as Hf.
  pose proof (article_dict_lookup (site_article_id s url) url
                (site_field s Title soup) (site_field s Content soup)
                (site_field s Date soup) (url_category url) (site_name s) n (now w2))
    as (_ & _ & _ & _ & _ & _ & _ & Hv & _).
  cbv zeta in Hv. unfold views_of. rewrite Hv.
  destruct (view_count_str n) as [vs|e] eqn:E.
  - destruct Hf as (msg & ->). exact I.
  - rewrite Hf. now apply view_count_str_raises.
Qed.

Lemma emitted_record_formats_unless_overflow_witness :
  exists (a : Article) (w' : World),
    site_parse_article TOI toi_slash_url world_slash = (Ok (Some a), w')
    /\ match format_article_message a with
       | Ok _ => True
       | Raise e => e = overflow_error /\ overflow_count <= views_of a
       end.
Proof.
  exact (emitted_record_formats_unless_overflow TOI toi_slash_url world_slash world_slash
           toi_story eq_refl).
Defined.

(** The message of a record, evaluated: the category in brackets, no date
    line for an empty date. *)
Example format_article_message_example :
  format_article_message
    (article_dict "123456" toi_url "Monsoon hits Kerala" "Heavy rain." "" "india"
       "Times of India" 1500 "2024-05-01T10:00:00")
  = Ok ("📰 *Monsoon hits Kerala* [india]

👁 조회수: 1.5K
🔗 링크: " ++ toi_url ++ "
출처: Times of India").
Proof. vm_compute. reflexivity. Qed.

Lemma rbind_ok {A B} (r : Result A) (k : A -> Result B) a : r = Ok a -> rbind r k = k a.
Proof. now intros ->. Qed.

(** X12.  On a record whose views are an integer below the overflow bound,
    or missing, [format_article_message] raises [KeyError] for the first of
    title, url and source that the record lacks, in this order, and returns a
    message when the three are there; views, category and published_date may
    be missing. *)
Theorem format_raises_key_error_for_first_missing_key :
  forall a : Article,
    int_views a -> views_of a < overflow_count ->
    match first_missing_key a with
    | Some k => format_article_message a = Raise (KeyError k)
    | None => exists msg, format_article_message a = Ok msg
    end.
Proof.
  intros a Hint Hv.
  destruct (view_count_str_finite _ Hv) as (vs & Hvs).
  assert (Hcount :
    match a !! "views" with
    | Some (VInt n) => view_count_str n
    | None => view_count_str 0
    | Some (VStr _) =>
        Raise (TypeError "'>=' not supported between instances of 'str' and 'int'")
    end = Ok vs).
  { unfold int_views, views_of in *. destruct (a !! "views") as [[x|n]|]; [contradiction| |];
      exact Hvs. }
  unfold first_missing_key, format_article_message.
  rewrite (rbind_ok _ _ vs Hcount). unfold getitem.
  destruct (a !! "title") as [t|]; [|reflexivity]. cbn [rbind].
  destruct (a !! "url") as [u|], (a !! "source") as [src|],
    (a !! "published_date") as [d|]; try destruct (value_truthy d);
    cbn [rbind]; eauto.
Qed.

Lemma format_raises_key_error_for_first_missing_key_witness :
  format_article_message (record "Monsoon hits Kerala" (Some 1500)) = Raise (KeyError "url").
Proof.
  apply (format_raises_key_error_for_first_missing_key
           (record "Monsoon hits Kerala" (Some 1500))).
  - exact I.
  - vm_compute. reflexivity.
Defined.

(** X13.  Just below a million the abbreviation rounds up within the K
    form: every count from 999,950 to 999,999 is shown as "1000.0K". *)
Theorem counts_just_below_a_million_show_as_1000_0K :
  forall n : Z, 999950 <= n < 1000000 -> view_count_str n = Ok "1000.0K".
Proof.
  intros n Hn.
  destruct (Z.eq_dec n 999950) as [->|Hne]; [vm_compute; reflexivity|].
  unfold view_count_str.
  replace (1000000 <=? n) with false by (symmetry; apply Z.leb_gt; lia).
  replace (1000 <=? n) with true by (symmetry; apply Z.leb_le; lia).
  destruct (true_div_tenths n 1000 10) as (x & Hx & Hk);
    [lia|lia|reflexivity|lia|change (2 ^ 10) with 1024; lia
    |change (2 ^ (52 - (10 - 1))) with 8796093022208; lia|].
  rewrite Hx. unfold Float.format_1f.
  replace (Float.tenths x) with 10000 by lia. reflexivity.
Qed.

Lemma counts_just_below_a_million_show_as_1000_0K_witness :
  view_count_str 999987 = Ok "1000.0K".
Proof. apply (counts_just_below_a_million_show_as_1000_0K 999987). lia. Defined.

(** X17.  A record without the [views] key is formatted as the same record
    with 0 views: the message shows the count "0" and nothing is raised on
    account of the missing key. *)
Theorem format_reads_missing_views_as_zero :
  forall a : Article,
    a !! "views" = None ->
    format_article_message a = format_article_message (<["views" := VInt 0]> a).
Proof.
  intros a Ha. unfold format_article_message, getitem.
  rewrite Ha, lookup_insert_eq.
  rewrite !lookup_insert_ne by discriminate. reflexivity.
Qed.

Lemma format_reads_missing_views_as_zero_witness :
  format_article_message (record "Monsoon hits Kerala" None)
  = format_article_message (<["views" := VInt 0]> (record "Monsoon hits Kerala" None)).
Proof.
  apply (format_reads_missing_views_as_zero (record "Monsoon hits Kerala" None)).
  reflexivity.
Defined.

(** ** The estimates of extract_views *)

(** X1.  When the page has no counter element, or the text that the
    estimator searches in the selected one (for Times of India: after the
    letters k and m were replaced by zeros) holds no decimal digit,
    [extract_views] takes exactly one draw and returns a value bounded by
    the adapter's constants.  With a number to read in the URL it logs
    nothing, and the value is in 50,000..1,199,900 (Times of India; the
    comment in the source says 100,000 to 1,000,000), 50..1,490 (Hindustan
    Times) or 100..5,995 (Economic Times); without one the value is in the
    default range of the adapter. *)
Theorem estimate_is_one_draw_within_range :
  forall (s : Site) (soup : Soup) (url : string) (w : World),
    match site_views_elem s soup with
    | Some e =>
        Py.search_digits (runtime w) (Py.chars (site_views_text (runtime w) s e)) = None
    | None => True
    end ->
    exists (v : Z) (w' : World),
      site_extract_views s (Some soup) url w = (Ok v, w')
      /\ rng_pos w' = S (rng_pos w)
      /\ match site_url_id (runtime w) s url with
         | Some _ =>
             w' = set_rng_pos (S (rng_pos w)) w
             /\ fst (site_id_estimate_range s) <= v <= snd (site_id_estimate_range s)
         | None => fst (site_default_range s) <= v <= snd (site_default_range s)
         end.
Proof.
  intros s soup url w H.
  pose proof (extract_views_result s (Some soup) url w) as Hr.
  rewrite extract_views_try_some in Hr.
  assert (Ht : match site_views_elem s soup with
               | Some e =>
                   match Py.search_digits (runtime w)
                           (Py.chars (site_views_text (runtime w) s e)) with
                   | Some g => (Py.int (runtime w) g, w)
                   | None => site_estimate_views s url w
                   end
               | None => site_estimate_views s url w
               end = site_estimate_views s url w).
  { destruct (site_views_elem s soup) as [e|]; [now rewrite H|reflexivity]. }
  rewrite Ht in Hr. clear Ht.
  pose proof (estimate_views_cases s url w) as Hc.
  destruct (site_url_id (runtime w) s url).
  - destruct Hc as (v & Hv & Hb). rewrite Hv in Hr.
    exists v. eexists. split; [exact Hr|]. split; [reflexivity|]. split; [reflexivity|exact Hb].
  - destruct Hc as [(v & Hv & Hb)|(e & He)].
    + rewrite Hv in Hr. exists v. eexists. split; [exact Hr|]. split; [reflexivity|exact Hb].
    + rewrite He in Hr. destruct Hr as (v & Hv & Hb).
      exists v. eexists. split; [exact Hv|]. split; [reflexivity|exact Hb].
Qed.

Lemma estimate_is_one_draw_within_range_witness :
  exists (v : Z) (w' : World),
    site_extract_views HT (Some page_no_counter) ht_url world0 = (Ok v, w')
    /\ rng_pos w' = S (rng_pos world0)
    /\ w' = set_rng_pos (S (rng_pos world0)) world0 /\ 50 <= v <= 1490.
Proof.
  exact (estimate_is_one_draw_within_range HT page_no_counter ht_url world0 I).
Defined.

Lemma search_digits_skip rt pre cs :
  forallb (not_decimal rt) pre = true ->
  Py.search_digits rt (pre ++ cs)%list = Py.search_digits rt cs.
Proof.
  induction pre as [|c pre IH]; [reflexivity|]. cbn [forallb app Py.search_digits].
  intros H. apply andb_true_iff in H as [Hc H]. unfold not_decimal in Hc.
  apply negb_true_iff in Hc. rewrite Hc. now apply IH.
Qed.

Lemma take_while_run {A} (p : A -> bool) ds post :
  forallb p ds = true ->
  match post with [] => True | c :: _ => p c = false end ->
  Py.take_while p (ds ++ post)%list = ds.
Proof.
  intros Hd Hp. induction ds as [|d ds IH]; cbn [app Py.take_while].
  - destruct post as [|c post]; [reflexivity|]. simpl. now rewrite Hp.
  - simpl in Hd. apply andb_true_iff in Hd as [H1 H2]. rewrite H1. f_equal. now apply IH.
Qed.

Lemma search_digits_run rt ds post :
  ds <> [] -> forallb (Py.is_decimal rt) ds = true ->
  match post with [] => True | c :: _ => Py.is_decimal rt c = false end ->
  Py.search_digits rt (ds ++ post)%list = Some ds.
Proof.
  intros Hne Hd Hp. destruct ds as [|d ds]; [congruence|].
  cbn [app Py.search_digits]. simpl in Hd. apply andb_true_iff in Hd as [H1 H2].
  rewrite H1. f_equal. f_equal. now apply take_while_run.
Qed.

(** X2.  The Hindustan Times and Economic Times estimators read the first
    run of decimal digits of the counter text and nothing else: when the
    characters of the trimmed text are some that are no decimal digits, then
    a run of decimal digits that [int] accepts, then anything that does not
    go on with a decimal digit, the result is the number that the run
    denotes.  A separator or a unit after it is ignored: "1,234" gives 1 and
    "12K" gives 12. *)
Theorem counter_without_units_reads_first_digit_run :
  forall (s : Site) (soup : Soup) (url : string) (w : World) (e : Node)
         (pre ds post : list string) (n : Z),
    s <> TOI ->
    site_views_elem s soup = Some e ->
    Py.chars (Py.strip (BS.text e)) = (pre ++ ds ++ post)%list ->
    forallb (not_decimal (runtime w)) pre = true ->
    ds <> [] ->
    forallb (Py.is_decimal (runtime w)) ds = true ->
    match post with [] => True | c :: _ => Py.is_decimal (runtime w) c = false end ->
    Py.int (runtime w) ds = Ok n ->
    site_extract_views s (Some soup) url w = (Ok n, w).
Proof.
  intros s soup url w e pre ds post n Hs He Ht Hpre Hne Hds Hpost Hn.
  apply (tier1_text s soup url w e ds n He); [|exact Hn].
  replace (site_views_text (runtime w) s e) with (Py.strip (BS.text e)) by now destruct s.
  rewrite Ht, search_digits_skip by exact Hpre.
  now apply search_digits_run.
Qed.

Lemma counter_without_units_reads_first_digit_run_witness :
  site_extract_views HT (Some page_count_comma) ht_url world0 = (Ok 1, world0).
Proof.
  apply (counter_without_units_reads_first_digit_run HT page_count_comma ht_url world0
           (elem "span" "viewCount" "Views: 1,234") (Py.chars "Views: ") ["1"]
           (Py.chars ",234") 1).
  - discriminate.
  - reflexivity.
  - reflexivity.
  - reflexivity.
  - discriminate.
  - reflexivity.
  - reflexivity.
  - reflexivity.
Defined.

(** ** What a crawl does to the world *)

(** Link discovery: no exception; it draws nothing and leaves the network
    and the files alone; it finds no link when the listing page cannot be
    fetched. *)
Lemma get_article_urls_effects s urljoin category max_pages w :
  exists urls w1,
    get_article_urls (site_scraper s urljoin) category max_pages w = (Ok urls, w1)
    /\ rng_pos w1 = rng_pos w /\ http w1 = http w /\ fs w1 = fs w /\ writes w1 = writes w
    /\ (forall msg, http w (listing_url s category) = RequestException msg -> urls = []).
Proof.
  rewrite site_scraper_urls. unfold collect_article_urls. fold (listing_url s category).
  destruct (get_soup_cases (listing_url s category) w) as [(soup & Hs)|(w1 & Hs & _)].
  - erewrite bind_ok by exact Hs. eexists. exists w. split; [reflexivity|].
    repeat split; auto. intros msg Hm.
    exfalso. exact (get_soup_some_http _ _ _ _ msg Hs Hm).
  - erewrite bind_ok by exact Hs. exists [], w1. split; [reflexivity|].
    destruct (get_soup_none_world _ _ _ Hs) as (H1 & _ & H3 & _ & _ & _ & _ & H8 & H9).
    auto.
Qed.

Lemma after_discovery_frame name urls w :
  rng_pos (after_discovery name urls w) = rng_pos w
  /\ http (after_discovery name urls w) = http w
  /\ fs (after_discovery name urls w) = fs w
  /\ writes (after_discovery name urls w) = writes w.
Proof. destruct urls; simpl; auto. Qed.

(** X14.  In a crawl of a site with a delay between 0 and [SLEEP_MAX]
    seconds, one delay is drawn before every attempt, whether the parse then
    succeeds or not, and a parse draws at most once more, and only when it
    yields a record: after link discovery the generator has advanced by at
    least the number of attempts and at most the number of attempts plus the
    number of records. *)
Theorem crawl_draws_a_delay_for_every_attempt :
  forall (s : Site) (urljoin : string -> string -> string) (category : option string)
         (max_articles : Z) (delay_range : Z * Z) (w w1 : World) (urls : list string),
    0 <= max_articles ->
    delay_in_range delay_range ->
    get_article_urls (site_scraper s urljoin) category 2%nat w = (Ok urls, w1) ->
    exists (articles : list Article) (w2 : World),
      crawl_articles (site_scraper s urljoin) category max_articles delay_range w
        = (Ok articles, w2)
      /\ (rng_pos w1 + Nat.min (length urls) (Z.to_nat max_articles) <= rng_pos w2
          <= rng_pos w1 + Nat.min (length urls) (Z.to_nat max_articles)
             + length articles)%nat.
Proof.
  intros s urljoin category max_articles delay_range w w1 urls Hmax Hd Hu.
  destruct (crawl_articles_attempts s urljoin category max_articles delay_range w w1 urls
              Hmax Hd Hu) as (articles & w2 & Hc & Ha).
  exists articles, w2. split; [exact Hc|].
  destruct (attempts_effects _ _ _ _ _ Ha) as (_ & _ & Hr & _).
  destruct (after_discovery_frame (site_name s) urls w1) as (Hp & _).
  rewrite Hp, length_firstn in Hr. lia.
Qed.

Lemma crawl_draws_a_delay_for_every_attempt_witness :
  exists (articles : list Article) (w2 : World),
    crawl_articles (site_scraper TOI urljoin_abs_path) (Some "india") 2 (1, 3) world_section
      = (Ok articles, w2)
    /\ (rng_pos world_section + Nat.min 3 (Z.to_nat 2) <= rng_pos w2
        <= rng_pos world_section + Nat.min 3 (Z.to_nat 2) + length articles)%nat.
Proof.
  apply (crawl_draws_a_delay_for_every_attempt TOI urljoin_abs_path (Some "india") 2 (1, 3)
           world_section world_section
           [ "https://timesofindia.indiatimes.com/india/a/articleshow/101.cms";
             "https://timesofindia.indiatimes.com/india/b/articleshow/102.cms";
             "https://timesofindia.indiatimes.com/india/c/articleshow/103.cms" ]).
  - lia.
  - unfold delay_in_range, SLEEP_MAX. simpl. lia.
  - reflexivity.
Defined.

(** A crawl of a site: no exception, at most [max_articles] records, each
    of them with an id, none of them empty; the network and the files are
    left alone; no record when the listing page cannot be fetched. *)
Lemma crawl_articles_effects s urljoin category max_articles delay_range w :
  0 <= max_articles ->
  delay_in_range delay_range ->
  exists articles w2,
    crawl_articles (site_scraper s urljoin) category max_articles delay_range w
      = (Ok articles, w2)
    /\ Forall has_string_id articles
    /\ (length articles <= Z.to_nat max_articles)%nat
    /\ http w2 = http w /\ fs w2 = fs w /\ writes w2 = writes w
    /\ (forall msg, http w (listing_url s category) = RequestException msg ->
          articles = []).
Proof.
  intros Hmax Hd.
  destruct (get_article_urls_effects s urljoin category 2%nat w)
    as (urls & w1 & Hu & _ & Hh1 & Hf1 & Hw1 & Hfail).
  destruct (crawl_articles_attempts s urljoin category max_articles delay_range w w1 urls
              Hmax Hd Hu) as (articles & w2 & Hc & Ha).
  exists articles, w2. split; [exact Hc|].
  destruct (attempts_effects _ _ _ _ _ Ha)
    as (_ & Hn & _ & Hall & Hh & _ & _ & _ & Hf & Hw).
  destruct (after_discovery_frame (site_name s) urls w1) as (_ & Hh0 & Hf0 & Hw0).
  split; [exact Hall|]. rewrite length_firstn in Hn.
  split; [lia|]. split; [congruence|]. split; [congruence|]. split; [congruence|].
  intros msg Hm. rewrite (Hfail msg Hm) in Ha. rewrite firstn_nil in Ha.
  now inversion Ha.
Qed.

(** ** The crawler *)

Lemma default_scraper urljoin cwd s :
  List.find (fun p => String.eqb (fst p) (site_key s))
    (scrapers (IndiaNewsCrawler.new urljoin cwd))
  = Some (site_key s, site_scraper s urljoin).
Proof. now destruct s. Qed.

Lemma unknown_scraper (self : Crawler) name :
  Forall (fun p => fst p <> name) (scrapers self) ->
  List.find (fun p => String.eqb (fst p) name) (scrapers self) = None.
Proof.
  induction 1 as [|p l Hp _ IH]; [reflexivity|].
  cbn [List.find]. apply String.eqb_neq in Hp. now rewrite Hp.
Qed.

Lemma default_delay_in_range : delay_in_range (2, 5).
Proof. unfold delay_in_range, SLEEP_MAX. simpl. lia. Qed.

(** X15.  [crawl_specific_website] on the crawler with its three scrapers
    and its default delay.  For one of the three site keys and a cap that is
    not negative it crawls at most [max_articles] records and then writes
    each of them, in order, to the file named after its id under
    [raw_dir/site/site]: it returns these records and has written these files
    and nothing else, or it raises the error with which the file system has
    refused one of the two directories or one of these files.  For a name
    that is not a key of a scraper it returns no record, logs one error and
    touches neither the network nor the files. *)
Theorem crawl_of_a_site_stores_its_records :
  (forall (urljoin : string -> string -> string) (cwd : string) (s : Site)
          (max_articles : Z) (w : World),
     0 <= max_articles ->
     let self := IndiaNewsCrawler.new urljoin cwd in
     let dir := category_dir_of self (site_key s) None in
     exists articles : list Article,
       (length articles <= Z.to_nat max_articles)%nat
       /\ Forall has_string_id articles
       /\ match IndiaNewsCrawler.crawl_specific_website self (site_key s) max_articles w with
          | (Ok returned, w') =>
              returned = articles
              /\ writes w' = (writes w ++ record_files dir articles)%list
          | (Raise e, _) =>
              fs_refuses w
                (path_join (raw_dir self) (site_key s) :: dir
                 :: List.map (record_file dir) articles) e
          end)
  /\ (forall (self : Crawler) (website_name : string) (max_articles : Z) (w : World),
        Forall (fun p => fst p <> website_name) (scrapers self) ->
        exists msg,
          IndiaNewsCrawler.crawl_specific_website self website_name max_articles w
            = (Ok [], set_log (log w ++ [(ERROR, msg)])%list w)).
Proof.
  split.
  - intros urljoin cwd s max_articles w Hmax self dir.
    unfold IndiaNewsCrawler.crawl_specific_website. subst self.
    rewrite default_scraper.
    unfold bind at 1. unfold logger at 1.
    set (w0 := set_log _ w).
    destruct (crawl_articles_effects s urljoin None max_articles
                (delay_min (config (IndiaNewsCrawler.new urljoin cwd)),
                 delay_max (config (IndiaNewsCrawler.new urljoin cwd))) w0 Hmax
                default_delay_in_range)
      as (articles & w2 & Hc & Hall & Hl & _ & Hf & Hw & _).
    exists articles. split; [exact Hl|]. split; [exact Hall|].
    erewrite bind_ok by exact Hc.
    pose proof (save_raw_data_cases (IndiaNewsCrawler.new urljoin cwd) (site_key s)
                  articles w2 Hall) as Hs.
    unfold bind at 1.
    destruct (IndiaNewsCrawler._save_raw_data _ (site_key s) None articles w2)
      as [[[]|e] w3].
    + destruct Hs as (Hw3 & _). split; [reflexivity|]. rewrite Hw3, Hw. reflexivity.
    + eapply fs_refuses_eq; [|exact Hs]. rewrite Hf. reflexivity.
  - intros self website_name max_articles w H.
    unfold IndiaNewsCrawler.crawl_specific_website.
    rewrite (unknown_scraper self website_name H). eexists. reflexivity.
Qed.

Lemma crawl_of_a_site_stores_its_records_witness :
  (exists articles : list Article,
     (length articles <= Z.to_nat 5)%nat
     /\ Forall has_string_id articles
     /\ match IndiaNewsCrawler.crawl_specific_website
                (IndiaNewsCrawler.new urljoin_abs_path "/srv/app") (site_key TOI) 5
                world_slash with
        | (Ok returned, w') =>
            returned = articles
            /\ writes w'
               = (writes world_slash
                  ++ record_files
                       (category_dir_of (IndiaNewsCrawler.new urljoin_abs_path "/srv/app")
                          (site_key TOI) None) articles)%list
        | (Raise e, _) =>
            fs_refuses world_slash
              (path_join (raw_dir (IndiaNewsCrawler.new urljoin_abs_path "/srv/app"))
                 (site_key TOI)
               :: category_dir_of (IndiaNewsCrawler.new urljoin_abs_path "/srv/app")
                    (site_key TOI) None
               :: List.map
                    (record_file
                       (category_dir_of (IndiaNewsCrawler.new urljoin_abs_path "/srv/app")
                          (site_key TOI) None)) articles) e
        end)
  /\ (exists msg,
        IndiaNewsCrawler.crawl_specific_website crawler0 "the_hindu" 5 world0
          = (Ok [], set_log (log world0 ++ [(ERROR, msg)])%list world0)).
Proof.
  split.
  - apply (proj1 crawl_of_a_site_stores_its_records urljoin_abs_path "/srv/app" TOI 5
             world_slash). lia.
  - apply (proj2 crawl_of_a_site_stores_its_records crawler0 "the_hindu" 5 world0).
    constructor.
Defined.

(** One round of the loop of [crawl_all]: the site is crawled and its
    records are written, or the file system refuses and the loop ends. *)
Lemma crawl_all_step self s urljoin rest results w :
  0 <= max_articles_per_website (config self) ->
  delay_in_range (delay_min (config self), delay_max (config self)) ->
  exists articles,
    (length articles <= Z.to_nat (max_articles_per_website (config self)))%nat
    /\ (forall msg, http w (site_base s) = RequestException msg -> articles = [])
    /\ ((exists w3,
           IndiaNewsCrawler.crawl_all_loop self ((site_key s, site_scraper s urljoin) :: rest)
             results w
           = IndiaNewsCrawler.crawl_all_loop self rest
               (results ++ [(site_key s, articles)])%list w3
           /\ http w3 = http w /\ fs w3 = fs w
           /\ writes w3
              = (writes w
                 ++ record_files (category_dir_of self (site_key s) None) articles)%list)
        \/ (exists e w3 paths,
              IndiaNewsCrawler.crawl_all_loop self
                ((site_key s, site_scraper s urljoin) :: rest) results w
              = (Raise e, w3)
              /\ fs_refuses w paths e)).
Proof.
  intros Hmax Hd.
  set (w0 := set_log (log w ++ [(INFO, crawling_message (site_key s))])%list w).
  destruct (crawl_articles_effects s urljoin None (max_articles_per_website (config self))
              (delay_min (config self), delay_max (config self)) w0 Hmax Hd)
    as (articles & w2 & Hc & Hall & Hl & Hh & Hf & Hw & Hfail).
  assert (Hstep :
    IndiaNewsCrawler.crawl_all_loop self ((site_key s, site_scraper s urljoin) :: rest)
      results w
    = (IndiaNewsCrawler._save_raw_data self (site_key s) None articles ;;
       IndiaNewsCrawler.crawl_all_loop self rest (results ++ [(site_key s, articles)])%list)
        w2).
  { cbn [IndiaNewsCrawler.crawl_all_loop]. unfold bind at 1. unfold logger at 1.
    fold w0. erewrite bind_ok by exact Hc. reflexivity. }
  rewrite Hstep. clear Hstep.
  exists articles. split; [exact Hl|]. split; [exact Hfail|].
  pose proof (save_raw_data_cases self (site_key s) articles w2 Hall) as Hs.
  unfold bind.
  destruct (IndiaNewsCrawler._save_raw_data self (site_key s) None articles w2)
    as [[[]|e] w3].
  - left. exists w3. destruct Hs as (Hw3 & Hh3 & Hf3).
    split; [reflexivity|]. split; [rewrite Hh3, Hh; reflexivity|].
    split; [rewrite Hf3, Hf; reflexivity|]. rewrite Hw3, Hw. reflexivity.
  - right. exists e, w3. eexists. split; [reflexivity|].
    eapply fs_refuses_eq; [|exact Hs]. rewrite Hf. reflexivity.
Qed.

(** X16.  [crawl_all] on the crawler with its three scrapers and its
    default configuration crawls the sites in the order Times of India,
    Hindustan Times, Economic Times and writes the records of each before it
    goes on to the next.  It returns one entry for each site, with at most 20
    records each, and has written each record to the file named after its id
    under the directory of its site, and nothing else; a site whose home page
    cannot be fetched has the empty list and does not keep the others from
    being crawled.  Or it raises: the one error that ends it is one with
    which the file system refuses a directory or a file; nothing catches
    it. *)
Theorem crawl_all_returns_an_entry_for_each_site :
  forall (urljoin : string -> string -> string) (cwd : string) (w : World),
    let self := IndiaNewsCrawler.new urljoin cwd in
    let files (s : Site) (articles : list Article) :=
      record_files (category_dir_of self (site_key s) None) articles in
    (exists (toi ht et : list Article) (w' : World),
       IndiaNewsCrawler.crawl_all self w
         = (Ok [ ("times_of_india", toi); ("hindustan_times", ht); ("economic_times", et) ],
            w')
       /\ (length toi <= 20)%nat /\ (length ht <= 20)%nat /\ (length et <= 20)%nat
       /\ writes w' = (writes w ++ files TOI toi ++ files HT ht ++ files ET et)%list
       /\ (forall msg, http w (site_base TOI) = RequestException msg -> toi = [])
       /\ (forall msg, http w (site_base HT) = RequestException msg -> ht = [])
       /\ (forall msg, http w (site_base ET) = RequestException msg -> et = []))
    \/ (exists (e : PyExc) (w' : World) (paths : list string),
          IndiaNewsCrawler.crawl_all self w = (Raise e, w')
          /\ fs_refuses w paths e).
Proof.
  intros urljoin cwd w self files. unfold IndiaNewsCrawler.crawl_all.
  assert (Hmax : 0 <= max_articles_per_website (config self)) by (simpl; lia).
  assert (Hd : delay_in_range (delay_min (config self), delay_max (config self)))
    by exact default_delay_in_range.
  change (scrapers self)
    with [ (site_key TOI, site_scraper TOI urljoin); (site_key HT, site_scraper HT urljoin);
           (site_key ET, site_scraper ET urljoin) ].
  destruct (crawl_all_step self TOI urljoin
              [ (site_key HT, site_scraper HT urljoin); (site_key ET, site_scraper ET urljoin) ]
              [] w Hmax Hd)
    as (toi & Hl1 & Hx1 & [(w1 & -> & Hh1 & Hf1 & Hw1)|(e & w1 & paths & -> & Hr)]);
    [|right; eauto].
  destruct (crawl_all_step self HT urljoin [ (site_key ET, site_scraper ET urljoin) ]
              ([] ++ [(site_key TOI, toi)])%list w1 Hmax Hd)
    as (ht & Hl2 & Hx2 & [(w2 & -> & Hh2 & Hf2 & Hw2)|(e & w2 & paths & -> & Hr)]).
  2: { right. exists e, w2, paths. split; [reflexivity|].
       eapply fs_refuses_eq; [|exact Hr]. exact Hf1. }
  destruct (crawl_all_step self ET urljoin []
              (([] ++ [(site_key TOI, toi)]) ++ [(site_key HT, ht)])%list w2 Hmax Hd)
    as (et & Hl3 & Hx3 & [(w3 & -> & Hh3 & Hf3 & Hw3)|(e & w3 & paths & -> & Hr)]).
  2: { right. exists e, w3, paths. split; [reflexivity|].
       eapply fs_refuses_eq; [|exact Hr]. rewrite Hf2. exact Hf1. }
  left. exists toi, ht, et, w3. split; [reflexivity|].
  change (Z.to_nat (max_articles_per_website (config self))) with 20%nat in *.
  rewrite Hh1 in Hx2. rewrite Hh2, Hh1 in Hx3.
  split; [exact Hl1|]. split; [exact Hl2|]. split; [exact Hl3|].
  split; [|auto].
  rewrite Hw3, Hw2, Hw1. subst files. cbv beta. rewrite <- !app_assoc. reflexivity.
Qed.

(** The crawl of the three sites, evaluated on a network that serves one
    Times of India article: one record, written to one file. *)
Example crawl_all_example :
  match IndiaNewsCrawler.crawl_all (IndiaNewsCrawler.new urljoin_abs_path "/srv/app")
          world_slash with
  | (Ok [ (_, [a]); (_, []); (_, []) ], w') =>
      writes w' = [("/srv/app/data/raw/times_of_india/times_of_india/.json", a)]
  | _ => False
  end.
Proof. vm_compute. reflexivity. Qed.

(** When the file system refuses a write, [_save_raw_data] raises, and so
    do [crawl_specific_website] and [crawl_all]: nothing catches the
    error. *)
Example crawl_raises_when_a_write_fails :
  let refuse : list (string * Article) -> FileSystem :=
    fun _ =>
      {| makedirs_error := fun _ => None;
         write_error := fun p => Some (OSError "[Errno 2] No such file or directory");
         listdir := fun _ => Ok [];
         isdir := fun _ => false;
         load_json := fun p => Raise (OSError "[Errno 2] No such file or directory") |} in
  let w :=
    {| rng_tape := rng_tape world_slash; rng_pos := 0; log := []; http := http world_slash;
       clock := clock world_slash; clock_pos := 0; runtime := runtime0;
       sleep_error := fun _ => None; fs := refuse; writes := [] |} in
  fst (IndiaNewsCrawler.crawl_all (IndiaNewsCrawler.new urljoin_abs_path "/srv/app") w)
  = Raise (OSError "[Errno 2] No such file or directory").
Proof. vm_compute. reflexivity. Qed.
